(** * Capability discovery and invocation backend

    A shallow embedding of [backend/registry.py], [backend/discovery.py]
    and the request handlers of [backend/main.py], followed by the
    properties of the registry, the discovery pass and the dispatcher.

    Layout:
    - [PyStr]      the [str] methods the handlers call;
    - [Py]         Python values, exceptions, [str()], [float()];
    - [Registry]   [EndpointMetadata] and [EndpointRegistry];
    - [Discovery]  [SystemDiscovery] over an explicit host;
    - [Main]       [execute_endpoint], [refresh_discovery] and friends;
    - [Json]       the grammar of JSON, for the statements on parsing;
    - [Spec]       the vocabulary of the statements, sample hosts;
    - the theorems. *)

From Stdlib Require Import ZArith String Ascii List.
From Stdlib Require Import Floats.PrimFloat Floats.SpecFloat Floats.FloatOps.
From stdpp Require Import gmap strings list fin_maps pretty.

Open Scope Z_scope.
Set Warnings "-clear-no-such-hyp".

(** ** Python [str] methods

    A Python [str] is modelled by a Rocq [string], one [ascii] per code
    point; the model covers ASCII text (code points below 128), which is
    where [upper], [lower] and [isspace] below agree with CPython. *)
Module PyStr.

Definition code (c : ascii) : N := N_of_ascii c.

(** [str.isspace] on one ASCII character: TAB, LF, VT, FF, CR, the four
    separators FS, GS, RS, US, and the space. *)
Definition isspace (c : ascii) : bool :=
  let n := code c in
  ((9 <=? n) && (n <=? 13) || (28 <=? n) && (n <=? 32))%N.

Definition upper_char (c : ascii) : ascii :=
  let n := code c in
  if ((97 <=? n) && (n <=? 122))%N then ascii_of_N (n - 32) else c.

Definition lower_char (c : ascii) : ascii :=
  let n := code c in
  if ((65 <=? n) && (n <=? 90))%N then ascii_of_N (n + 32) else c.

Fixpoint map_chars (f : ascii -> ascii) (s : string) : string :=
  match s with
  | EmptyString => EmptyString
  | String c s' => String (f c) (map_chars f s')
  end.

(** [s.upper()], [s.lower()], [s[::-1]] *)
Definition upper : string -> string := map_chars upper_char.
Definition lower : string -> string := map_chars lower_char.
Definition reverse : string -> string := String.rev.

(** [s.lstrip()], [s.rstrip()], [s.strip()] with no argument. *)
Fixpoint lstrip (s : string) : string :=
  match s with
  | EmptyString => EmptyString
  | String c s' => if isspace c then lstrip s' else s
  end.

Definition rstrip (s : string) : string := String.rev (lstrip (String.rev s)).

Definition strip (s : string) : string := rstrip (lstrip s).

(** [s.split()] with no argument: the maximal runs of non-space
    characters, in order; [cur] is the run being read, reversed. *)
Fixpoint split_ws_go (cur : string) (s : string) : list string :=
  match s with
  | EmptyString =>
      match cur with EmptyString => [] | _ => [String.rev cur] end
  | String c s' =>
      if isspace c
      then match cur with
           | EmptyString => split_ws_go EmptyString s'
           | _ => String.rev cur :: split_ws_go EmptyString s'
           end
      else split_ws_go (String c cur) s'
  end.

Definition split_ws (s : string) : list string := split_ws_go EmptyString s.

(** [s.split(sep)] for a one-character separator: every occurrence
    cuts, empty pieces are kept, the result is never empty. *)
Fixpoint split_char_go (sep : ascii) (cur : string) (s : string) : list string :=
  match s with
  | EmptyString => [String.rev cur]
  | String c s' =>
      if Ascii.eqb c sep
      then String.rev cur :: split_char_go sep EmptyString s'
      else split_char_go sep (String c cur) s'
  end.

Definition split_char (sep : ascii) (s : string) : list string :=
  split_char_go sep EmptyString s.

(** [s.startswith(p)] *)
Definition startswith (s p : string) : bool := String.prefix p s.

(** [s.replace(old, new)]: occurrences of [old] are replaced left to
    right without overlap; [skip] counts the characters of a matched
    occurrence still to be dropped.  An empty [old] matches before every
    character and at the end. *)
Fixpoint replace_go (old new : string) (skip : nat) (s : string) : string :=
  match s with
  | EmptyString => EmptyString
  | String c s' =>
      match skip with
      | S k => replace_go old new k s'
      | O =>
          if String.prefix old s
          then new +:+ replace_go old new (Nat.pred (String.length old)) s'
          else String c (replace_go old new O s')
      end
  end.

Fixpoint intersperse_all (new : string) (s : string) : string :=
  match s with
  | EmptyString => new
  | String c s' => new +:+ String c (intersperse_all new s')
  end.

Definition replace (s old new : string) : string :=
  match old with
  | EmptyString => intersperse_all new s
  | _ => replace_go old new O s
  end.

Fixpoint contains_char (c : ascii) (s : string) : bool :=
  match s with
  | EmptyString => false
  | String d s' => Ascii.eqb c d || contains_char c s'
  end.

Fixpoint join (sep : string) (l : list string) : string :=
  match l with
  | [] => EmptyString
  | [x] => x
  | x :: l' => x +:+ sep +:+ join sep l'
  end.

Definition hex_digit (n : N) : ascii :=
  if (n <? 10)%N then ascii_of_N (48 + n) else ascii_of_N (87 + n).

(** One character of [repr(s)] inside quotes [q]. *)
Definition repr_char (q : ascii) (c : ascii) : string :=
  let n := code c in
  if Ascii.eqb c "\"%char then "\\"
  else if Ascii.eqb c q then String "\"%char (String q EmptyString)
  else if (n =? 10)%N then "\n"
  else if (n =? 13)%N then "\r"
  else if (n =? 9)%N then "\t"
  else if ((n <? 32) || (n =? 127))%N
       then String "\"%char (String "x"%char
              (String (hex_digit (n / 16)) (String (hex_digit (n mod 16)) EmptyString)))
  else String c EmptyString.

Fixpoint repr_chars (q : ascii) (s : string) : string :=
  match s with
  | EmptyString => EmptyString
  | String c s' => repr_char q c +:+ repr_chars q s'
  end.

(** [repr(s)]: single quotes, unless the text has a single quote and no
    double quote. *)
Definition repr (s : string) : string :=
  let q := if contains_char "'"%char s && negb (contains_char "034"%char s)
           then "034"%char else "'"%char in
  String q (repr_chars q s +:+ String q EmptyString).

End PyStr.

(** ** Python values, exceptions and conversions *)
Module Py.

(** The exception classes the handlers can meet; all derive from
    [Exception].  [JSONDecodeError] is the only one a handler of
    [main.py] names; [HTTPException] is the one [main.py] raises itself,
    and [str()] of it is its [detail].  Classes without a constructor
    of their own, [RecursionError] among them, go by name under
    [OtherException]. *)
Inductive exn_class :=
| AttributeError | TypeError | ValueError | JSONDecodeError
| OverflowError | ZeroDivisionError | KeyError
| TimeoutExpired | OSError | ValidationError
| HTTPException (status_code : Z)
| OtherException (name : string).

Record exn := Exn { exn_cls : exn_class; exn_msg : string }.

(** [str(e)] *)
Definition str_exn (e : exn) : string := exn_msg e.

Definition is_JSONDecodeError (e : exn) : bool :=
  match exn_cls e with JSONDecodeError => true | _ => false end.

(** Outcome of evaluating a Python expression. *)
Inductive result (A : Type) :=
| Ok (a : A)
| Raise (e : exn).
Arguments Ok {A} a.
Arguments Raise {A} e.

Definition rbind {A B} (r : result A) (k : A -> result B) : result B :=
  match r with
  | Ok a => k a
  | Raise e => Raise e
  end.

(** JSON-shaped values: what a request body decodes to and what the
    discovery tables hold.  A [dict] value keeps its items in insertion
    order, as [str()] prints them. *)
#[warnings="-register-all"] Inductive value :=
| VNone
| VBool (b : bool)
| VInt (z : Z)
| VFloat (f : float)
| VStr (s : string)
| VList (l : list value)
| VDict (d : list (string * value)).

Definition type_name (v : value) : string :=
  match v with
  | VNone => "NoneType" | VBool _ => "bool" | VInt _ => "int"
  | VFloat _ => "float" | VStr _ => "str" | VList _ => "list"
  | VDict _ => "dict"
  end.

(** Truth value, as [if v] and [v or d] test it. *)
Definition truthy (v : value) : bool :=
  match v with
  | VNone => false
  | VBool b => b
  | VInt z => negb (z =? 0)
  | VFloat f => negb (PrimFloat.eqb f 0%float)
  | VStr s => negb (String.eqb s EmptyString)
  | VList l => match l with [] => false | _ => true end
  | VDict d => match d with [] => false | _ => true end
  end.

(** [float(z)] for an [int]: rounded to nearest even; a magnitude past
    the largest double raises. *)
Definition float_of_Z (z : Z) : float :=
  SF2Prim (binary_normalize prec emax z 0 false).

Definition float_of_int (z : Z) : result float :=
  let f := float_of_Z z in
  if PrimFloat.is_infinity f
  then Raise (Exn OverflowError "int too large to convert to float")
  else Ok f.

(** The pieces of the interpreter and of its standard library that the
    handlers call and that are not code of this repository. *)
Class Runtime := {
  (** [repr(f)] of a float *)
  float_repr : float -> string;
  (** [str(complex(re, im))] *)
  complex_repr : float -> float -> string;
  (** [float(s)] of a [str]; [None] when the text is no number *)
  float_of_str : string -> option float;
  (** [a ** b] on floats: a float, a complex number (negative base,
    fractional exponent) or an exception *)
  float_pow : float -> float -> result (float + float * float);
  (** [json.loads(s)] of a [str]: the decoded value, or the exception
    raised: [JSONDecodeError] for a text the decoder finds malformed,
    and others besides, such as [RecursionError] for a text nested
    deeper than the interpreter allows *)
  json_loads : string -> result value;
  (** [json.dumps(v, indent=2)] *)
  json_dumps : value -> result string;
  (** [d.isoformat()] of a [datetime] *)
  isoformat : Z -> string;
  (** [str(e)] of the [ValidationError] that pydantic raises when an
    [ExecuteResponse] is built with the value [v] as [output] and [v]
    is refused *)
  output_error : value -> string;
}.

Section WithRuntime.
Context `{Runtime}.

(** [repr(v)] *)
Fixpoint repr (v : value) : string :=
  match v with
  | VNone => "None"
  | VBool true => "True"
  | VBool false => "False"
  | VInt z => pretty z
  | VFloat f => float_repr f
  | VStr s => PyStr.repr s
  | VList l => "[" +:+ PyStr.join ", " (List.map repr l) +:+ "]"
  | VDict d =>
      "{" +:+ PyStr.join ", "
               (List.map (fun kv => match kv with
                                    | (k, x) => PyStr.repr k +:+ ": " +:+ repr x
                                    end) d) +:+ "}"
  end.

(** [str(v)] *)
Definition str (v : value) : string :=
  match v with
  | VStr s => s
  | _ => repr v
  end.

(** [float(v)] *)
Definition to_float (v : value) : result float :=
  match v with
  | VFloat f => Ok f
  | VInt z => float_of_int z
  | VBool b => Ok (if b then 1%float else 0%float)
  | VStr s =>
      match float_of_str s with
      | Some f => Ok f
      | None => Raise (Exn ValueError
                         ("could not convert string to float: " +:+ PyStr.repr s))
      end
  | _ => Raise (Exn TypeError
                  ("float() argument must be a string or a real number, not '"
                     +:+ type_name v +:+ "'"))
  end.

(** [json.loads(v)]: text goes to the decoder, anything else is refused
    before it. *)
Definition loads (v : value) : result value :=
  match v with
  | VStr s => json_loads s
  | _ => Raise (Exn TypeError
                  ("the JSON object must be str, bytes or bytearray, not "
                     +:+ type_name v))
  end.

End WithRuntime.

Definition no_attribute (v : value) (attr : string) : exn :=
  Exn AttributeError
      ("'" +:+ type_name v +:+ "' object has no attribute '" +:+ attr +:+ "'").

(** [v.upper()], [v.lower()], [v.split()], [v.replace(old, new)]: methods
    of [str] only. *)
Definition upper (v : value) : result value :=
  match v with
  | VStr s => Ok (VStr (PyStr.upper s))
  | _ => Raise (no_attribute v "upper")
  end.

Definition lower (v : value) : result value :=
  match v with
  | VStr s => Ok (VStr (PyStr.lower s))
  | _ => Raise (no_attribute v "lower")
  end.

Definition split (v : value) : result (list string) :=
  match v with
  | VStr s => Ok (PyStr.split_ws s)
  | _ => Raise (no_attribute v "split")
  end.

(** [v[::-1]]: text and lists reverse; nothing else can be sliced. *)
Definition reversed (v : value) : result value :=
  match v with
  | VStr s => Ok (VStr (PyStr.reverse s))
  | VList l => Ok (VList (List.rev l))
  | VDict _ => Raise (Exn TypeError "unhashable type: 'slice'")
  | _ => Raise (Exn TypeError
                  ("'" +:+ type_name v +:+ "' object is not subscriptable"))
  end.

(** [d.get(key, default)] on a dict. *)
Definition dict_get (d : gmap string value) (key : string) (default : value) : value :=
  match d !! key with
  | Some v => v
  | None => default
  end.

End Py.

(** ** registry.py *)
Module Registry.

(** [EndpointMetadata]: [parameters] is a dict from text to values,
    [discovered_at] the reading of the clock taken when the object is
    built. *)
Record EndpointMetadata := mk_EndpointMetadata {
  id : string;
  name : string;
  description : string;
  category : string;
  parameters : gmap string Py.value;
  discovered_at : Z;
}.

(** [EndpointRegistry._endpoints]: a dict keyed by endpoint id. *)
Abbreviation EndpointRegistry := (gmap string EndpointMetadata).

(** [EndpointRegistry()] *)
Definition init : EndpointRegistry := ∅.

(** [self._endpoints[endpoint.id] = endpoint] *)
Definition register (endpoint : EndpointMetadata) (self : EndpointRegistry)
  : EndpointRegistry :=
  <[id endpoint := endpoint]> self.

(** [key in d] *)
Definition dict_contains (key : string) (d : EndpointRegistry) : bool :=
  bool_decide (is_Some (d !! key)).

(** [del d[key]]: raises [KeyError] when the key is missing. *)
Definition dict_del (key : string) (d : EndpointRegistry)
  : Py.result EndpointRegistry :=
  match d !! key with
  | Some _ => Py.Ok (delete key d)
  | None => Py.Raise (Py.Exn Py.KeyError (PyStr.repr key))
  end.

Definition unregister (endpoint_id : string) (self : EndpointRegistry)
  : Py.result EndpointRegistry :=
  if dict_contains endpoint_id self
  then dict_del endpoint_id self
  else Py.Ok self.

(** [self._endpoints.get(endpoint_id)] *)
Definition get (endpoint_id : string) (self : EndpointRegistry)
  : option EndpointMetadata :=
  self !! endpoint_id.

(** The items of the dict, key with value; the model keeps no insertion
    order, the list comes in the map's own order. *)
Definition items (self : EndpointRegistry) : list (string * EndpointMetadata) :=
  map_to_list self.

(** [list(self._endpoints.values())] *)
Definition get_all (self : EndpointRegistry) : list EndpointMetadata :=
  (items self).*2.

Definition get_by_category (cat : string) (self : EndpointRegistry)
  : list EndpointMetadata :=
  List.filter (fun ep => String.eqb (category ep) cat) (get_all self).

Definition clear (self : EndpointRegistry) : EndpointRegistry := ∅.

(** [len(self._endpoints)] *)
Definition count (self : EndpointRegistry) : nat := size self.

(** The ids registered: the keys of the dict. *)
Definition ids (self : EndpointRegistry) : gset string := dom self.

End Registry.

(** ** The host and the process state

    What the code reaches outside itself: [shutil.which], [subprocess.run],
    the [platform] module, the clock and the random generator.  Of these
    [subprocess.run] and the [platform] functions can raise;
    [shutil.which] answers with a path or [None]. *)
Module Sys.

(** [subprocess.CompletedProcess], with [capture_output=True, text=True]. *)
Record CompletedProcess := mk_CompletedProcess {
  returncode : Z;
  stdout : string;
  stderr : string;
}.

Record Host := {
  (** [shutil.which(cmd)]: the path found, or [None] *)
  which : string -> option string;
  (** [subprocess.run(argv, capture_output=True, text=True, timeout=t)]:
    a completed process, or the exception raised ([TimeoutExpired]
    when the bound is passed, [OSError] when the program cannot be
    started, ...) *)
  run : list string -> Z -> Py.result CompletedProcess;
  (** [platform.system()], [platform.release()], [platform.version()],
    [platform.machine()], [platform.processor()]: the text answered, or
    the exception raised; a host answers one way every time *)
  platform_system : Py.result string;
  platform_release : Py.result string;
  platform_version : Py.result string;
  platform_machine : Py.result string;
  platform_processor : Py.result string;
  (** [datetime.now()], by the number of readings taken before *)
  clock : nat -> Z;
  (** [random.random()], by the number of draws taken before *)
  random_unit : nat -> float;
}.

(** The mutable state of the process: the module-level [registry] of
    [main.py], and how far the clock and the generator have been read. *)
Record World := mk_World {
  registry : Registry.EndpointRegistry;
  clock_reads : nat;
  random_draws : nat;
}.

Definition set_registry (r : Registry.EndpointRegistry) (w : World) : World :=
  mk_World r (clock_reads w) (random_draws w).

(** Statements: they run in a world, leave a world, and either yield a
    value or raise.  What was written before a raise stays written. *)
Definition M (A : Type) : Type := World -> Py.result A * World.

Definition ret {A} (a : A) : M A := fun w => (Py.Ok a, w).

Definition raise {A} (e : Py.exn) : M A := fun w => (Py.Raise e, w).

Definition bind {A B} (m : M A) (k : A -> M B) : M B :=
  fun w =>
    match m w with
    | (Py.Ok a, w') => k a w'
    | (Py.Raise e, w') => (Py.Raise e, w')
    end.

(** An expression that only computes. *)
Definition lift {A} (r : Py.result A) : M A := fun w => (r, w).

(** [try: body  except Exception as e: handler(e)] *)
Definition try_except {A} (body : M A) (handler : Py.exn -> M A) : M A :=
  fun w =>
    match body w with
    | (Py.Ok a, w') => (Py.Ok a, w')
    | (Py.Raise e, w') => handler e w'
    end.

(** [try: body  except C as e: handler(e)] for a class test [is_C]. *)
Definition try_except_class {A} (is_C : Py.exn -> bool)
           (body : M A) (handler : Py.exn -> M A) : M A :=
  try_except body (fun e => if is_C e then handler e else raise e).

(** [for x in l: body(x)] *)
Fixpoint for_each {A} (l : list A) (body : A -> M unit) : M unit :=
  match l with
  | [] => ret tt
  | x :: l' => bind (body x) (fun _ => for_each l' body)
  end.

Definition get_registry : M Registry.EndpointRegistry :=
  fun w => (Py.Ok (registry w), w).

Definition modify_registry (f : Registry.EndpointRegistry -> Registry.EndpointRegistry)
  : M unit :=
  fun w => (Py.Ok tt, set_registry (f (registry w)) w).

Section WithHost.
Context (host : Host).

(** [datetime.now()] *)
Definition datetime_now : M Z :=
  fun w => (Py.Ok (clock host (clock_reads w)),
            mk_World (registry w) (S (clock_reads w)) (random_draws w)).

(** [random.random()] *)
Definition random_random : M float :=
  fun w => (Py.Ok (random_unit host (random_draws w)),
            mk_World (registry w) (clock_reads w) (S (random_draws w))).

(** [subprocess.run(argv, capture_output=True, text=True, timeout=t)] *)
Definition subprocess_run (argv : list string) (timeout : Z) : M CompletedProcess :=
  lift (run host argv timeout).

(** [if shutil.which(cmd):] the truth value of the path found. *)
Definition which_found (cmd : string) : bool :=
  match which host cmd with
  | Some path => Py.truthy (Py.VStr path)
  | None => false
  end.

End WithHost.

End Sys.

Declare Scope py_scope.
Delimit Scope py_scope with py.
Notation "x <- m ;; k" := (Sys.bind m (fun x => k))
  (at level 100, m at next level, right associativity) : py_scope.
Notation "m ;;; k" := (Sys.bind m (fun _ => k))
  (at level 100, right associativity) : py_scope.

(** ** discovery.py *)
Module Discovery.
Import Sys.
Local Open Scope py_scope.

(** One row of the [sample_modules] table. *)
Record module_row := mk_row {
  row_id : string;
  row_name : string;
  row_description : string;
  row_category : string;
  row_parameters : list (string * Py.value);
}.

Definition sample_modules : list module_row :=
  [ mk_row "sample_text_uppercase" "Text to Uppercase"
      "Converts text to uppercase" "Text Processing"
      [("input", Py.VStr "text")];
    mk_row "sample_text_lowercase" "Text to Lowercase"
      "Converts text to lowercase" "Text Processing"
      [("input", Py.VStr "text")];
    mk_row "sample_text_reverse" "Reverse Text"
      "Reverses the order of characters in text" "Text Processing"
      [("input", Py.VStr "text")];
    mk_row "sample_text_word_count" "Count Words"
      "Counts the number of words in text" "Text Processing"
      [("input", Py.VStr "text")];
    mk_row "sample_math_add" "Add Numbers"
      "Adds two numbers together" "Math Operations"
      [("a", Py.VInt 0); ("b", Py.VInt 0)];
    mk_row "sample_math_multiply" "Multiply Numbers"
      "Multiplies two numbers together" "Math Operations"
      [("a", Py.VInt 1); ("b", Py.VInt 1)];
    mk_row "sample_math_power" "Power"
      "Raises a number to a power" "Math Operations"
      [("base", Py.VInt 2); ("exponent", Py.VInt 2)];
    mk_row "sample_data_json_parse" "Parse JSON"
      "Parses a JSON string into an object" "Data Processing"
      [("json_string", Py.VStr "{}")];
    mk_row "sample_data_json_stringify" "Stringify JSON"
      "Converts an object to a JSON string" "Data Processing"
      [("data", Py.VDict [])];
    mk_row "sample_util_delay" "Delay"
      "Waits for a specified number of seconds" "Utilities"
      [("seconds", Py.VInt 1)];
    mk_row "sample_util_timestamp" "Get Timestamp"
      "Gets the current timestamp" "Utilities"
      [];
    mk_row "sample_util_random" "Random Number"
      "Generates a random number between min and max" "Utilities"
      [("min", Py.VInt 0); ("max", Py.VInt 100)];
    mk_row "sample_string_concat" "Concatenate Strings"
      "Combines two strings together" "Text Processing"
      [("str1", Py.VStr EmptyString); ("str2", Py.VStr EmptyString)];
    mk_row "sample_string_replace" "Replace Text"
      "Replaces occurrences of text in a string" "Text Processing"
      [("text", Py.VStr EmptyString); ("old", Py.VStr EmptyString);
       ("new", Py.VStr EmptyString)] ].

(** The tool tables: command, display name, description. *)
Definition common_tools : list (string * (string * string)) :=
  [ ("python", ("Python", "Python interpreter"));
    ("node", ("Node.js", "Node.js runtime"));
    ("npm", ("NPM", "Node Package Manager"));
    ("git", ("Git", "Git version control"));
    ("docker", ("Docker", "Docker container platform"));
    ("kubectl", ("Kubernetes", "Kubernetes CLI")) ].

Definition python_tools : list (string * (string * string)) :=
  [ ("pip", ("pip", "Python package installer"));
    ("pipenv", ("Pipenv", "Python dependency management"));
    ("poetry", ("Poetry", "Python dependency and package management"));
    ("black", ("Black", "Python code formatter"));
    ("flake8", ("Flake8", "Python linter"));
    ("pytest", ("pytest", "Python testing framework")) ].

Definition node_tools : list (string * (string * string)) :=
  [ ("yarn", ("Yarn", "Yarn package manager"));
    ("pnpm", ("pnpm", "pnpm package manager"));
    ("npx", ("npx", "Execute npm packages"));
    ("tsc", ("TypeScript Compiler", "TypeScript compiler")) ].

Section WithHost.
Context (host : Host).

(** [EndpointMetadata(id=..., ..., parameters=...)]: the timestamp is
    the default factory's, read when the object is built. *)
Definition new_endpoint (id name description category : string)
           (parameters : list (string * Py.value)) : M Registry.EndpointMetadata :=
  now <- datetime_now host ;;
  ret (Registry.mk_EndpointMetadata id name description category
         (list_to_map (List.rev parameters)) now).

(** [self.registry.register(endpoint)] *)
Definition register (endpoint : Registry.EndpointMetadata) : M unit :=
  modify_registry (Registry.register endpoint).

(** [l[0]] *)
Definition first_item (l : list string) : Py.result string :=
  match l with
  | x :: _ => Py.Ok x
  | [] => Py.Raise (Py.Exn (Py.OtherException "IndexError") "list index out of range")
  end.

Definition _get_version (command : string) : M string :=
  found <- try_except
             (result <- subprocess_run host [command; "--version"] 2 ;;
              if returncode result =? 0
              then line <- lift (first_item
                                   (PyStr.split_char "010"%char
                                      (PyStr.strip (stdout result)))) ;;
                   ret (Some line)
              else ret None)
             (fun _ => ret None) ;;
  match found with
  | Some version => ret version
  | None => ret "unknown"
  end.

Definition discover_sample_modules : M unit :=
  for_each sample_modules (fun module =>
    endpoint <- new_endpoint (row_id module) (row_name module)
                  (row_description module) (row_category module)
                  (row_parameters module) ;;
    register endpoint).

Definition discover_common_tools : M unit :=
  for_each common_tools (fun entry =>
    let tool := entry.1 in
    let info := entry.2 in
    if which_found host tool
    then version <- _get_version tool ;;
         endpoint <- new_endpoint ("tool_" +:+ tool) info.1 info.2 "Tools"
                       [("command", Py.VStr tool); ("version", Py.VStr version)] ;;
         register endpoint
    else ret tt).

Definition discover_python_tools : M unit :=
  for_each python_tools (fun entry =>
    let tool := entry.1 in
    let info := entry.2 in
    if which_found host tool
    then endpoint <- new_endpoint ("python_" +:+ tool) info.1 info.2 "Python Tools"
                       [("command", Py.VStr tool)] ;;
         register endpoint
    else ret tt).

Definition discover_node_tools : M unit :=
  for_each node_tools (fun entry =>
    let tool := entry.1 in
    let info := entry.2 in
    if which_found host tool
    then endpoint <- new_endpoint ("node_" +:+ tool) info.1 info.2 "Node.js Tools"
                       [("command", Py.VStr tool)] ;;
         register endpoint
    else ret tt).

Definition discover_git_tools : M unit :=
  if which_found host "git"
  then try_except
         (result <- subprocess_run host ["git"; "rev-parse"; "--is-inside-work-tree"] 2 ;;
          if returncode result =? 0
          then endpoint <- new_endpoint "git_repo" "Git Repository"
                             "Current directory is a Git repository" "Git"
                             [("is_repo", Py.VStr "true")] ;;
               register endpoint
          else ret tt)
         (fun _ => ret tt)
  else ret tt.

(** The arguments of the constructor are evaluated in the order they are
    written, the two queries of the description first; no handler is
    around them. *)
Definition discover_system_info : M unit :=
  title_system <- lift (platform_system host) ;;
  title_release <- lift (platform_release host) ;;
  system <- lift (platform_system host) ;;
  release <- lift (platform_release host) ;;
  version <- lift (platform_version host) ;;
  machine <- lift (platform_machine host) ;;
  processor <- lift (platform_processor host) ;;
  system_info <- new_endpoint "system_info" "System Information"
                   ("System: " +:+ title_system +:+ " " +:+ title_release)
                   "System"
                   [("system", Py.VStr system);
                    ("release", Py.VStr release);
                    ("version", Py.VStr version);
                    ("machine", Py.VStr machine);
                    ("processor", Py.VStr processor)] ;;
  register system_info.

Definition discover_all : M unit :=
  discover_sample_modules ;;;
  discover_common_tools ;;;
  discover_python_tools ;;;
  discover_node_tools ;;;
  discover_git_tools ;;;
  discover_system_info.

End WithHost.

End Discovery.

(** ** main.py *)
Module Main.
Import Sys.
Local Open Scope py_scope.

Record ExecuteRequest := mk_ExecuteRequest {
  parameters : option (gmap string Py.value);
}.

Record ExecuteResponse := mk_ExecuteResponse {
  success : bool;
  message : string;
  output : option string;
}.

Record EndpointResponse := mk_EndpointResponse {
  resp_id : string;
  resp_name : string;
  resp_description : string;
  resp_category : string;
  resp_parameters : gmap string Py.value;
  resp_discovered_at : string;
}.

Section WithRuntime.
Context `{Py.Runtime}.

(** [ExecuteResponse(success=..., message=..., output=v)]: the model
    validates [output: Optional[str]]; text and [None] pass, a list or a
    dict is refused with the error text of the validator.  In [main.py]
    a value comes here from [upper], [lower] or a slice, so it is text
    or a list. *)
Definition ExecuteResponse_of (success : bool) (message : string) (output : Py.value)
  : Py.result ExecuteResponse :=
  match output with
  | Py.VStr s => Py.Ok (mk_ExecuteResponse success message (Some s))
  | Py.VNone => Py.Ok (mk_ExecuteResponse success message None)
  | _ => Py.Raise (Py.Exn Py.ValidationError (Py.output_error output))
  end.

End WithRuntime.

(** The elements of an argv must be text. *)
Fixpoint argv_of (l : list Py.value) : Py.result (list string) :=
  match l with
  | [] => Py.Ok []
  | Py.VStr s :: l' => Py.rbind (argv_of l') (fun r => Py.Ok (s :: r))
  | v :: _ => Py.Raise (Py.Exn Py.TypeError
                          ("expected str, bytes or os.PathLike object, not "
                             +:+ Py.type_name v))
  end.

Definition is_tool_id (endpoint_id : string) : bool :=
  PyStr.startswith endpoint_id "tool_"
  || PyStr.startswith endpoint_id "python_"
  || PyStr.startswith endpoint_id "node_".

Section WithHost.
Context `{Py.Runtime} (host : Host).

(** [await asyncio.sleep(seconds)]: the wait itself is not observable
    here; control comes back with nothing changed. *)
Definition asyncio_sleep (seconds : float) : M unit := ret tt.

(** [random.uniform(a, b)] *)
Definition random_uniform (a b : float) : M float :=
  u <- random_random host ;;
  ret (a + (b - a) * u)%float.

Definition EndpointResponse_from_metadata (metadata : Registry.EndpointMetadata)
  : EndpointResponse :=
  mk_EndpointResponse (Registry.id metadata) (Registry.name metadata)
    (Registry.description metadata) (Registry.category metadata)
    (Registry.parameters metadata)
    (Py.isoformat (Registry.discovered_at metadata)).

(** [GET /api/health]: the number of endpoints registered. *)
Definition health_check : M nat :=
  r <- get_registry ;; ret (Registry.count r).

(** [GET /api/discover] *)
Definition discover_endpoints : M (list EndpointResponse) :=
  r <- get_registry ;;
  ret (List.map EndpointResponse_from_metadata (Registry.get_all r)).

(** The branch of [execute_endpoint] for ids that start with
    [tool_], [python_] or [node_]. *)
Definition execute_tool (endpoint_id : string) (endpoint : Registry.EndpointMetadata)
  : M ExecuteResponse :=
  let command := Py.dict_get (Registry.parameters endpoint) "command"
                   (Py.VStr endpoint_id) in
  argv <- lift (argv_of (if Py.truthy command
                         then [command; Py.VStr "--version"]
                         else [Py.VStr endpoint_id])) ;;
  result <- subprocess_run host argv 5 ;;
  if returncode result =? 0
  then ret (mk_ExecuteResponse true
              ("Successfully executed " +:+ Registry.name endpoint)
              (Some (stdout result)))
  else ret (mk_ExecuteResponse false
              ("Execution failed: " +:+ stderr result)
              (Some (stderr result))).

Definition execute_system_info : M ExecuteResponse :=
  system <- lift (platform_system host) ;;
  release <- lift (platform_release host) ;;
  version <- lift (platform_version host) ;;
  machine <- lift (platform_machine host) ;;
  let info := Py.VDict [("system", Py.VStr system);
                        ("release", Py.VStr release);
                        ("version", Py.VStr version);
                        ("machine", Py.VStr machine)] in
  ret (mk_ExecuteResponse true "System information retrieved" (Some (Py.str info))).

Definition execute_git_repo : M ExecuteResponse :=
  try_except
    (result <- subprocess_run host ["git"; "status"; "--short"] 2 ;;
     ret (mk_ExecuteResponse true "Git repository status"
            (Some (if returncode result =? 0 then stdout result else "No changes"))))
    (fun e => ret (mk_ExecuteResponse false
                     ("Error getting git status: " +:+ Py.str_exn e) None)).

(** The [sample_] branch, by exact id. *)
Definition execute_sample (endpoint_id : string) (params : gmap string Py.value)
  : M ExecuteResponse :=
  if String.eqb endpoint_id "sample_text_uppercase" then
    let text := Py.dict_get params "input" (Py.VStr EmptyString) in
    result <- lift (Py.upper text) ;;
    lift (ExecuteResponse_of true "Text converted to uppercase" result)
  else if String.eqb endpoint_id "sample_text_lowercase" then
    let text := Py.dict_get params "input" (Py.VStr EmptyString) in
    result <- lift (Py.lower text) ;;
    lift (ExecuteResponse_of true "Text converted to lowercase" result)
  else if String.eqb endpoint_id "sample_text_reverse" then
    let text := Py.dict_get params "input" (Py.VStr EmptyString) in
    result <- lift (Py.reversed text) ;;
    lift (ExecuteResponse_of true "Text reversed" result)
  else if String.eqb endpoint_id "sample_text_word_count" then
    let text := Py.dict_get params "input" (Py.VStr EmptyString) in
    words <- lift (Py.split text) ;;
    let count := Z.of_nat (List.length words) in
    ret (mk_ExecuteResponse true "Word count calculated"
           (Some (Py.str (Py.VInt count))))
  else if String.eqb endpoint_id "sample_math_add" then
    a <- lift (Py.to_float (Py.dict_get params "a" (Py.VInt 0))) ;;
    b <- lift (Py.to_float (Py.dict_get params "b" (Py.VInt 0))) ;;
    let result := (a + b)%float in
    ret (mk_ExecuteResponse true "Numbers added"
           (Some (Py.str (Py.VFloat result))))
  else if String.eqb endpoint_id "sample_math_multiply" then
    a <- lift (Py.to_float (Py.dict_get params "a" (Py.VInt 1))) ;;
    b <- lift (Py.to_float (Py.dict_get params "b" (Py.VInt 1))) ;;
    let result := (a * b)%float in
    ret (mk_ExecuteResponse true "Numbers multiplied"
           (Some (Py.str (Py.VFloat result))))
  else if String.eqb endpoint_id "sample_math_power" then
    base <- lift (Py.to_float (Py.dict_get params "base" (Py.VInt 2))) ;;
    exponent <- lift (Py.to_float (Py.dict_get params "exponent" (Py.VInt 2))) ;;
    result <- lift (Py.float_pow base exponent) ;;
    ret (mk_ExecuteResponse true "Power calculated"
           (Some (match result with
                  | inl f => Py.str (Py.VFloat f)
                  | inr (re, im) => Py.complex_repr re im
                  end)))
  else if String.eqb endpoint_id "sample_data_json_parse" then
    let json_string := Py.dict_get params "json_string" (Py.VStr "{}") in
    try_except_class Py.is_JSONDecodeError
      (parsed <- lift (Py.loads json_string) ;;
       ret (mk_ExecuteResponse true "JSON parsed successfully"
              (Some (Py.str parsed))))
      (fun e => ret (mk_ExecuteResponse false
                       ("JSON parse error: " +:+ Py.str_exn e) None))
  else if String.eqb endpoint_id "sample_data_json_stringify" then
    let data := Py.dict_get params "data" (Py.VDict []) in
    try_except
      (result <- lift (Py.json_dumps data) ;;
       ret (mk_ExecuteResponse true "Data stringified to JSON" (Some result)))
      (fun e => ret (mk_ExecuteResponse false
                       ("JSON stringify error: " +:+ Py.str_exn e) None))
  else if String.eqb endpoint_id "sample_util_delay" then
    seconds <- lift (Py.to_float (Py.dict_get params "seconds" (Py.VInt 1))) ;;
    asyncio_sleep seconds ;;;
    ret (mk_ExecuteResponse true
           ("Delayed for " +:+ Py.str (Py.VFloat seconds) +:+ " seconds")
           (Some "Delay completed"))
  else if String.eqb endpoint_id "sample_util_timestamp" then
    now <- datetime_now host ;;
    let timestamp := Py.isoformat now in
    ret (mk_ExecuteResponse true "Timestamp retrieved" (Some timestamp))
  else if String.eqb endpoint_id "sample_util_random" then
    min_val <- lift (Py.to_float (Py.dict_get params "min" (Py.VInt 0))) ;;
    max_val <- lift (Py.to_float (Py.dict_get params "max" (Py.VInt 100))) ;;
    result <- random_uniform min_val max_val ;;
    ret (mk_ExecuteResponse true "Random number generated"
           (Some (Py.str (Py.VFloat result))))
  else if String.eqb endpoint_id "sample_string_concat" then
    let str1 := Py.str (Py.dict_get params "str1" (Py.VStr EmptyString)) in
    let str2 := Py.str (Py.dict_get params "str2" (Py.VStr EmptyString)) in
    let result := str1 +:+ str2 in
    ret (mk_ExecuteResponse true "Strings concatenated" (Some result))
  else if String.eqb endpoint_id "sample_string_replace" then
    let text := Py.str (Py.dict_get params "text" (Py.VStr EmptyString)) in
    let old_str := Py.str (Py.dict_get params "old" (Py.VStr EmptyString)) in
    let new_str := Py.str (Py.dict_get params "new" (Py.VStr EmptyString)) in
    let result := PyStr.replace text old_str new_str in
    ret (mk_ExecuteResponse true "Text replaced" (Some result))
  else
    ret (mk_ExecuteResponse false
           ("Unknown sample module: " +:+ endpoint_id) None).

(** [request.parameters or {}] *)
Definition params_of (request : ExecuteRequest) : gmap string Py.value :=
  match parameters request with
  | Some params => params
  | None => ∅
  end.

(** The body of the [try] of [execute_endpoint]: the strategy picked by
    the id. *)
Definition strategy (endpoint_id : string) (endpoint : Registry.EndpointMetadata)
           (request : ExecuteRequest) : M ExecuteResponse :=
  if is_tool_id endpoint_id then
    execute_tool endpoint_id endpoint
  else if String.eqb endpoint_id "system_info" then
    execute_system_info
  else if String.eqb endpoint_id "git_repo" then
    execute_git_repo
  else if PyStr.startswith endpoint_id "sample_" then
    execute_sample endpoint_id (params_of request)
  else
    ret (mk_ExecuteResponse true
           ("Endpoint " +:+ Registry.name endpoint +:+ " executed")
           (Some ("Endpoint ID: " +:+ endpoint_id))).

(** [POST /api/execute/{endpoint_id}] *)
Definition execute_endpoint (endpoint_id : string) (request : ExecuteRequest)
  : M ExecuteResponse :=
  r <- get_registry ;;
  match Registry.get endpoint_id r with
  | None =>
      raise (Py.Exn (Py.HTTPException 404)
               ("Endpoint '" +:+ endpoint_id +:+ "' not found"))
  | Some endpoint =>
      try_except
        (strategy endpoint_id endpoint request)
        (fun e => ret (mk_ExecuteResponse false
                         ("Error executing endpoint: " +:+ Py.str_exn e) None))
  end.

(** [startup_event] *)
Definition startup_event : M unit := Discovery.discover_all host.

(** [POST /api/refresh]: the number of endpoints after the new pass. *)
Definition refresh_discovery : M nat :=
  modify_registry Registry.clear ;;;
  Discovery.discover_all host ;;;
  r <- get_registry ;;
  ret (Registry.count r).

End WithHost.

End Main.

(** ** Well-formed JSON

    The claim on the parse operation speaks of well-formed JSON.  This
    is the grammar of RFC 8259 for a JSON text, [ws value ws], read one
    character at a time by an automaton with a stack of the arrays and
    objects that are open. *)
Module Json.

Inductive container := InArray | InObject.

Inductive state :=
| Value (first : bool)
| Key (first : bool)
| Colon
| After
| Str (key : bool)
| Esc (key : bool)
| Hex (key : bool) (due : nat)
| Lit (rest : string)
| Minus | Zero | Int | Dot | Frac | ExpMark | ExpSign | Exp.

Definition code (c : ascii) : N := N_of_ascii c.

(** [ws]: space, horizontal tab, line feed, carriage return. *)
Definition is_ws (c : ascii) : bool :=
  let n := code c in ((n =? 32) || (n =? 9) || (n =? 10) || (n =? 13))%N.

Definition is_digit (c : ascii) : bool :=
  let n := code c in ((48 <=? n) && (n <=? 57))%N.

Definition is_digit19 (c : ascii) : bool :=
  let n := code c in ((49 <=? n) && (n <=? 57))%N.

Definition is_hex (c : ascii) : bool :=
  let n := code c in
  (((48 <=? n) && (n <=? 57)) || ((65 <=? n) && (n <=? 70))
   || ((97 <=? n) && (n <=? 102)))%N.

Definition is_e (c : ascii) : bool :=
  Ascii.eqb c "e"%char || Ascii.eqb c "E"%char.

(** The characters that may follow a backslash, [u] apart. *)
Definition is_escape (c : ascii) : bool :=
  Ascii.eqb c "034"%char || Ascii.eqb c "\"%char || Ascii.eqb c "/"%char
  || Ascii.eqb c "b"%char || Ascii.eqb c "f"%char || Ascii.eqb c "n"%char
  || Ascii.eqb c "r"%char || Ascii.eqb c "t"%char.

(** After a complete value: a separator or the end of the container
    that is open, or only [ws] when none is. *)
Definition step_after (stack : list container) (c : ascii)
  : option (state * list container) :=
  if is_ws c then Some (After, stack)
  else match stack with
       | InArray :: below =>
           if Ascii.eqb c ","%char then Some (Value false, stack)
           else if Ascii.eqb c "]"%char then Some (After, below)
           else None
       | InObject :: below =>
           if Ascii.eqb c ","%char then Some (Key false, stack)
           else if Ascii.eqb c "}"%char then Some (After, below)
           else None
       | [] => None
       end.

(** Where a value is due; [first] says the array was just opened, so
    that it may close at once. *)
Definition step_value (first : bool) (stack : list container) (c : ascii)
  : option (state * list container) :=
  if is_ws c then Some (Value first, stack)
  else if Ascii.eqb c "{"%char then Some (Key true, InObject :: stack)
  else if Ascii.eqb c "["%char then Some (Value true, InArray :: stack)
  else if Ascii.eqb c "]"%char then
    match first, stack with
    | true, InArray :: below => Some (After, below)
    | _, _ => None
    end
  else if Ascii.eqb c "034"%char then Some (Str false, stack)
  else if Ascii.eqb c "-"%char then Some (Minus, stack)
  else if Ascii.eqb c "0"%char then Some (Zero, stack)
  else if is_digit19 c then Some (Int, stack)
  else if Ascii.eqb c "t"%char then Some (Lit "rue", stack)
  else if Ascii.eqb c "f"%char then Some (Lit "alse", stack)
  else if Ascii.eqb c "n"%char then Some (Lit "ull", stack)
  else None.

Definition step (st : state) (stack : list container) (c : ascii)
  : option (state * list container) :=
  match st with
  | Value first => step_value first stack c
  | Key first =>
      if is_ws c then Some (Key first, stack)
      else if Ascii.eqb c "034"%char then Some (Str true, stack)
      else if Ascii.eqb c "}"%char then
        match first, stack with
        | true, InObject :: below => Some (After, below)
        | _, _ => None
        end
      else None
  | Colon =>
      if is_ws c then Some (Colon, stack)
      else if Ascii.eqb c ":"%char then Some (Value false, stack)
      else None
  | After => step_after stack c
  | Str key =>
      if Ascii.eqb c "034"%char then Some (if key then Colon else After, stack)
      else if Ascii.eqb c "\"%char then Some (Esc key, stack)
      else if (code c <? 32)%N then None
      else Some (Str key, stack)
  | Esc key =>
      if is_escape c then Some (Str key, stack)
      else if Ascii.eqb c "u"%char then Some (Hex key 4, stack)
      else None
  | Hex key due =>
      if is_hex c
      then match due with
           | S (S more) => Some (Hex key (S more), stack)
           | _ => Some (Str key, stack)
           end
      else None
  | Lit rest =>
      match rest with
      | String d EmptyString =>
          if Ascii.eqb c d then Some (After, stack) else None
      | String d rest' =>
          if Ascii.eqb c d then Some (Lit rest', stack) else None
      | EmptyString => None
      end
  | Minus =>
      if Ascii.eqb c "0"%char then Some (Zero, stack)
      else if is_digit19 c then Some (Int, stack)
      else None
  | Zero =>
      if Ascii.eqb c "."%char then Some (Dot, stack)
      else if is_e c then Some (ExpMark, stack)
      else step_after stack c
  | Int =>
      if is_digit c then Some (Int, stack)
      else if Ascii.eqb c "."%char then Some (Dot, stack)
      else if is_e c then Some (ExpMark, stack)
      else step_after stack c
  | Dot => if is_digit c then Some (Frac, stack) else None
  | Frac =>
      if is_digit c then Some (Frac, stack)
      else if is_e c then Some (ExpMark, stack)
      else step_after stack c
  | ExpMark =>
      if Ascii.eqb c "+"%char || Ascii.eqb c "-"%char then Some (ExpSign, stack)
      else if is_digit c then Some (Exp, stack)
      else None
  | ExpSign => if is_digit c then Some (Exp, stack) else None
  | Exp =>
      if is_digit c then Some (Exp, stack)
      else step_after stack c
  end.

(** At the end of the text: one value is complete and nothing is open. *)
Definition accepting (st : state) (stack : list container) : bool :=
  match stack, st with
  | [], (After | Zero | Int | Frac | Exp) => true
  | _, _ => false
  end.

Fixpoint run (st : state) (stack : list container) (s : string) : bool :=
  match s with
  | EmptyString => accepting st stack
  | String c s' =>
      match step st stack c with
      | Some (st', stack') => run st' stack' s'
      | None => false
      end
  end.



(** The number of [[] characters a text starts with. *)
Fixpoint leading_opens (s : string) : N :=
  match s with
  | String c s' => if Ascii.eqb c "["%char then N.succ (leading_opens s') else 0%N
  | EmptyString => 0%N
  end.

End Json.

(** ** Vocabulary of the statements *)
Module Spec.
Import Sys.

Definition LF : string := String "010"%char EmptyString.

(** The first line of a text: [s.split('\n')[0]]. *)
Definition first_line (s : string) : string :=
  match PyStr.split_char "010"%char s with
  | x :: _ => x
  | [] => EmptyString
  end.

(** The world of a process that has just started: nothing registered,
    the clock and the generator not read yet. *)
Definition fresh : World := mk_World Registry.init 0 0.

(** The probes that run their subprocess queries under a handler of
    their own, or run none, in the order [discover_all] runs them; the
    sixth and last probe of the pass, [discover_system_info], asks the
    platform with no handler around. *)
Definition guarded_probes : list (Host -> M unit) :=
  [ Discovery.discover_sample_modules;
    Discovery.discover_common_tools;
    Discovery.discover_python_tools;
    Discovery.discover_node_tools;
    Discovery.discover_git_tools ].

(** The answers of the platform queries of [discover_system_info], or
    the exception of the first of them that raises, in the order the
    probe asks them. *)
Definition platform_answers (host : Host)
  : Py.result (string * string * string * string * string) :=
  Py.rbind (platform_system host) (fun system =>
  Py.rbind (platform_release host) (fun release =>
  Py.rbind (platform_version host) (fun version =>
  Py.rbind (platform_machine host) (fun machine =>
  Py.rbind (platform_processor host) (fun processor =>
  Py.Ok (system, release, version, machine, processor)))))).

Definition platform_failure (host : Host) : option Py.exn :=
  match platform_answers host with
  | Py.Ok _ => None
  | Py.Raise e => Some e
  end.

(** How a discovery pass ends on a host. *)
Definition pass_outcome (host : Host) : Py.result unit :=
  match platform_failure host with
  | None => Py.Ok tt
  | Some e => Py.Raise e
  end.

(** A statement [m] ends with [r] in every world and registers exactly
    the ids of [I]: the ids afterwards are the ids before and [I], and
    no entry outside [I] is touched. *)
Definition leaves (m : M unit) (r : Py.result unit) (I : gset string) : Prop :=
  forall w, exists w',
    m w = (r, w')
    /\ Registry.ids (registry w') = Registry.ids (registry w) ∪ I
    /\ forall k, k ∉ I -> registry w' !! k = registry w !! k.

(** A statement [m] ends normally in every world and registers exactly
    the ids of [I]. *)
Definition adds (m : M unit) (I : gset string) : Prop :=
  forall w, exists w',
    m w = (Py.Ok tt, w')
    /\ Registry.ids (registry w') = Registry.ids (registry w) ∪ I
    /\ forall k, k ∉ I -> registry w' !! k = registry w !! k.

(** The ids a tool table yields on a host under an id prefix. *)
Definition tool_ids (host : Host) (prefix : string)
           (table : list (string * (string * string))) : gset string :=
  ⋃ ((fun entry => if which_found host entry.1
                   then {[ prefix +:+ entry.1 ]} else ∅) <$> table).

Definition git_ids (host : Host) : gset string :=
  if which_found host "git"
  then match run host ["git"; "rev-parse"; "--is-inside-work-tree"] 2 with
       | Py.Ok result => if returncode result =? 0 then {[ "git_repo" ]} else ∅
       | Py.Raise _ => ∅
       end
  else ∅.

Definition sample_ids : gset string :=
  list_to_set (Discovery.row_id <$> Discovery.sample_modules).

(** [system_info] is registered when every platform query answers. *)
Definition system_ids (host : Host) : gset string :=
  match platform_failure host with
  | None => {[ "system_info" ]}
  | Some _ => ∅
  end.

(** All the ids one pass registers on a host. *)
Definition discovered_ids (host : Host) : gset string :=
  sample_ids
  ∪ tool_ids host "tool_" Discovery.common_tools
  ∪ tool_ids host "python_" Discovery.python_tools
  ∪ tool_ids host "node_" Discovery.node_tools
  ∪ git_ids host
  ∪ system_ids host.

(** What a version query leaves as the version, by its outcome. *)
Definition version_of (outcome : Py.result CompletedProcess) : string :=
  match outcome with
  | Py.Ok result =>
      if returncode result =? 0
      then first_line (PyStr.strip (stdout result))
      else "unknown"
  | Py.Raise _ => "unknown"
  end.

(** [m] ends normally and leaves under [k] an entry with property [P]. *)
Definition sets_key (m : M unit) (k : string)
           (P : Registry.EndpointMetadata -> Prop) : Prop :=
  forall w, exists w' ep,
    m w = (Py.Ok tt, w') /\ registry w' !! k = Some ep /\ P ep.

(** [m] ends normally and either leaves the entry under [k] as it was
    or leaves there an entry with property [P]. *)
Definition keeps_key (m : M unit) (k : string)
           (P : Registry.EndpointMetadata -> Prop) : Prop :=
  forall w, exists w',
    m w = (Py.Ok tt, w')
    /\ (registry w' !! k = registry w !! k
        \/ exists ep, registry w' !! k = Some ep /\ P ep).

(** Two hosts with the same executables on the search path, the same
    outcomes of the external queries, and platform queries that fail
    the same way when they fail. *)
Definition same_host_state (h1 h2 : Host) : Prop :=
  (forall cmd, which_found h1 cmd = which_found h2 cmd)
  /\ (forall argv timeout, run h1 argv timeout = run h2 argv timeout)
  /\ platform_failure h1 = platform_failure h2.

(** The handler of the dispatcher boundary. *)
Definition boundary_failure (e : Py.exn) : Main.ExecuteResponse :=
  Main.mk_ExecuteResponse false ("Error executing endpoint: " +:+ Py.str_exn e) None.

(** The condition the transport turns into a 404 answer. *)
Definition NotFound (endpoint_id : string) : Py.exn :=
  Py.Exn (Py.HTTPException 404) ("Endpoint '" +:+ endpoint_id +:+ "' not found").



(** A request carrying the given parameter bag. *)
Definition request_of (items : list (string * Py.value)) : Main.ExecuteRequest :=
  Main.mk_ExecuteRequest (Some (list_to_map items)).

(** *** Vocabulary of the further properties *)

(** Every entry sits under its own id. *)
Definition well_keyed (r : Registry.EndpointRegistry) : Prop :=
  forall k e, r !! k = Some e -> Registry.id e = k.

(** A statement keeps a property of the world, however it ends. *)
Definition preserves {A} (I : World -> Prop) (m : M A) : Prop :=
  forall w, I w -> I (m w).2.

(** The first character of a text. *)
Definition head_char (s : string) : option ascii :=
  match s with
  | String c _ => Some c
  | EmptyString => None
  end.

(** The three tool tables with the id prefix each is registered under. *)
Definition tool_tables : list (string * list (string * (string * string))) :=
  [ ("tool_", Discovery.common_tools);
    ("python_", Discovery.python_tools);
    ("node_", Discovery.node_tools) ].

(** The answer of the tool strategy to the outcome of the query it ran,
    for an endpoint with the given display name. *)
Definition tool_response (name : string) (outcome : Py.result CompletedProcess)
  : Main.ExecuteResponse :=
  match outcome with
  | Py.Ok result =>
      if returncode result =? 0
      then Main.mk_ExecuteResponse true ("Successfully executed " +:+ name)
             (Some (stdout result))
      else Main.mk_ExecuteResponse false ("Execution failed: " +:+ stderr result)
             (Some (stderr result))
  | Py.Raise e => boundary_failure e
  end.

(** The answer of the dispatcher to [system_info] on a host: the four
    platform values as the text of a dict, or the failure of the
    dispatcher boundary for the first query that raises. *)
Definition system_info_response `{Py.Runtime} (host : Host) : Main.ExecuteResponse :=
  match Py.rbind (platform_system host) (fun system =>
        Py.rbind (platform_release host) (fun release =>
        Py.rbind (platform_version host) (fun version =>
        Py.rbind (platform_machine host) (fun machine =>
        Py.Ok (Py.VDict [("system", Py.VStr system);
                         ("release", Py.VStr release);
                         ("version", Py.VStr version);
                         ("machine", Py.VStr machine)]))))) with
  | Py.Ok info =>
      Main.mk_ExecuteResponse true "System information retrieved" (Some (Py.str info))
  | Py.Raise e => boundary_failure e
  end.

(** The ids of the sample operations that touch the clock or the random
    generator. *)
Definition stateful_sample (endpoint_id : string) : bool :=
  String.eqb endpoint_id "sample_util_timestamp"
  || String.eqb endpoint_id "sample_util_random".

(** *** Sample hosts and a sample runtime, for closed instances *)

Definition QUOTE : string := String "034"%char EmptyString.

(** The text [{"a":1}]. *)
Definition json_a1 : string := "{" +:+ QUOTE +:+ "a" +:+ QUOTE +:+ ":1}".

(** The exception of a decoder that has gone as deep as the interpreter
    lets it. *)
Definition too_deep : Py.exn :=
  Py.Exn (Py.OtherException "RecursionError")
    "maximum recursion depth exceeded while decoding a JSON array from a unicode string".

(** A runtime that knows two JSON texts, gives up on a text that opens
    more than 1000 arrays at its start, finds every other text
    malformed, and knows nothing else of floats. *)
Definition sample_runtime : Py.Runtime := {|
  Py.float_repr := fun f =>
    if PrimFloat.eqb f 5%float then "5.0" else "<float>";
  Py.complex_repr := fun _ _ => "<complex>";
  Py.float_of_str := fun _ => None;
  Py.float_pow := fun a b => Py.Ok (inl a);
  Py.json_loads := fun s =>
    if String.eqb s "{}" then Py.Ok (Py.VDict [])
    else if String.eqb s json_a1 then Py.Ok (Py.VDict [("a", Py.VInt 1)])
    else if (1000 <? Json.leading_opens s)%N then Py.Raise too_deep
    else Py.Raise (Py.Exn Py.JSONDecodeError
           "Expecting property name enclosed in double quotes: line 1 column 2 (char 1)");
  Py.json_dumps := fun _ => Py.Ok "{}";
  Py.isoformat := fun z => pretty z;
  Py.output_error := fun v =>
    "1 validation error for ExecuteResponse" +:+ LF +:+ "output" +:+ LF
      +:+ "  Input should be a valid string [type=string_type, input_type="
      +:+ Py.type_name v +:+ "]";
|}.

(** A host given by what is on the search path and how queries end. *)
Definition host_of (present : string -> bool)
           (queries : list string -> Z -> Py.result CompletedProcess) : Host := {|
  which := fun cmd => if present cmd then Some ("/usr/bin/" +:+ cmd) else None;
  run := queries;
  platform_system := Py.Ok "Linux";
  platform_release := Py.Ok "6.1.0";
  platform_version := Py.Ok "#1 SMP";
  platform_machine := Py.Ok "x86_64";
  platform_processor := Py.Ok "x86_64";
  clock := fun n => 1700000000 + Z.of_nat n;
  random_unit := fun _ => 0.5%float;
|}.

(** Every tool is installed and every external query times out. *)
Definition failing_host : Host :=
  host_of (fun _ => true)
          (fun argv t => Py.Raise (Py.Exn Py.TimeoutExpired
                                     "Command timed out after 2 seconds")).

(** Only git is installed; its version text starts with an empty line;
    the directory is a work tree; [git status] exits with 128. *)
Definition git_host : Host :=
  host_of (fun cmd => String.eqb cmd "git")
          (fun argv t =>
             match argv with
             | ["git"; "--version"] =>
                 Py.Ok (mk_CompletedProcess 0 (LF +:+ "git version 2.43.0" +:+ LF) EmptyString)
             | ["git"; "rev-parse"; "--is-inside-work-tree"] =>
                 Py.Ok (mk_CompletedProcess 0 ("true" +:+ LF) EmptyString)
             | ["git"; "status"; "--short"] =>
                 Py.Ok (mk_CompletedProcess 128 EmptyString
                          "fatal: not a git repository")
             | _ => Py.Raise (Py.Exn Py.OSError "No such file or directory")
             end).

(** Only git is installed, the tree is clean: [git status --short] exits
    with 0 and prints nothing. *)
Definition clean_git_host : Host :=
  host_of (fun cmd => String.eqb cmd "git")
          (fun argv t =>
             match argv with
             | ["git"; "status"; "--short"] =>
                 Py.Ok (mk_CompletedProcess 0 EmptyString EmptyString)
             | _ => Py.Ok (mk_CompletedProcess 0 ("true" +:+ LF) EmptyString)
             end).

(** The same machine later: same search path and same query outcomes,
    another kernel release, the clock a day further. *)
Definition rebooted (h : Host) : Host := {|
  which := which h;
  run := run h;
  platform_system := platform_system h;
  platform_release := Py.Ok "6.2.0";
  platform_version := platform_version h;
  platform_machine := platform_machine h;
  platform_processor := platform_processor h;
  clock := fun n => clock h n + 86400;
  random_unit := fun _ => 0.25%float;
|}.

(** The exception of a processor query whose answer cannot be read as
    text. *)
Definition unreadable : Py.exn :=
  Py.Exn (Py.OtherException "UnicodeDecodeError")
    "'utf-8' codec can't decode byte 0xff in position 0: invalid start byte".

(** The same machine with a processor query that raises. *)
Definition without_processor (h : Host) : Host := {|
  which := which h;
  run := run h;
  platform_system := platform_system h;
  platform_release := platform_release h;
  platform_version := platform_version h;
  platform_machine := platform_machine h;
  platform_processor := Py.Raise unreadable;
  clock := clock h;
  random_unit := random_unit h;
|}.

(** Two registrations under one id. *)
Definition git_entry_old : Registry.EndpointMetadata :=
  Registry.mk_EndpointMetadata "tool_git" "Git" "Git version control" "Tools"
    {[ "command" := Py.VStr "git" ]} 1700000000.

Definition git_entry_new : Registry.EndpointMetadata :=
  Registry.mk_EndpointMetadata "tool_git" "Git (refreshed)" "Git version control" "Tools"
    {[ "version" := Py.VStr "2.43.0" ]} 1700000600.

(** A world with the uppercase operation registered and nothing else. *)
Definition upper_entry : Registry.EndpointMetadata :=
  Registry.mk_EndpointMetadata "sample_text_uppercase" "Text to Uppercase"
    "Converts text to uppercase" "Text Processing"
    {[ "input" := Py.VStr "text" ]} 1700000000.

Definition upper_world : World :=
  mk_World (Registry.register upper_entry Registry.init) 1 0.

(** Entries registered by hand: one outside every namespace, one in the
    sample namespace that names no sample operation. *)
Definition custom_entry : Registry.EndpointMetadata :=
  Registry.mk_EndpointMetadata "custom_probe" "Custom Probe" "Registered by hand"
    "Custom" ∅ 1700000000.

Definition orphan_entry : Registry.EndpointMetadata :=
  Registry.mk_EndpointMetadata "sample_unknown" "Unknown Sample" "Registered by hand"
    "Custom" ∅ 1700000000.

Definition manual_world : World :=
  mk_World (Registry.register git_entry_old
              (Registry.register orphan_entry
                 (Registry.register custom_entry Registry.init))) 3 0.

(** The world after one discovery pass on a host, from a fresh start. *)
Definition discovered (host : Host) : World :=
  (Discovery.discover_all host fresh).2.

End Spec.

(** * Properties *)

(** ** The statement monad *)
Section MonadFacts.
Import Sys Spec.
Local Open Scope py_scope.

Lemma run_fst {A} (m : M A) (w : World) (r : Py.result A) (w' : World) :
  m w = (r, w') -> (m w).1 = r.
Proof. by intros ->. Qed.

Lemma run_snd {A} (m : M A) (w : World) (r : Py.result A) (w' : World) :
  m w = (r, w') -> (m w).2 = w'.
Proof. by intros ->. Qed.

Lemma adds_ret : adds (ret tt) ∅.
Proof.
  intros w. exists w. split; [done|]. split; [|done].
  unfold Registry.ids. set_solver.
Qed.

Lemma adds_seq (m k : M unit) (I J : gset string) :
  adds m I -> adds k J -> adds (m ;;; k) (I ∪ J).
Proof.
  intros Hm Hk w.
  destruct (Hm w) as (w1 & E1 & D1 & F1).
  destruct (Hk w1) as (w2 & E2 & D2 & F2).
  exists w2. unfold bind. rewrite E1. split; [exact E2|]. split.
  - rewrite D2, D1. set_solver.
  - intros k' Hk'. rewrite F2, F1; set_solver.
Qed.

Lemma adds_then_leaves (m k : M unit) (r : Py.result unit) (I J : gset string) :
  adds m I -> leaves k r J -> leaves (m ;;; k) r (I ∪ J).
Proof.
  intros Hm Hk w.
  destruct (Hm w) as (w1 & E1 & D1 & F1).
  destruct (Hk w1) as (w2 & E2 & D2 & F2).
  exists w2. unfold bind. rewrite E1. split; [exact E2|]. split.
  - rewrite D2, D1. set_solver.
  - intros k' Hk'. rewrite F2, F1; set_solver.
Qed.

Lemma adds_if (b : bool) (m1 m2 : M unit) (I1 I2 : gset string) :
  adds m1 I1 -> adds m2 I2 ->
  adds (if b then m1 else m2) (if b then I1 else I2).
Proof. by destruct b. Qed.

Lemma adds_for_each {A} (l : list A) (body : A -> M unit) (I : A -> gset string) :
  (forall x, x ∈ l -> adds (body x) (I x)) ->
  adds (for_each l body) (⋃ (I <$> l)).
Proof.
  induction l as [|x l IH]; intros Hbody; simpl.
  - apply adds_ret.
  - apply adds_seq.
    + apply Hbody. by left.
    + apply IH. intros y Hy. apply Hbody. by right.
Qed.

End MonadFacts.

(** ** Text helpers *)
Section TextFacts.

Lemma split_char_go_cons (sep : ascii) (s cur : string) :
  exists x l, PyStr.split_char_go sep cur s = x :: l.
Proof.
  revert cur. induction s as [|c s IH]; intros cur; simpl.
  - by eexists _, _.
  - destruct (Ascii.eqb c sep); [by eexists _, _ | apply IH].
Qed.

Lemma first_item_split (s : string) :
  Discovery.first_item (PyStr.split_char "010"%char s) = Py.Ok (Spec.first_line s).
Proof.
  unfold Spec.first_line, PyStr.split_char.
  destruct (split_char_go_cons "010"%char s EmptyString) as (x & l & ->).
  reflexivity.
Qed.

End TextFacts.

(** ** The discovery pass *)
Section DiscoveryFacts.
Import Sys Spec.
Local Open Scope py_scope.
Context (host : Host).

Lemma new_register_adds (id name description category : string)
      (parameters : list (string * Py.value)) :
  adds (endpoint <- Discovery.new_endpoint host id name description category parameters ;;
        Discovery.register endpoint)
       {[ id ]}.
Proof.
  intros w. eexists. split; [reflexivity|]. simpl. split.
  - unfold Registry.ids, Registry.register. simpl.
    rewrite dom_insert_L. set_solver.
  - intros k Hk. unfold Registry.register. simpl.
    apply lookup_insert_ne. set_solver.
Qed.

Lemma union_singletons {A} (f : A -> string) (l : list A) :
  ⋃ ((fun x => {[ f x ]}) <$> l) = (list_to_set (f <$> l) : gset string).
Proof.
  induction l as [|x l IH]; [done|].
  rewrite !fmap_cons, union_list_cons, IH. done.
Qed.

(** The version query never raises and writes nothing. *)
Lemma get_version_total (command : string) (w : World) :
  Discovery._get_version host command w
  = (Py.Ok (version_of (run host [command; "--version"] 2)), w).
Proof.
  unfold Discovery._get_version, bind, try_except, subprocess_run, lift, version_of.
  destruct (run host [command; "--version"] 2) as [result|e]; [|done].
  destruct (returncode result =? 0); [|done].
  by rewrite first_item_split.
Qed.

Lemma discover_sample_modules_adds :
  adds (Discovery.discover_sample_modules host) sample_ids.
Proof.
  unfold Discovery.discover_sample_modules, sample_ids.
  rewrite <- union_singletons.
  apply adds_for_each. intros row _. apply new_register_adds.
Qed.

End DiscoveryFacts.

Section ProbeFacts.
Import Sys Spec.
Local Open Scope py_scope.
Context (host : Host).

Lemma discover_common_tools_adds :
  adds (Discovery.discover_common_tools host)
       (tool_ids host "tool_" Discovery.common_tools).
Proof.
  unfold Discovery.discover_common_tools, tool_ids.
  apply adds_for_each. intros entry _. simpl.
  apply adds_if; [|apply adds_ret].
  intros w. unfold bind at 1. rewrite get_version_total.
  apply new_register_adds.
Qed.

Lemma discover_python_tools_adds :
  adds (Discovery.discover_python_tools host)
       (tool_ids host "python_" Discovery.python_tools).
Proof.
  unfold Discovery.discover_python_tools, tool_ids.
  apply adds_for_each. intros entry _. simpl.
  apply adds_if; [apply new_register_adds | apply adds_ret].
Qed.

Lemma discover_node_tools_adds :
  adds (Discovery.discover_node_tools host)
       (tool_ids host "node_" Discovery.node_tools).
Proof.
  unfold Discovery.discover_node_tools, tool_ids.
  apply adds_for_each. intros entry _. simpl.
  apply adds_if; [apply new_register_adds | apply adds_ret].
Qed.

(** The work-tree query may raise or exit nonzero: the probe then
    registers nothing and still ends normally. *)
Lemma discover_git_tools_adds :
  adds (Discovery.discover_git_tools host) (git_ids host).
Proof.
  unfold Discovery.discover_git_tools, git_ids.
  apply adds_if; [|apply adds_ret].
  intros w. unfold try_except, bind at 1, subprocess_run, lift.
  destruct (run host _ 2) as [result|e].
  - destruct (returncode result =? 0).
    + destruct (new_register_adds host "git_repo" "Git Repository"
                  "Current directory is a Git repository" "Git"
                  [("is_repo", Py.VStr "true")] w) as (w' & E & D & F).
      exists w'. by rewrite E.
    + apply adds_ret.
  - apply adds_ret.
Qed.

(** The last probe asks the platform with no handler: it registers
    [system_info] when every query answers, and when one raises it
    raises with it and writes nothing. *)
Lemma discover_system_info_leaves :
  leaves (Discovery.discover_system_info host) (pass_outcome host) (system_ids host).
Proof.
  intros w.
  unfold Discovery.discover_system_info, pass_outcome, system_ids,
    platform_failure, platform_answers, Py.rbind.
  unfold bind at 1 2 3 4 5 6 7, lift.
  destruct (platform_system host) as [system|e];
    [|exists w; split; [reflexivity|]; split; [by rewrite (right_id_L ∅ (∪))|done]].
  destruct (platform_release host) as [release|e];
    [|exists w; split; [reflexivity|]; split; [by rewrite (right_id_L ∅ (∪))|done]].
  destruct (platform_version host) as [version|e];
    [|exists w; split; [reflexivity|]; split; [by rewrite (right_id_L ∅ (∪))|done]].
  destruct (platform_machine host) as [machine|e];
    [|exists w; split; [reflexivity|]; split; [by rewrite (right_id_L ∅ (∪))|done]].
  destruct (platform_processor host) as [processor|e];
    [|exists w; split; [reflexivity|]; split; [by rewrite (right_id_L ∅ (∪))|done]].
  exact (new_register_adds host "system_info" _ _ _ _ w).
Qed.

(** The whole pass: it ends as the platform queries end, and in both
    cases the registrations of the probes are in the registry. *)
Lemma discover_all_leaves :
  leaves (Discovery.discover_all host) (pass_outcome host) (discovered_ids host).
Proof.
  unfold Discovery.discover_all, discovered_ids.
  rewrite <- !(assoc_L (∪)).
  apply adds_then_leaves; [exact (discover_sample_modules_adds host)|].
  apply adds_then_leaves; [exact discover_common_tools_adds|].
  apply adds_then_leaves; [exact discover_python_tools_adds|].
  apply adds_then_leaves; [exact discover_node_tools_adds|].
  apply adds_then_leaves; [exact discover_git_tools_adds|].
  exact discover_system_info_leaves.
Qed.

Lemma discover_all_outcome (w : World) :
  (Discovery.discover_all host w).1 = pass_outcome host.
Proof.
  destruct (discover_all_leaves w) as (w' & E & _). exact (run_fst _ _ _ _ E).
Qed.

Lemma discover_all_ids (w : World) :
  Registry.ids (registry (Discovery.discover_all host w).2)
  = Registry.ids (registry w) ∪ discovered_ids host.
Proof.
  destruct (discover_all_leaves w) as (w' & E & D & _).
  by rewrite (run_snd _ _ _ _ E).
Qed.

Lemma guarded_probe_adds (probe : Host -> M unit) :
  probe ∈ guarded_probes -> exists I, adds (probe host) I.
Proof.
  unfold guarded_probes. intros Hin.
  rewrite !elem_of_cons, elem_of_nil in Hin.
  destruct Hin as [->|[->|[->|[->|[->|[]]]]]].
  - exists sample_ids. exact (discover_sample_modules_adds host).
  - eexists. exact discover_common_tools_adds.
  - eexists. exact discover_python_tools_adds.
  - eexists. exact discover_node_tools_adds.
  - eexists. exact discover_git_tools_adds.
Qed.

End ProbeFacts.

(** ** The registry *)
Section RegistryFacts.
Import Registry.

Lemma filter_all_out {A} (P : A -> Prop) `{!forall x, Decision (P x)} (l : list A) :
  (forall x, x ∈ l -> ~ P x) -> filter P l = [].
Proof.
  induction l as [|x l IH]; intros Hl; [done|].
  rewrite filter_cons. destruct (decide (P x)) as [HP|_].
  - exfalso. apply (Hl x); [by left | done].
  - apply IH. intros y Hy. apply Hl. by right.
Qed.

(** The items stored under one key of a registry that has the key. *)
Lemma items_under_key (r : EndpointRegistry) (k : string) (e : EndpointMetadata) :
  filter (fun kv => kv.1 = k) (items (<[k := e]> r)) = [(k, e)].
Proof.
  apply Permutation_singleton_r.
  unfold items. rewrite <- insert_delete_eq.
  rewrite map_to_list_insert by apply lookup_delete_eq.
  rewrite filter_cons_True by done.
  rewrite filter_all_out; [done|].
  intros [j x] Hin%elem_of_map_to_list Hj. simpl in Hj. subst j.
  by rewrite lookup_delete_eq in Hin.
Qed.

(** C5: registering [e1] and then [e2] under the same id leaves one
    entry under that id, which is [e2] whole: [get] returns [e2], the
    registry is the one that never saw [e1], and the only item stored
    under the id is [e2]. *)
Theorem register_same_id_replaces
        (r : EndpointRegistry) (e1 e2 : EndpointMetadata) :
  id e1 = id e2 ->
  get (id e1) (register e2 (register e1 r)) = Some e2
  /\ register e2 (register e1 r) = register e2 r
  /\ filter (fun kv => kv.1 = id e1) (items (register e2 (register e1 r)))
     = [(id e1, e2)]
  /\ count (register e2 (register e1 r)) = count (register e2 r).
Proof.
  intros Hid. unfold get, register, count. rewrite Hid.
  rewrite insert_insert_eq. repeat split.
  - apply lookup_insert_eq.
  - apply items_under_key.
Qed.

(** C10: [unregister] never raises; it leaves every entry under another
    id as it was and nothing under its own id; on an absent id it changes
    nothing at all.  [register] leaves every entry under another id as it
    was. *)
Theorem registry_frame (r : EndpointRegistry) (k : string) (e : EndpointMetadata) :
  (exists r',
      unregister k r = Py.Ok r'
      /\ (forall j, j <> k -> get j r' = get j r)
      /\ get k r' = None
      /\ (get k r = None -> r' = r))
  /\ (forall j, j <> id e -> get j (register e r) = get j r).
Proof.
  split.
  - unfold unregister, dict_contains, dict_del, get.
    destruct (r !! k) as [x|] eqn:Hk.
    + rewrite bool_decide_eq_true_2 by eauto.
      exists (delete k r). repeat split.
      * intros j Hj. by apply lookup_delete_ne.
      * apply lookup_delete_eq.
      * done.
    + rewrite bool_decide_eq_false_2 by (intros [? ?]; done).
      exists r. by repeat split.
  - intros j Hj. unfold get, register. by apply lookup_insert_ne.
Qed.

End RegistryFacts.

(** ** Entries left by loops *)
Section KeyFacts.
Import Sys Spec.
Local Open Scope py_scope.

Lemma for_each_keeps {A} (l : list A) (body : A -> M unit) (k : string)
      (P : Registry.EndpointMetadata -> Prop) :
  (forall x, x ∈ l -> keeps_key (body x) k P) ->
  forall w, (exists ep, registry w !! k = Some ep /\ P ep) ->
  exists w' ep, for_each l body w = (Py.Ok tt, w')
                /\ registry w' !! k = Some ep /\ P ep.
Proof.
  induction l as [|x l IH]; intros Hkeep w (ep & Hep & HP); simpl.
  - by exists w, ep.
  - destruct (Hkeep x (list_elem_of_here x l) w) as (w1 & E1 & H1).
    unfold bind. rewrite E1.
    apply IH; [intros y Hy; apply Hkeep; by right|].
    destruct H1 as [Hsame|Hnew]; [|exact Hnew].
    exists ep. by rewrite Hsame.
Qed.

Lemma for_each_sets_key {A} (l : list A) (body : A -> M unit) (k : string)
      (P : Registry.EndpointMetadata -> Prop) :
  (forall x, x ∈ l -> keeps_key (body x) k P) ->
  (exists x, x ∈ l /\ sets_key (body x) k P) ->
  sets_key (for_each l body) k P.
Proof.
  induction l as [|x l IH]; intros Hkeep (y & Hy & Hset) w.
  - by apply elem_of_nil in Hy.
  - simpl. unfold bind.
    apply elem_of_cons in Hy as [->|Hy].
    + destruct (Hset w) as (w1 & ep & E1 & Hep & HP). rewrite E1.
      apply for_each_keeps; [intros z Hz; apply Hkeep; by right|].
      by exists ep.
    + destruct (Hkeep x (list_elem_of_here x l) w) as (w1 & E1 & _). rewrite E1.
      apply IH; [intros z Hz; apply Hkeep; by right|].
      by exists y.
Qed.

End KeyFacts.

(** ** The ids of a pass, one by one *)
Section IdFacts.
Import Sys Spec.
Local Open Scope py_scope.
Context (host : Host).

Lemma elem_of_tool_ids (prefix : string) (table : list (string * (string * string)))
      (x : string) :
  x ∈ tool_ids host prefix table
  <-> exists entry, entry ∈ table /\ which_found host entry.1 = true
                    /\ x = prefix +:+ entry.1.
Proof.
  unfold tool_ids. rewrite elem_of_union_list. split.
  - intros (X & HX & Hx). apply list_elem_of_fmap in HX as (entry & -> & Hin).
    exists entry. destruct (which_found host entry.1).
    + apply elem_of_singleton in Hx. by repeat split.
    + by apply elem_of_empty in Hx.
  - intros (entry & Hin & Hfound & ->). eexists. split.
    + apply list_elem_of_fmap. by exists entry.
    + simpl. rewrite Hfound. by apply elem_of_singleton.
Qed.

Lemma head_char_tool_ids (c : ascii) (rest : string)
      (table : list (string * (string * string))) (x : string) :
  x ∈ tool_ids host (String c rest) table -> head_char x = Some c.
Proof. intros (entry & _ & _ & ->)%elem_of_tool_ids. reflexivity. Qed.

Lemma head_char_sample (x : string) :
  x ∈ sample_ids -> head_char x = Some "s"%char.
Proof.
  unfold sample_ids. rewrite elem_of_list_to_set. simpl.
  rewrite !elem_of_cons, elem_of_nil.
  intros Hx. repeat (destruct Hx as [->|Hx]; [reflexivity|]). destruct Hx.
Qed.

Lemma elem_of_git_ids (x : string) :
  x ∈ git_ids host
  <-> x = "git_repo" /\ which_found host "git" = true
      /\ exists result, run host ["git"; "rev-parse"; "--is-inside-work-tree"] 2
                         = Py.Ok result /\ returncode result = 0.
Proof.
  unfold git_ids. destruct (which_found host "git").
  - destruct (run host _ 2) as [result|e].
    + destruct (returncode result =? 0) eqn:E.
      * apply Z.eqb_eq in E. rewrite elem_of_singleton. split.
        -- intros ->. repeat split. by exists result.
        -- by intros [-> _].
      * apply Z.eqb_neq in E. rewrite elem_of_empty. split; [done|].
        intros (_ & _ & r & [= <-] & Hr). done.
    + rewrite elem_of_empty. split; [done|]. by intros (_ & _ & r & [=] & _).
  - rewrite elem_of_empty. split; [done|]. by intros (_ & [=] & _).
Qed.

Lemma elem_of_system_ids (x : string) :
  x ∈ system_ids host <-> x = "system_info" /\ platform_failure host = None.
Proof.
  unfold system_ids. destruct (platform_failure host) as [e|].
  - rewrite elem_of_empty. split; [done|]. by intros [_ [=]].
  - rewrite elem_of_singleton. by split; [|intros [-> _]].
Qed.

Lemma elem_of_discovered_ids (x : string) :
  x ∈ discovered_ids host
  <-> x ∈ sample_ids
      \/ x ∈ tool_ids host "tool_" Discovery.common_tools
      \/ x ∈ tool_ids host "python_" Discovery.python_tools
      \/ x ∈ tool_ids host "node_" Discovery.node_tools
      \/ x ∈ git_ids host
      \/ x ∈ system_ids host.
Proof. unfold discovered_ids. rewrite !elem_of_union. tauto. Qed.

End IdFacts.

(** ** Discovery: isolation, idempotence, recorded versions *)
Section DiscoveryTheorems.
Import Sys Spec.
Local Open Scope py_scope.

(** C1, as the code has it: each of the five probes before the last
    ends normally wherever it is started, whatever its external queries
    do.  The pass runs the six probes in order with no handler of its
    own, so it ends normally when the platform queries of the last probe
    answer and raises their exception otherwise.  Either way the
    registry then holds what it held and the ids of the pass: every
    sample id, the prefixed id of every tool on the search path,
    [git_repo] when the work-tree query of an installed git exits zero,
    and [system_info] when the platform queries answered; when they did
    not, the pass has not registered [system_info]. *)
Theorem discover_all_isolates_probes (host : Host) (w : World) :
  let after := Registry.ids (registry (Discovery.discover_all host w).2) in
  (forall probe w0, probe ∈ guarded_probes -> (probe host w0).1 = Py.Ok tt)
  /\ (Discovery.discover_all host w).1
     = match platform_failure host with
       | None => Py.Ok tt
       | Some e => Py.Raise e
       end
  /\ after = Registry.ids (registry w) ∪ discovered_ids host
  /\ (forall row, row ∈ Discovery.sample_modules -> Discovery.row_id row ∈ after)
  /\ (forall prefix table tool,
        (prefix, table) ∈ tool_tables -> tool ∈ table.*1 ->
        which_found host tool = true -> prefix +:+ tool ∈ after)
  /\ (forall result,
        which_found host "git" = true ->
        run host ["git"; "rev-parse"; "--is-inside-work-tree"] 2 = Py.Ok result ->
        returncode result = 0 -> "git_repo" ∈ after)
  /\ (platform_failure host = None -> "system_info" ∈ after)
  /\ (forall e, platform_failure host = Some e ->
        "system_info" ∈ after -> "system_info" ∈ Registry.ids (registry w)).
Proof.
  intros after. subst after. rewrite (discover_all_ids host w).
  split; [|split; [exact (discover_all_outcome host w)|split; [reflexivity|]]].
  { intros probe w0 Hin.
    destruct (guarded_probe_adds host probe Hin) as (I & HI).
    destruct (HI w0) as (w1 & E1 & _). exact (run_fst _ _ _ _ E1). }
  split; [|split; [|split; [|split]]].
  - intros row Hrow. apply elem_of_union. right.
    apply elem_of_discovered_ids. left.
    unfold sample_ids. apply elem_of_list_to_set, list_elem_of_fmap.
    exists row. split; [reflexivity | exact Hrow].
  - intros prefix table tool Htab Htool Hfound.
    apply list_elem_of_fmap in Htool as (entry & -> & Hin).
    assert (prefix +:+ entry.1 ∈ tool_ids host prefix table) as Hid.
    { apply elem_of_tool_ids. exists entry.
      split; [exact Hin|]. split; [exact Hfound | reflexivity]. }
    apply elem_of_union. right. apply elem_of_discovered_ids.
    unfold tool_tables in Htab. rewrite !elem_of_cons, elem_of_nil in Htab.
    destruct Htab as [[= -> ->]|[[= -> ->]|[[= -> ->]|[]]]].
    + right; left. exact Hid.
    + right; right; left. exact Hid.
    + right; right; right; left. exact Hid.
  - intros result Hfound Hrun Hcode.
    apply elem_of_union. right. apply elem_of_discovered_ids.
    do 4 right. left. apply elem_of_git_ids.
    split; [reflexivity|]. split; [exact Hfound|].
    exists result. split; [exact Hrun | exact Hcode].
  - intros Hnone. apply elem_of_union. right. apply elem_of_discovered_ids.
    do 5 right. apply elem_of_system_ids. split; [reflexivity | exact Hnone].
  - intros e Hsome [Hold|Hnew]%elem_of_union; [exact Hold|].
    exfalso. apply elem_of_discovered_ids in Hnew.
    destruct Hnew as [Hs|[H1|[H2|[H3|[Hg|Hsys]]]]].
    + revert Hs. apply (bool_decide_unpack _). vm_compute. exact I.
    + apply elem_of_tool_ids in H1 as (entry & _ & _ & Heq).
      cbv [String.append] in Heq. discriminate Heq.
    + apply elem_of_tool_ids in H2 as (entry & _ & _ & Heq).
      cbv [String.append] in Heq. discriminate Heq.
    + apply elem_of_tool_ids in H3 as (entry & _ & _ & Heq).
      cbv [String.append] in Heq. discriminate Heq.
    + apply elem_of_git_ids in Hg as [Heq _]. discriminate Heq.
    + apply elem_of_system_ids in Hsys as [_ Hnone]. congruence.
Qed.

Lemma tool_ids_same (h1 h2 : Host) (prefix : string)
      (table : list (string * (string * string))) :
  (forall cmd, which_found h1 cmd = which_found h2 cmd) ->
  tool_ids h1 prefix table = tool_ids h2 prefix table.
Proof.
  intros Hw. unfold tool_ids. f_equal.
  apply list_fmap_ext. intros _ entry _. by rewrite Hw.
Qed.

Lemma discovered_ids_same (h1 h2 : Host) :
  same_host_state h1 h2 -> discovered_ids h1 = discovered_ids h2.
Proof.
  intros (Hw & Hr & Hp). unfold discovered_ids, git_ids, system_ids.
  rewrite !(tool_ids_same h1 h2) by exact Hw.
  by rewrite Hw, Hr, Hp.
Qed.

(** How a refresh ends on a host. *)
Lemma refresh_discovery_ids (host : Host) (w : World) :
  exists w',
    Main.refresh_discovery host w
    = (match platform_failure host with
       | None => Py.Ok (size (discovered_ids host))
       | Some e => Py.Raise e
       end, w')
    /\ Registry.ids (registry w') = discovered_ids host.
Proof.
  unfold Main.refresh_discovery, bind at 1, modify_registry.
  destruct (discover_all_leaves host
              (set_registry (Registry.clear (registry w)) w))
    as (w' & E & D & _).
  exists w'. unfold bind at 1. rewrite E.
  assert (Registry.ids (registry w') = discovered_ids host) as Hids.
  { rewrite D. unfold Registry.ids, Registry.clear. simpl.
    rewrite dom_empty_L. apply (left_id_L ∅ (∪)). }
  split; [|exact Hids].
  unfold pass_outcome. destruct (platform_failure host) as [e|]; [reflexivity|].
  unfold bind, get_registry, ret, Registry.count.
  rewrite <- Hids. unfold Registry.ids. by rewrite size_dom.
Qed.

Lemma refresh_ids (host : Host) (w : World) :
  Registry.ids (registry (Main.refresh_discovery host w).2) = discovered_ids host.
Proof.
  destruct (refresh_discovery_ids host w) as (w' & E & Hids).
  by rewrite (run_snd _ _ _ _ E).
Qed.

(** C7: with the same executables present, the same outcomes of the
    external queries and the same way for the platform queries to fail,
    a second pass leaves the set of ids of the first pass; two passes
    from the same world leave the same set; and two refreshes leave the
    same set and end the same way. *)
Theorem discover_all_idempotent (h1 h2 : Host) (w : World) :
  same_host_state h1 h2 ->
  Registry.ids (registry (Discovery.discover_all h2
                            (Discovery.discover_all h1 w).2).2)
  = Registry.ids (registry (Discovery.discover_all h1 w).2)
  /\ Registry.ids (registry (Discovery.discover_all h2 w).2)
     = Registry.ids (registry (Discovery.discover_all h1 w).2)
  /\ Registry.ids (registry (Main.refresh_discovery h2
                               (Main.refresh_discovery h1 w).2).2)
     = Registry.ids (registry (Main.refresh_discovery h1 w).2)
  /\ (Main.refresh_discovery h2 (Main.refresh_discovery h1 w).2).1
     = (Main.refresh_discovery h1 w).1.
Proof.
  intros Hsame. pose proof (discovered_ids_same h1 h2 Hsame) as Hids.
  destruct Hsame as (_ & _ & Hp).
  destruct (refresh_discovery_ids h1 w) as (v1 & R1 & I1).
  destruct (refresh_discovery_ids h2 v1) as (v2 & R2 & I2).
  rewrite !discover_all_ids, !refresh_ids.
  rewrite (run_fst _ _ _ _ R1), (run_snd _ _ _ _ R1), (run_fst _ _ _ _ R2).
  rewrite Hids, Hp. repeat split.
  by rewrite <- (assoc_L (∪)), (idemp_L (∪)).
Qed.

(** The loop body of [discover_common_tools] and the entry under the id
    of one tool. *)
Lemma common_tool_body_keeps (host : Host) (tool : string)
      (entry : string * (string * string)) :
  keeps_key
    (if which_found host entry.1
     then version <- Discovery._get_version host entry.1 ;;
          endpoint <- Discovery.new_endpoint host ("tool_" +:+ entry.1)
                        entry.2.1 entry.2.2 "Tools"
                        [("command", Py.VStr entry.1);
                         ("version", Py.VStr version)] ;;
          Discovery.register endpoint
     else ret tt)
    ("tool_" +:+ tool)
    (fun ep => Registry.parameters ep !! "version"
               = Some (Py.VStr (version_of (run host [tool; "--version"] 2)))).
Proof.
  intros w. destruct (which_found host entry.1); [|by exists w; split; [|left]].
  unfold bind at 1. rewrite get_version_total.
  eexists. split; [reflexivity|]. simpl.
  unfold Registry.register. simpl.
  destruct (decide (entry.1 = tool)) as [<-|Hne].
  - right. eexists. split; [apply lookup_insert_eq|]. simpl.
    apply lookup_insert_eq.
  - left. apply lookup_insert_ne. intros Heq. apply Hne.
    by apply (inj (String.app "tool_")) in Heq.
Qed.

Lemma common_tool_body_sets (host : Host) (entry : string * (string * string)) :
  which_found host entry.1 = true ->
  sets_key
    (if which_found host entry.1
     then version <- Discovery._get_version host entry.1 ;;
          endpoint <- Discovery.new_endpoint host ("tool_" +:+ entry.1)
                        entry.2.1 entry.2.2 "Tools"
                        [("command", Py.VStr entry.1);
                         ("version", Py.VStr version)] ;;
          Discovery.register endpoint
     else ret tt)
    ("tool_" +:+ entry.1)
    (fun ep => Registry.parameters ep !! "version"
               = Some (Py.VStr (version_of (run host [entry.1; "--version"] 2)))).
Proof.
  intros Hfound w. rewrite Hfound.
  unfold bind at 1. rewrite get_version_total.
  eexists _, _. split; [reflexivity|]. simpl.
  unfold Registry.register. simpl.
  split; [apply lookup_insert_eq|]. simpl. apply lookup_insert_eq.
Qed.

(** C8, as the code has it: for a common tool found on the search path
    the query is [tool --version] with a bound of 2 seconds, it never
    raises, and the version recorded under [tool_<tool>] is the first
    line of the captured output once leading and trailing whitespace is
    stripped when the query exits zero, and [unknown] on a nonzero exit
    or on any exception, a timeout included. *)
Theorem recorded_version (host : Host) (w : World) (tool : string) :
  tool ∈ Discovery.common_tools.*1 ->
  which_found host tool = true ->
  exists version w' ep,
    Discovery._get_version host tool w = (Py.Ok version, w)
    /\ Discovery.discover_common_tools host w = (Py.Ok tt, w')
    /\ registry w' !! ("tool_" +:+ tool) = Some ep
    /\ Registry.parameters ep !! "version" = Some (Py.VStr version)
    /\ match run host [tool; "--version"] 2 with
       | Py.Ok result =>
           if returncode result =? 0
           then version = first_line (PyStr.strip (stdout result))
           else version = "unknown"
       | Py.Raise _ => version = "unknown"
       end.
Proof.
  intros Hin Hfound.
  apply list_elem_of_fmap in Hin as (entry & -> & Hentry).
  destruct (for_each_sets_key Discovery.common_tools _ ("tool_" +:+ entry.1) _
              (fun x _ => common_tool_body_keeps host entry.1 x)
              (ex_intro _ entry (conj Hentry (common_tool_body_sets host entry Hfound)))
              w) as (w' & ep & E & Hep & HP).
  exists (version_of (run host [entry.1; "--version"] 2)), w', ep.
  split; [apply get_version_total|].
  split; [exact E|]. split; [exact Hep|]. split; [exact HP|].
  unfold version_of. destruct (run host _ 2) as [result|e]; [|done].
  by destruct (returncode result =? 0).
Qed.

End DiscoveryTheorems.

(** ** The dispatcher *)
Section DispatcherTheorems.
Import Sys Spec.
Local Open Scope py_scope.
Context `{Py.Runtime} (host : Host).

(** A registered id leads into the [try] of [execute_endpoint]. *)
Lemma execute_registered (endpoint_id : string) (request : Main.ExecuteRequest)
      (w : World) (endpoint : Registry.EndpointMetadata) :
  Registry.get endpoint_id (registry w) = Some endpoint ->
  Main.execute_endpoint host endpoint_id request w
  = try_except (Main.strategy host endpoint_id endpoint request)
               (fun e => ret (boundary_failure e)) w.
Proof.
  intros Hget. unfold Main.execute_endpoint, bind, get_registry.
  by rewrite Hget.
Qed.

(** A request without a parameter bag is a request with an empty one. *)
Lemma execute_missing_bag (endpoint_id : string) (w : World) :
  Main.execute_endpoint host endpoint_id (Main.mk_ExecuteRequest None) w
  = Main.execute_endpoint host endpoint_id (Main.mk_ExecuteRequest (Some ∅)) w.
Proof. reflexivity. Qed.

(** C3: for a registered id [execute_endpoint] always returns a
    response, it never raises; and when the strategy picked for the id
    raises [e], the response is the failure of the dispatcher boundary:
    [success] false and the text of [e] in the message, in the world
    the strategy left. *)
Theorem execute_contains_failures (endpoint_id : string)
        (request : Main.ExecuteRequest) (w : World)
        (endpoint : Registry.EndpointMetadata) :
  Registry.get endpoint_id (registry w) = Some endpoint ->
  (exists response w',
      Main.execute_endpoint host endpoint_id request w = (Py.Ok response, w'))
  /\ (forall e w',
         Main.strategy host endpoint_id endpoint request w = (Py.Raise e, w') ->
         Main.execute_endpoint host endpoint_id request w
         = (Py.Ok (Main.mk_ExecuteResponse false
                     ("Error executing endpoint: " +:+ Py.str_exn e) None), w')).
Proof.
  intros Hget. rewrite (execute_registered _ _ _ _ Hget).
  unfold try_except.
  destruct (Main.strategy host endpoint_id endpoint request w) as [[response|e] w'].
  - split; [by exists response, w'|]. intros e w'' [=].
  - split; [by eexists _, _|]. by intros e' w'' [= <- <-].
Qed.

(** C4: for an id that is not registered [execute_endpoint] raises the
    404 condition naming the id, returns no response, and leaves the
    world, the registry with it, as it was. *)
Theorem execute_unknown_id_not_found (endpoint_id : string)
        (request : Main.ExecuteRequest) (w : World) :
  Registry.get endpoint_id (registry w) = None ->
  Main.execute_endpoint host endpoint_id request w
  = (Py.Raise (Py.Exn (Py.HTTPException 404)
                 ("Endpoint '" +:+ endpoint_id +:+ "' not found")), w)
  /\ registry (Main.execute_endpoint host endpoint_id request w).2 = registry w
  /\ (forall response,
         (Main.execute_endpoint host endpoint_id request w).1 <> Py.Ok response).
Proof.
  intros Hget.
  assert (Main.execute_endpoint host endpoint_id request w
          = (Py.Raise (NotFound endpoint_id), w)) as E.
  { unfold Main.execute_endpoint, bind, get_registry. by rewrite Hget. }
  split; [exact E|]. rewrite (run_fst _ _ _ _ E), (run_snd _ _ _ _ E).
  split; [done|]. by intros response [=].
Qed.

(** What the [git_repo] strategy answers for a status query that
    completed: always [success], with the captured text on exit 0 and
    the fixed text otherwise. *)
Lemma execute_git_repo_completed (w : World) (result : CompletedProcess) :
  run host ["git"; "status"; "--short"] 2 = Py.Ok result ->
  Main.execute_git_repo host w
  = (Py.Ok (Main.mk_ExecuteResponse true "Git repository status"
              (Some (if returncode result =? 0
                     then stdout result else "No changes"))), w).
Proof.
  intros Hrun.
  unfold Main.execute_git_repo, try_except, bind, subprocess_run, lift.
  by rewrite Hrun.
Qed.

End DispatcherTheorems.

(** ** The sample operations *)
Section SampleTheorems.
Import Sys Spec.
Local Open Scope py_scope.
Context `{Py.Runtime} (host : Host).

Lemma sample_id_registered (w : World) (endpoint_id : string) :
  sample_ids ⊆ Registry.ids (registry w) ->
  endpoint_id ∈ Discovery.row_id <$> Discovery.sample_modules ->
  exists endpoint, Registry.get endpoint_id (registry w) = Some endpoint.
Proof.
  intros Hsub Hin. unfold Registry.get.
  apply (elem_of_dom (registry w) endpoint_id).
  apply Hsub. unfold sample_ids. by apply elem_of_list_to_set.
Qed.

(** A registered [sample_] id leads into [execute_sample] under the
    handler of the dispatcher boundary. *)
Lemma execute_sample_branch (endpoint_id : string) (request : Main.ExecuteRequest)
      (w : World) (endpoint : Registry.EndpointMetadata) :
  Registry.get endpoint_id (registry w) = Some endpoint ->
  Main.is_tool_id endpoint_id = false ->
  String.eqb endpoint_id "system_info" = false ->
  String.eqb endpoint_id "git_repo" = false ->
  PyStr.startswith endpoint_id "sample_" = true ->
  Main.execute_endpoint host endpoint_id request w
  = try_except (Main.execute_sample host endpoint_id (Main.params_of request))
               (fun e => ret (boundary_failure e)) w.
Proof.
  intros Hget Htool Hsys Hgit Hsample.
  rewrite (execute_registered host _ _ _ _ Hget).
  unfold Main.strategy. by rewrite Htool, Hsys, Hgit, Hsample.
Qed.

Lemma params_of_some (params : gmap string Py.value) :
  Main.params_of (Main.mk_ExecuteRequest (Some params)) = params.
Proof. reflexivity. Qed.

Lemma dict_get_absent (params : gmap string Py.value) (key : string) (default : Py.value) :
  params !! key = None ->
  Py.dict_get (<[key := default]> params) key default = Py.dict_get params key default.
Proof.
  intros Hnone. unfold Py.dict_get. by rewrite lookup_insert_eq, Hnone.
Qed.

Lemma dict_get_other (params : gmap string Py.value) (key other : string)
      (v default : Py.value) :
  key <> other ->
  Py.dict_get (<[key := v]> params) other default = Py.dict_get params other default.
Proof.
  intros Hne. unfold Py.dict_get. by rewrite lookup_insert_ne.
Qed.

Lemma sample_math_add_body (params : gmap string Py.value) :
  Main.execute_sample host "sample_math_add" params
  = (a <- lift (Py.to_float (Py.dict_get params "a" (Py.VInt 0))) ;;
     b <- lift (Py.to_float (Py.dict_get params "b" (Py.VInt 0))) ;;
     ret (Main.mk_ExecuteResponse true "Numbers added"
            (Some (Py.str (Py.VFloat (a + b)%float))))).
Proof. reflexivity. Qed.

Lemma sample_math_multiply_body (params : gmap string Py.value) :
  Main.execute_sample host "sample_math_multiply" params
  = (a <- lift (Py.to_float (Py.dict_get params "a" (Py.VInt 1))) ;;
     b <- lift (Py.to_float (Py.dict_get params "b" (Py.VInt 1))) ;;
     ret (Main.mk_ExecuteResponse true "Numbers multiplied"
            (Some (Py.str (Py.VFloat (a * b)%float))))).
Proof. reflexivity. Qed.

Lemma sample_math_power_body (params : gmap string Py.value) :
  Main.execute_sample host "sample_math_power" params
  = (base <- lift (Py.to_float (Py.dict_get params "base" (Py.VInt 2))) ;;
     exponent <- lift (Py.to_float (Py.dict_get params "exponent" (Py.VInt 2))) ;;
     result <- lift (Py.float_pow base exponent) ;;
     ret (Main.mk_ExecuteResponse true "Power calculated"
            (Some (match result with
                   | inl f => Py.str (Py.VFloat f)
                   | inr (re, im) => Py.complex_repr re im
                   end)))).
Proof. reflexivity. Qed.

Lemma sample_json_parse_body (params : gmap string Py.value) :
  Main.execute_sample host "sample_data_json_parse" params
  = try_except_class Py.is_JSONDecodeError
      (parsed <- lift (Py.loads (Py.dict_get params "json_string" (Py.VStr "{}"))) ;;
       ret (Main.mk_ExecuteResponse true "JSON parsed successfully"
              (Some (Py.str parsed))))
      (fun e => ret (Main.mk_ExecuteResponse false
                       ("JSON parse error: " +:+ Py.str_exn e) None)).
Proof. reflexivity. Qed.

(** Enters the [sample_] branch for a concrete id found in the table. *)
Ltac enter_sample Hsub :=
  match goal with
  | |- context [Main.execute_endpoint _ ?id _ ?w] =>
      let ep := fresh "endpoint" in
      let Hget := fresh "Hget" in
      destruct (sample_id_registered w id Hsub) as (ep & Hget);
      [ rewrite list_elem_of_In; simpl; tauto
      | rewrite !(execute_sample_branch id _ w ep Hget
                    eq_refl eq_refl eq_refl eq_refl) ]
  end.

(** C6: with the sample catalog registered, [uppercase] of [abc] is
    [ABC], [add] of 2 and 3 is the float 5, [replace] of [a] by [b] in
    [aaa] is [bbb], the word count of [a b  c] is 3; with an empty bag
    [add] answers 0, [multiply] answers 1 and [power] answers 2 to the
    power 2; and an absent argument of a math operation acts as its
    default written in it: 0 for [a] and [b] of [add], 1 for [a] and [b]
    of [multiply], 2 for [base] and [exponent] of [power]. *)
Theorem sample_operations (w : World) :
  sample_ids ⊆ Registry.ids (registry w) ->
  Main.execute_endpoint host "sample_text_uppercase"
    (request_of [("input", Py.VStr "abc")]) w
  = (Py.Ok (Main.mk_ExecuteResponse true "Text converted to uppercase" (Some "ABC")), w)
  /\ Main.execute_endpoint host "sample_math_add"
       (request_of [("a", Py.VInt 2); ("b", Py.VInt 3)]) w
     = (Py.Ok (Main.mk_ExecuteResponse true "Numbers added"
                 (Some (Py.float_repr 5%float))), w)
  /\ Main.execute_endpoint host "sample_string_replace"
       (request_of [("text", Py.VStr "aaa"); ("old", Py.VStr "a"); ("new", Py.VStr "b")]) w
     = (Py.Ok (Main.mk_ExecuteResponse true "Text replaced" (Some "bbb")), w)
  /\ Main.execute_endpoint host "sample_text_word_count"
       (request_of [("input", Py.VStr "a b  c")]) w
     = (Py.Ok (Main.mk_ExecuteResponse true "Word count calculated" (Some "3")), w)
  /\ Main.execute_endpoint host "sample_math_add" (request_of []) w
     = (Py.Ok (Main.mk_ExecuteResponse true "Numbers added"
                 (Some (Py.float_repr 0%float))), w)
  /\ Main.execute_endpoint host "sample_math_multiply" (request_of []) w
     = (Py.Ok (Main.mk_ExecuteResponse true "Numbers multiplied"
                 (Some (Py.float_repr 1%float))), w)
  /\ Main.execute_endpoint host "sample_math_power" (request_of []) w
     = (match Py.float_pow 2%float 2%float with
        | Py.Ok (inl f) =>
            Py.Ok (Main.mk_ExecuteResponse true "Power calculated"
                     (Some (Py.float_repr f)))
        | Py.Ok (inr (re, im)) =>
            Py.Ok (Main.mk_ExecuteResponse true "Power calculated"
                     (Some (Py.complex_repr re im)))
        | Py.Raise e => Py.Ok (boundary_failure e)
        end, w)
  /\ (forall params : gmap string Py.value,
        (params !! "a" = None ->
         Main.execute_endpoint host "sample_math_add"
           (Main.mk_ExecuteRequest (Some params)) w
         = Main.execute_endpoint host "sample_math_add"
             (Main.mk_ExecuteRequest (Some (<["a" := Py.VInt 0]> params))) w)
        /\ (params !! "b" = None ->
            Main.execute_endpoint host "sample_math_add"
              (Main.mk_ExecuteRequest (Some params)) w
            = Main.execute_endpoint host "sample_math_add"
                (Main.mk_ExecuteRequest (Some (<["b" := Py.VInt 0]> params))) w)
        /\ (params !! "a" = None ->
            Main.execute_endpoint host "sample_math_multiply"
              (Main.mk_ExecuteRequest (Some params)) w
            = Main.execute_endpoint host "sample_math_multiply"
                (Main.mk_ExecuteRequest (Some (<["a" := Py.VInt 1]> params))) w)
        /\ (params !! "b" = None ->
            Main.execute_endpoint host "sample_math_multiply"
              (Main.mk_ExecuteRequest (Some params)) w
            = Main.execute_endpoint host "sample_math_multiply"
                (Main.mk_ExecuteRequest (Some (<["b" := Py.VInt 1]> params))) w)
        /\ (params !! "base" = None ->
            Main.execute_endpoint host "sample_math_power"
              (Main.mk_ExecuteRequest (Some params)) w
            = Main.execute_endpoint host "sample_math_power"
                (Main.mk_ExecuteRequest (Some (<["base" := Py.VInt 2]> params))) w)
        /\ (params !! "exponent" = None ->
            Main.execute_endpoint host "sample_math_power"
              (Main.mk_ExecuteRequest (Some params)) w
            = Main.execute_endpoint host "sample_math_power"
                (Main.mk_ExecuteRequest (Some (<["exponent" := Py.VInt 2]> params))) w)).
Proof.
  intros Hsub.
  split; [enter_sample Hsub; reflexivity|].
  split; [enter_sample Hsub; reflexivity|].
  split; [enter_sample Hsub; reflexivity|].
  split; [enter_sample Hsub; reflexivity|].
  split; [enter_sample Hsub; reflexivity|].
  split; [enter_sample Hsub; reflexivity|].
  split; [enter_sample Hsub; rewrite sample_math_power_body;
          change (Main.params_of (request_of [])) with (∅ : gmap string Py.value);
          unfold Py.dict_get; rewrite !lookup_empty;
          change (Py.to_float (Py.VInt 2)) with (Py.Ok 2%float);
          unfold try_except, bind, lift;
          by destruct (Py.float_pow 2%float 2%float) as [[f|[re im]]|e]|].
  intros params.
  split; [intros Hnone; enter_sample Hsub; rewrite !params_of_some;
          rewrite !sample_math_add_body, (dict_get_absent _ _ _ Hnone),
            dict_get_other by done; reflexivity|].
  split; [intros Hnone; enter_sample Hsub; rewrite !params_of_some;
          rewrite !sample_math_add_body, (dict_get_absent _ _ _ Hnone),
            dict_get_other by done; reflexivity|].
  split; [intros Hnone; enter_sample Hsub; rewrite !params_of_some;
          rewrite !sample_math_multiply_body, (dict_get_absent _ _ _ Hnone),
            dict_get_other by done; reflexivity|].
  split; [intros Hnone; enter_sample Hsub; rewrite !params_of_some;
          rewrite !sample_math_multiply_body, (dict_get_absent _ _ _ Hnone),
            dict_get_other by done; reflexivity|].
  split; [intros Hnone; enter_sample Hsub; rewrite !params_of_some;
          rewrite !sample_math_power_body, (dict_get_absent _ _ _ Hnone),
            dict_get_other by done; reflexivity|].
  intros Hnone; enter_sample Hsub; rewrite !params_of_some.
  rewrite !sample_math_power_body, (dict_get_absent _ _ _ Hnone),
    dict_get_other by done. reflexivity.
Qed.

End SampleTheorems.

(** ** Parsing JSON *)
Section ParseTheorems.
Import Sys Spec.
Local Open Scope py_scope.
Context `{Py.Runtime} (host : Host).



(** *** A text nested deeper than the decoder goes *)









End ParseTheorems.



(** ** Closed instances *)
Section ClosedInstances.
Import Sys Spec.

Ltac by_evaluation := apply (bool_decide_unpack _); vm_compute; exact I.

(** A pass on a host where every tool is installed and every external
    query times out still ends normally and registers the 14 samples,
    the 16 tools and the system descriptor; versions are [unknown]. *)
Example discover_all_with_failing_queries :
  (Discovery.discover_all failing_host fresh).1 = Py.Ok tt
  /\ "system_info" ∈ Registry.ids (registry (discovered failing_host))
  /\ "node_tsc" ∈ Registry.ids (registry (discovered failing_host))
  /\ ("git_repo" ∉ Registry.ids (registry (discovered failing_host)))
  /\ Registry.count (registry (discovered failing_host)) = 31%nat
  /\ (Registry.parameters <$> (registry (discovered failing_host) !! "tool_docker"))
     = Some (<["command" := Py.VStr "docker"]> {[ "version" := Py.VStr "unknown" ]}).
Proof.
  split; [vm_compute; reflexivity|].
  split; [by_evaluation|]. split; [by_evaluation|]. split; [by_evaluation|].
  split; [vm_compute; reflexivity|].
  vm_compute. reflexivity.
Qed.

(** C1, against the claim as worded: on a host whose processor query
    raises, the last probe raises, the pass raises the same exception to
    its caller, and so does a refresh; the registrations of the probes
    before it are in the registry, [system_info] is not. *)
Lemma probe_error_reaches_caller :
  platform_processor (without_processor git_host) = Py.Raise unreadable
  /\ (Discovery.discover_system_info (without_processor git_host) fresh).1
     = Py.Raise unreadable
  /\ (Discovery.discover_all (without_processor git_host) fresh).1
     = Py.Raise unreadable
  /\ (Discovery.discover_all (without_processor git_host) fresh).1 <> Py.Ok tt
  /\ (Main.refresh_discovery (without_processor git_host) fresh).1
     = Py.Raise unreadable
  /\ ("system_info"
        ∉ Registry.ids (registry (discovered (without_processor git_host))))
  /\ "tool_git" ∈ Registry.ids (registry (discovered (without_processor git_host)))
  /\ Registry.count (registry (discovered (without_processor git_host))) = 16%nat.
Proof.
  split; [reflexivity|]. split; [vm_compute; reflexivity|].
  split; [vm_compute; reflexivity|]. split; [vm_compute; intros [=]|].
  split; [vm_compute; reflexivity|].
  split; [by_evaluation|]. split; [by_evaluation|].
  vm_compute. reflexivity.
Qed.

(** C2, the code at two hosts: a status query that exits with 128 is
    answered as a success whose output is [No changes], and a status
    query that exits with 0 and prints nothing is answered with the empty
    text. *)
Theorem git_repo_status_misreported :
  run git_host ["git"; "status"; "--short"] 2
  = Py.Ok (mk_CompletedProcess 128 EmptyString "fatal: not a git repository")
  /\ (Main.execute_endpoint (H:=sample_runtime) git_host "git_repo"
        (request_of []) (discovered git_host)).1
     = Py.Ok (Main.mk_ExecuteResponse true "Git repository status" (Some "No changes"))
  /\ run clean_git_host ["git"; "status"; "--short"] 2
     = Py.Ok (mk_CompletedProcess 0 EmptyString EmptyString)
  /\ (Main.execute_endpoint (H:=sample_runtime) clean_git_host "git_repo"
        (request_of []) (discovered clean_git_host)).1
     = Py.Ok (Main.mk_ExecuteResponse true "Git repository status" (Some EmptyString)).
Proof.
  split; [reflexivity|]. split; [vm_compute; reflexivity|].
  split; [reflexivity|]. vm_compute. reflexivity.
Qed.

(** C8, against the claim as worded: the version query of [git_host]
    exits zero with a text whose first line is empty, and the version
    returned is the second line. *)
Lemma version_is_not_first_line_of_output :
  run git_host ["git"; "--version"] 2
  = Py.Ok (mk_CompletedProcess 0 (LF +:+ "git version 2.43.0" +:+ LF) EmptyString)
  /\ (Discovery._get_version git_host "git" fresh).1 = Py.Ok "git version 2.43.0"
  /\ first_line (LF +:+ "git version 2.43.0" +:+ LF) = EmptyString
  /\ (Discovery._get_version git_host "git" fresh).1
     <> Py.Ok (first_line (LF +:+ "git version 2.43.0" +:+ LF)).
Proof.
  split; [reflexivity|]. split; [vm_compute; reflexivity|].
  split; [vm_compute; reflexivity|]. vm_compute. intros [=].
Qed.


Lemma register_same_id_replaces_witness :
  Registry.id git_entry_old = Registry.id git_entry_new
  /\ (Registry.get (Registry.id git_entry_old)
        (Registry.register git_entry_new
           (Registry.register git_entry_old Registry.init)) = Some git_entry_new
      /\ Registry.register git_entry_new
           (Registry.register git_entry_old Registry.init)
         = Registry.register git_entry_new Registry.init
      /\ filter (fun kv => kv.1 = Registry.id git_entry_old)
           (Registry.items (Registry.register git_entry_new
                              (Registry.register git_entry_old Registry.init)))
         = [(Registry.id git_entry_old, git_entry_new)]
      /\ Registry.count (Registry.register git_entry_new
                           (Registry.register git_entry_old Registry.init))
         = Registry.count (Registry.register git_entry_new Registry.init)).
Proof.
  split; [reflexivity|].
  apply (register_same_id_replaces Registry.init git_entry_old git_entry_new).
  reflexivity.
Defined.

Lemma discover_all_idempotent_witness :
  same_host_state git_host (rebooted git_host)
  /\ (Registry.ids (registry (Discovery.discover_all (rebooted git_host)
                               (Discovery.discover_all git_host fresh).2).2)
      = Registry.ids (registry (Discovery.discover_all git_host fresh).2)
      /\ Registry.ids (registry (Discovery.discover_all (rebooted git_host) fresh).2)
         = Registry.ids (registry (Discovery.discover_all git_host fresh).2)
      /\ Registry.ids (registry (Main.refresh_discovery (rebooted git_host)
                                   (Main.refresh_discovery git_host fresh).2).2)
         = Registry.ids (registry (Main.refresh_discovery git_host fresh).2)
      /\ (Main.refresh_discovery (rebooted git_host)
            (Main.refresh_discovery git_host fresh).2).1
         = (Main.refresh_discovery git_host fresh).1).
Proof.
  assert (same_host_state git_host (rebooted git_host)) as Hsame.
  { unfold same_host_state.
    split; [intros cmd; reflexivity|]. split; [intros argv t|]; reflexivity. }
  split; [exact Hsame|].
  apply (discover_all_idempotent git_host (rebooted git_host) fresh Hsame).
Defined.

Lemma recorded_version_witness :
  "git" ∈ Discovery.common_tools.*1
  /\ which_found git_host "git" = true
  /\ exists version w' ep,
      Discovery._get_version git_host "git" fresh = (Py.Ok version, fresh)
      /\ Discovery.discover_common_tools git_host fresh = (Py.Ok tt, w')
      /\ registry w' !! ("tool_" +:+ "git") = Some ep
      /\ Registry.parameters ep !! "version" = Some (Py.VStr version)
      /\ match run git_host ["git"; "--version"] 2 with
         | Py.Ok result =>
             if returncode result =? 0
             then version = first_line (PyStr.strip (stdout result))
             else version = "unknown"
         | Py.Raise _ => version = "unknown"
         end.
Proof.
  assert ("git" ∈ Discovery.common_tools.*1) as Hin.
  { simpl. rewrite !elem_of_cons. tauto. }
  split; [exact Hin|]. split; [reflexivity|].
  apply (recorded_version git_host fresh "git" Hin). reflexivity.
Defined.

Lemma execute_unknown_id_not_found_witness :
  Registry.get "nonexistent_id" (registry fresh) = None
  /\ (Main.execute_endpoint (H:=sample_runtime) git_host "nonexistent_id" (request_of []) fresh
      = (Py.Raise (Py.Exn (Py.HTTPException 404)
                     ("Endpoint '" +:+ "nonexistent_id" +:+ "' not found")), fresh)
      /\ registry (Main.execute_endpoint (H:=sample_runtime) git_host "nonexistent_id"
                     (request_of []) fresh).2 = registry fresh
      /\ (forall response,
            (Main.execute_endpoint (H:=sample_runtime) git_host "nonexistent_id"
               (request_of []) fresh).1 <> Py.Ok response)).
Proof.
  split; [reflexivity|].
  apply (execute_unknown_id_not_found (H:=sample_runtime) git_host "nonexistent_id"
           (request_of []) fresh).
  reflexivity.
Defined.

(** The uppercase operation on a number: the strategy raises, the
    dispatcher answers. *)
Example uppercase_of_a_number :
  Main.strategy (H:=sample_runtime) git_host "sample_text_uppercase" upper_entry
    (request_of [("input", Py.VInt 5)]) upper_world
  = (Py.Raise (Py.Exn Py.AttributeError "'int' object has no attribute 'upper'"),
     upper_world)
  /\ Main.execute_endpoint (H:=sample_runtime) git_host "sample_text_uppercase"
       (request_of [("input", Py.VInt 5)]) upper_world
     = (Py.Ok (Main.mk_ExecuteResponse false
                 "Error executing endpoint: 'int' object has no attribute 'upper'" None),
        upper_world).
Proof. split; vm_compute; reflexivity. Qed.

Lemma execute_contains_failures_witness :
  Registry.get "sample_text_uppercase" (registry upper_world) = Some upper_entry
  /\ ((exists response w',
         Main.execute_endpoint (H:=sample_runtime) git_host "sample_text_uppercase"
           (request_of [("input", Py.VInt 5)]) upper_world = (Py.Ok response, w'))
      /\ (forall e w',
            Main.strategy (H:=sample_runtime) git_host "sample_text_uppercase" upper_entry
              (request_of [("input", Py.VInt 5)]) upper_world = (Py.Raise e, w') ->
            Main.execute_endpoint (H:=sample_runtime) git_host "sample_text_uppercase"
              (request_of [("input", Py.VInt 5)]) upper_world
            = (Py.Ok (Main.mk_ExecuteResponse false
                        ("Error executing endpoint: " +:+ Py.str_exn e) None), w'))).
Proof.
  split; [reflexivity|].
  apply (execute_contains_failures (H:=sample_runtime) git_host "sample_text_uppercase"
           (request_of [("input", Py.VInt 5)]) upper_world upper_entry).
  reflexivity.
Defined.



Lemma sample_operations_witness :
  sample_ids ⊆ Registry.ids (registry (discovered git_host))
  /\ Main.execute_endpoint (H:=sample_runtime) git_host "sample_math_add"
       (request_of [("a", Py.VInt 2); ("b", Py.VInt 3)]) (discovered git_host)
     = (Py.Ok (Main.mk_ExecuteResponse true "Numbers added" (Some "5.0")),
        discovered git_host).
Proof.
  assert (sample_ids ⊆ Registry.ids (registry (discovered git_host))) as Hsub.
  { by_evaluation. }
  split; [exact Hsub|].
  destruct (sample_operations (H:=sample_runtime) git_host (discovered git_host) Hsub)
    as (_ & Hadd & _).
  exact Hadd.
Defined.

End ClosedInstances.

(** * Further properties *)

(** ** The registry: counting, round trips, unique ids *)
Section RegistryMore.
Import Registry Spec.

(** X1: [count] follows membership: registering adds one exactly when
    the id is new, unregistering takes one away exactly when the id is
    there, and after [clear] the count is 0. *)
Theorem count_tracks_membership (r : EndpointRegistry) (e : EndpointMetadata)
        (k : string) :
  count (register e r) = (if dict_contains (id e) r then count r else S (count r))
  /\ (exists r', unregister k r = Py.Ok r'
                 /\ count r' = (if dict_contains k r
                                then Nat.pred (count r) else count r))
  /\ count (clear r) = 0%nat.
Proof.
  unfold count, register, unregister, dict_contains, dict_del, clear.
  split; [|split].
  - rewrite map_size_insert.
    destruct (r !! id e) eqn:E.
    + by rewrite bool_decide_eq_true_2 by eauto.
    + by rewrite bool_decide_eq_false_2 by (intros [? ?]; done).
  - destruct (r !! k) eqn:E.
    + rewrite bool_decide_eq_true_2 by eauto. eexists. split; [done|].
      rewrite map_size_delete. by rewrite E.
    + rewrite bool_decide_eq_false_2 by (intros [? ?]; done). by eexists.
  - apply map_size_empty.
Qed.

(** X2: unregistering a registration made under a new id gives back
    the registry as it was; and registering again an entry that was
    just unregistered gives back the registry that had it. *)
Theorem unregister_undoes_register (r : EndpointRegistry) (e : EndpointMetadata) :
  get (id e) r = None ->
  unregister (id e) (register e r) = Py.Ok r
  /\ (forall r0, get (id e) r0 = Some e ->
        exists r', unregister (id e) r0 = Py.Ok r' /\ register e r' = r0).
Proof.
  intros Hnone. unfold get in *. split.
  - unfold unregister, dict_contains, dict_del, register.
    rewrite bool_decide_eq_true_2 by (rewrite lookup_insert_eq; eauto).
    rewrite lookup_insert_eq, delete_insert_eq. by rewrite delete_id.
  - intros r0 Hsome. exists (delete (id e) r0).
    unfold unregister, dict_contains, dict_del, register.
    rewrite bool_decide_eq_true_2 by eauto. rewrite Hsome.
    split; [done|]. by apply insert_delete_id.
Qed.

Lemma well_keyed_register (r : EndpointRegistry) (e : EndpointMetadata) :
  well_keyed r -> well_keyed (register e r).
Proof.
  intros Hr k x. unfold register.
  destruct (decide (id e = k)) as [<-|Hne].
  - rewrite lookup_insert_eq. by intros [= <-].
  - rewrite lookup_insert_ne by done. apply Hr.
Qed.

Lemma well_keyed_empty : well_keyed init.
Proof. intros k x. unfold init. by rewrite lookup_empty. Qed.

(** X3: the registry operations keep every entry under its own id: the
    new registry has the property, and [register], [unregister] and
    [clear] keep it. *)
Theorem well_keyed_kept :
  well_keyed init
  /\ (forall r e, well_keyed r -> well_keyed (register e r))
  /\ (forall r k r', well_keyed r -> unregister k r = Py.Ok r' -> well_keyed r')
  /\ (forall r, well_keyed (clear r)).
Proof.
  split; [exact well_keyed_empty|]. split; [exact well_keyed_register|]. split.
  - intros r k r' Hr. unfold unregister, dict_del.
    destruct (dict_contains k r); [destruct (r !! k) eqn:E|].
    + intros [= <-] j x Hj.
      destruct (decide (k = j)) as [<-|Hne].
      * by rewrite lookup_delete_eq in Hj.
      * rewrite lookup_delete_ne in Hj by done. by apply Hr.
    + intros [=].
    + by intros [= <-].
  - intros r. exact well_keyed_empty.
Qed.

Lemma ids_of_values (r : EndpointRegistry) :
  well_keyed r -> id <$> get_all r = (items r).*1.
Proof.
  intros Hr. unfold get_all. rewrite <- list_fmap_compose.
  apply list_fmap_ext. intros i [k e] Hlook. simpl.
  apply Hr. apply elem_of_map_to_list. unfold items in Hlook.
  by apply list_elem_of_lookup_2 in Hlook.
Qed.

(** X4: in a registry that keeps every entry under its own id, the list
    of all endpoints has no id twice, [get] by the id of a listed entry
    returns that entry, and the list is as long as [count] says. *)
Theorem listed_ids_unique (r : EndpointRegistry) :
  well_keyed r ->
  NoDup (id <$> get_all r)
  /\ (forall e, e ∈ get_all r -> get (id e) r = Some e)
  /\ length (get_all r) = count r.
Proof.
  intros Hr. split; [|split].
  - rewrite (ids_of_values r Hr). apply NoDup_fst_map_to_list.
  - intros e He. unfold get_all in He.
    apply list_elem_of_fmap in He as ([k x] & -> & Hin). simpl.
    apply elem_of_map_to_list in Hin. unfold get.
    by rewrite (Hr k x Hin).
  - unfold get_all, items, count. by rewrite length_fmap, length_map_to_list.
Qed.

(** X5: an entry is in the answer of [get_by_category] exactly when it
    is registered and has the category asked for, and the answer never
    has more entries than the registry counts. *)
Theorem get_by_category_exact (r : EndpointRegistry) (c : string)
        (e : EndpointMetadata) :
  (e ∈ get_by_category c r <-> (exists k, r !! k = Some e) /\ category e = c)
  /\ (length (get_by_category c r) <= count r)%nat.
Proof.
  unfold get_by_category. split.
  - rewrite list_elem_of_In, List.filter_In, <- list_elem_of_In, String.eqb_eq.
    unfold get_all. rewrite list_elem_of_fmap. split.
    + intros [([k x] & -> & Hin) Hc]. split; [|done].
      exists k. by apply elem_of_map_to_list.
    + intros [[k Hk] Hc]. split; [|done].
      exists (k, e). split; [done|]. by apply elem_of_map_to_list.
  - transitivity (length (get_all r)).
    + apply List.filter_length_le.
    + unfold get_all, items, count. by rewrite length_fmap, length_map_to_list.
Qed.

End RegistryMore.

(** ** Properties kept by statements *)
Section PreservesFacts.
Import Sys Spec.
Local Open Scope py_scope.

Lemma preserves_ret {A} (I : World -> Prop) (a : A) : preserves I (ret a).
Proof. by intros w Hw. Qed.

Lemma preserves_raise {A} (I : World -> Prop) (e : Py.exn) :
  preserves I (raise e : M A).
Proof. by intros w Hw. Qed.

Lemma preserves_lift {A} (I : World -> Prop) (r : Py.result A) :
  preserves I (lift r).
Proof. by intros w Hw. Qed.

Lemma preserves_bind {A B} (I : World -> Prop) (m : M A) (k : A -> M B) :
  preserves I m -> (forall a, preserves I (k a)) -> preserves I (bind m k).
Proof.
  intros Hm Hk w Hw. unfold bind. specialize (Hm w Hw).
  destruct (m w) as [[a|e] w1]; simpl in *; [by apply Hk | done].
Qed.

Lemma preserves_try_except {A} (I : World -> Prop) (body : M A)
      (handler : Py.exn -> M A) :
  preserves I body -> (forall e, preserves I (handler e)) ->
  preserves I (try_except body handler).
Proof.
  intros Hb Hh w Hw. unfold try_except. specialize (Hb w Hw).
  destruct (body w) as [[a|e] w1]; simpl in *; [done | by apply Hh].
Qed.

Lemma preserves_for_each {A} (I : World -> Prop) (l : list A) (body : A -> M unit) :
  (forall x, preserves I (body x)) -> preserves I (for_each l body).
Proof.
  intros Hbody. induction l as [|x l IH]; simpl.
  - apply preserves_ret.
  - apply preserves_bind; [apply Hbody | intros _; exact IH].
Qed.

Lemma preserves_if {A} (I : World -> Prop) (b : bool) (m1 m2 : M A) :
  preserves I m1 -> preserves I m2 -> preserves I (if b then m1 else m2).
Proof. by destruct b. Qed.

End PreservesFacts.

(** ** What a discovery pass leaves in the registry *)
Section DiscoveryMore.
Import Sys Spec.
Local Open Scope py_scope.
Context (host : Host).

(** Closes a goal whose hypothesis [H] equates two texts, or two first
    characters, that differ in their first character. *)
Ltac head_clash H :=
  exfalso; cbv [head_char String.append] in H; discriminate H.

(** X6: after a refresh, a tool of one of the three tables is in the
    registry under its prefixed id exactly when it is on the search
    path. *)
Theorem tool_listed_iff_present (w : World) (prefix : string)
        (table : list (string * (string * string))) (tool : string) :
  (prefix, table) ∈ tool_tables ->
  tool ∈ table.*1 ->
  (prefix +:+ tool ∈ Registry.ids (registry (Main.refresh_discovery host w).2)
   <-> which_found host tool = true).
Proof.
  intros Htab Htool.
  destruct (refresh_discovery_ids host w) as (w' & E & I).
  rewrite (run_snd _ _ _ _ E), I, elem_of_discovered_ids.
  apply list_elem_of_fmap in Htool as (entry & -> & Hin).
  unfold tool_tables in Htab. rewrite !elem_of_cons, elem_of_nil in Htab.
  destruct Htab as [[= -> ->]|[[= -> ->]|[[= -> ->]|[]]]].
  - split.
    + intros [Hs|[H1|[H2|[H3|[Hg|Hsys]]]]].
      * apply head_char_sample in Hs. head_clash Hs.
      * apply elem_of_tool_ids in H1 as (other & _ & Hf & Heq).
        apply (inj (String.app "tool_")) in Heq. by rewrite Heq.
      * apply head_char_tool_ids in H2. head_clash H2.
      * apply head_char_tool_ids in H3. head_clash H3.
      * apply elem_of_git_ids in Hg as [Heq _]. head_clash Heq.
      * apply elem_of_system_ids in Hsys as [Hsys _]. head_clash Hsys.
    + intros Hf. right; left. apply elem_of_tool_ids.
      exists entry. split; [exact Hin|]. split; [exact Hf|reflexivity].
  - split.
    + intros [Hs|[H1|[H2|[H3|[Hg|Hsys]]]]].
      * apply head_char_sample in Hs. head_clash Hs.
      * apply head_char_tool_ids in H1. head_clash H1.
      * apply elem_of_tool_ids in H2 as (other & _ & Hf & Heq).
        apply (inj (String.app "python_")) in Heq. by rewrite Heq.
      * apply head_char_tool_ids in H3. head_clash H3.
      * apply elem_of_git_ids in Hg as [Heq _]. head_clash Heq.
      * apply elem_of_system_ids in Hsys as [Hsys _]. head_clash Hsys.
    + intros Hf. right; right; left. apply elem_of_tool_ids.
      exists entry. split; [exact Hin|]. split; [exact Hf|reflexivity].
  - split.
    + intros [Hs|[H1|[H2|[H3|[Hg|Hsys]]]]].
      * apply head_char_sample in Hs. head_clash Hs.
      * apply head_char_tool_ids in H1. head_clash H1.
      * apply head_char_tool_ids in H2. head_clash H2.
      * apply elem_of_tool_ids in H3 as (other & _ & Hf & Heq).
        apply (inj (String.app "node_")) in Heq. by rewrite Heq.
      * apply elem_of_git_ids in Hg as [Heq _]. head_clash Heq.
      * apply elem_of_system_ids in Hsys as [Hsys _]. head_clash Hsys.
    + intros Hf. right; right; right; left. apply elem_of_tool_ids.
      exists entry. split; [exact Hin|]. split; [exact Hf|reflexivity].
Qed.

(** X7: after a refresh, [git_repo] is in the registry exactly when git
    is on the search path and the work-tree query completed with exit
    code 0; a query that raised or exited nonzero leaves it out. *)
Theorem git_repo_listed_iff (w : World) :
  "git_repo" ∈ Registry.ids (registry (Main.refresh_discovery host w).2)
  <-> which_found host "git" = true
      /\ exists result, run host ["git"; "rev-parse"; "--is-inside-work-tree"] 2
                         = Py.Ok result /\ returncode result = 0.
Proof.
  destruct (refresh_discovery_ids host w) as (w' & E & I).
  rewrite (run_snd _ _ _ _ E), I, elem_of_discovered_ids. split.
  - intros [Hs|[H1|[H2|[H3|[Hg|Hsys]]]]].
    + apply head_char_sample in Hs. head_clash Hs.
    + apply head_char_tool_ids in H1. head_clash H1.
    + apply head_char_tool_ids in H2. head_clash H2.
    + apply head_char_tool_ids in H3. head_clash H3.
    + by apply elem_of_git_ids in Hg as [_ Hg].
    + apply elem_of_system_ids in Hsys as [Hsys _]. head_clash Hsys.
  - intros Hg. do 4 right. left. apply elem_of_git_ids.
    split; [reflexivity | exact Hg].
Qed.

Lemma size_union_le (X Y : gset string) : (size (X ∪ Y) <= size X + size Y)%nat.
Proof.
  rewrite size_union_alt.
  assert (size (Y ∖ X) <= size Y)%nat by (apply subseteq_size; set_solver).
  lia.
Qed.

Lemma size_tool_ids (prefix : string) (table : list (string * (string * string))) :
  (size (tool_ids host prefix table) <= length table)%nat.
Proof.
  unfold tool_ids. induction table as [|entry table IH].
  - rewrite fmap_nil, union_list_nil, size_empty. simpl. lia.
  - rewrite fmap_cons, union_list_cons. etrans; [apply size_union_le|].
    simpl length.
    assert (size (if which_found host entry.1
                  then ({[ prefix +:+ entry.1 ]} : gset string) else ∅) <= 1)%nat.
    { destruct (which_found host entry.1);
        [by rewrite size_singleton | rewrite size_empty; lia]. }
    lia.
Qed.

Lemma size_git_ids : (size (git_ids host) <= 1)%nat.
Proof.
  unfold git_ids.
  destruct (which_found host "git"); [|rewrite size_empty; lia].
  destruct (run host _ 2) as [result|e]; [|rewrite size_empty; lia].
  destruct (returncode result =? 0);
    [by rewrite size_singleton | rewrite size_empty; lia].
Qed.

Lemma size_sample_ids : size sample_ids = 14%nat.
Proof. vm_compute. reflexivity. Qed.

Lemma size_system_ids :
  size (system_ids host)
  = match platform_failure host with Some _ => 0%nat | None => 1%nat end.
Proof.
  unfold system_ids. destruct (platform_failure host);
    [apply size_empty | apply size_singleton].
Qed.

Lemma size_discovered_ids :
  (14 + size (system_ids host) <= size (discovered_ids host)
   <= 31 + size (system_ids host))%nat.
Proof.
  split.
  - assert (sample_ids ∪ system_ids host ⊆ discovered_ids host) as Hsub.
    { intros x [Hx|Hx]%elem_of_union; apply elem_of_discovered_ids;
        [by left | by do 5 right]. }
    apply subseteq_size in Hsub.
    rewrite size_union in Hsub.
    + rewrite size_sample_ids in Hsub. exact Hsub.
    + intros x Hx [-> _]%elem_of_system_ids. revert Hx.
      apply (bool_decide_unpack _). vm_compute. exact I.
  - unfold discovered_ids.
    pose proof (size_tool_ids "tool_" Discovery.common_tools) as T1.
    pose proof (size_tool_ids "python_" Discovery.python_tools) as T2.
    pose proof (size_tool_ids "node_" Discovery.node_tools) as T3.
    pose proof size_git_ids as T4.
    pose proof size_sample_ids as T5.
    simpl length in T1, T2, T3.
    revert T1 T2 T3 T4 T5.
    generalize sample_ids (tool_ids host "tool_" Discovery.common_tools)
      (tool_ids host "python_" Discovery.python_tools)
      (tool_ids host "node_" Discovery.node_tools) (git_ids host)
      (system_ids host).
    intros A B C D G F T1 T2 T3 T4 T5.
    pose proof (size_union_le (A ∪ B ∪ C ∪ D ∪ G) F).
    pose proof (size_union_le (A ∪ B ∪ C ∪ D) G).
    pose proof (size_union_le (A ∪ B ∪ C) D).
    pose proof (size_union_le (A ∪ B) C).
    pose proof (size_union_le A B).
    lia.
Qed.

Lemma system_info_discovered :
  "system_info" ∈ discovered_ids host <-> platform_failure host = None.
Proof.
  rewrite elem_of_discovered_ids. split.
  - intros [Hs|[H1|[H2|[H3|[Hg|Hsys]]]]].
    + exfalso. revert Hs. apply (bool_decide_unpack _). vm_compute. exact I.
    + apply head_char_tool_ids in H1. head_clash H1.
    + apply head_char_tool_ids in H2. head_clash H2.
    + apply head_char_tool_ids in H3. head_clash H3.
    + apply elem_of_git_ids in Hg as [Heq _]. head_clash Heq.
    + by apply elem_of_system_ids in Hsys as [_ Hnone].
  - intros Hnone. do 5 right. by apply elem_of_system_ids.
Qed.

(** X8: what a refresh leaves, on every host: the 14 sample operations
    are registered, and [system_info] exactly when the platform queries
    answer.  When they answer, the refresh reports the number of
    endpoints registered, between 15 and 32; when one raises, the
    refresh raises its exception and leaves between 14 and 31
    endpoints. *)
Theorem refresh_count_bounds (w : World) :
  let kept := registry (Main.refresh_discovery host w).2 in
  (forall row, row ∈ Discovery.sample_modules ->
     Discovery.row_id row ∈ Registry.ids kept)
  /\ ("system_info" ∈ Registry.ids kept <-> platform_failure host = None)
  /\ (platform_failure host = None ->
      (Main.refresh_discovery host w).1 = Py.Ok (Registry.count kept)
      /\ (15 <= Registry.count kept <= 32)%nat)
  /\ (forall e, platform_failure host = Some e ->
        (Main.refresh_discovery host w).1 = Py.Raise e
        /\ (14 <= Registry.count kept <= 31)%nat).
Proof.
  intros kept. subst kept.
  destruct (refresh_discovery_ids host w) as (w' & E & Hids).
  rewrite (run_fst _ _ _ _ E), (run_snd _ _ _ _ E).
  assert (Registry.count (registry w') = size (discovered_ids host)) as Hn.
  { rewrite <- Hids. unfold Registry.ids, Registry.count. by rewrite size_dom. }
  rewrite Hn, Hids.
  pose proof size_discovered_ids as Hsize. rewrite size_system_ids in Hsize.
  split; [|split; [exact system_info_discovered|split]].
  - intros row Hrow. apply elem_of_discovered_ids. left.
    unfold sample_ids. apply elem_of_list_to_set.
    by apply list_elem_of_fmap_2.
  - intros Hnone. rewrite Hnone in Hsize |- *. split; [reflexivity | lia].
  - intros e Hsome. rewrite Hsome in Hsize |- *. split; [reflexivity | lia].
Qed.

End DiscoveryMore.

(** ** Listing after a refresh *)
Section ListingMore.
Import Sys Spec.
Local Open Scope py_scope.
Context `{Py.Runtime} (host : Host).

Lemma new_register_well_keyed (id name description category : string)
      (parameters : list (string * Py.value)) :
  preserves (fun w => well_keyed (registry w))
    (endpoint <- Discovery.new_endpoint host id name description category parameters ;;
     Discovery.register endpoint).
Proof. intros w Hw. simpl. by apply well_keyed_register. Qed.

Lemma get_version_preserves (I : World -> Prop) (command : string) :
  preserves I (Discovery._get_version host command).
Proof. intros w Hw. by rewrite get_version_total. Qed.

Lemma discover_all_well_keyed :
  preserves (fun w => well_keyed (registry w)) (Discovery.discover_all host).
Proof.
  unfold Discovery.discover_all.
  apply preserves_bind; [|intros _; apply preserves_bind;
                          [|intros _; apply preserves_bind;
                            [|intros _; apply preserves_bind;
                              [|intros _; apply preserves_bind; [|intros _]]]]].
  - unfold Discovery.discover_sample_modules.
    apply preserves_for_each. intros row. apply new_register_well_keyed.
  - unfold Discovery.discover_common_tools.
    apply preserves_for_each. intros entry. cbv zeta.
    apply preserves_if; [|apply preserves_ret].
    apply preserves_bind; [apply get_version_preserves|].
    intros version. apply new_register_well_keyed.
  - unfold Discovery.discover_python_tools.
    apply preserves_for_each. intros entry. cbv zeta.
    apply preserves_if; [apply new_register_well_keyed | apply preserves_ret].
  - unfold Discovery.discover_node_tools.
    apply preserves_for_each. intros entry. cbv zeta.
    apply preserves_if; [apply new_register_well_keyed | apply preserves_ret].
  - unfold Discovery.discover_git_tools.
    apply preserves_if; [|apply preserves_ret].
    apply preserves_try_except; [|intros e; apply preserves_ret].
    apply preserves_bind; [apply preserves_lift|]. intros result.
    apply preserves_if; [apply new_register_well_keyed | apply preserves_ret].
  - unfold Discovery.discover_system_info.
    do 7 (apply preserves_bind; [apply preserves_lift|intros ?]).
    apply new_register_well_keyed.
Qed.

Lemma refresh_well_keyed (w : World) :
  well_keyed (registry (Main.refresh_discovery host w).2).
Proof.
  assert ((Main.refresh_discovery host w).2
          = (Discovery.discover_all host
               (set_registry (Registry.clear (registry w)) w)).2) as ->.
  { unfold Main.refresh_discovery, bind, modify_registry, get_registry, ret.
    by destruct (Discovery.discover_all host _) as [[[]|e] w1]. }
  apply discover_all_well_keyed. exact well_keyed_empty.
Qed.

Lemma listed_ids (r : Registry.EndpointRegistry) :
  Main.resp_id <$> (List.map Main.EndpointResponse_from_metadata (Registry.get_all r))
  = Registry.id <$> Registry.get_all r.
Proof.
  change (List.map Main.EndpointResponse_from_metadata (Registry.get_all r))
    with (Main.EndpointResponse_from_metadata <$> Registry.get_all r).
  rewrite <- list_fmap_compose. by apply list_fmap_ext.
Qed.

(** X9: in the world a refresh leaves, whether it returned or raised,
    the listing shows every registered id once and only registered ids,
    and the health check reports the length of the listing; a refresh
    that returned reported that same number. *)
Theorem listing_after_refresh (w : World) :
  let w' := (Main.refresh_discovery host w).2 in
  exists listing,
    Main.discover_endpoints w' = (Py.Ok listing, w')
    /\ Main.health_check w' = (Py.Ok (length listing), w')
    /\ NoDup (Main.resp_id <$> listing)
    /\ (forall i, i ∈ Main.resp_id <$> listing <-> i ∈ Registry.ids (registry w'))
    /\ (forall n, (Main.refresh_discovery host w).1 = Py.Ok n -> n = length listing).
Proof.
  intros w'. subst w'.
  pose proof (refresh_well_keyed w) as Hwk.
  destruct (refresh_discovery_ids host w) as (w' & E & Hids).
  rewrite (run_fst _ _ _ _ E), (run_snd _ _ _ _ E) in *.
  exists (List.map Main.EndpointResponse_from_metadata (Registry.get_all (registry w'))).
  split; [reflexivity|].
  assert (length (List.map Main.EndpointResponse_from_metadata
                    (Registry.get_all (registry w')))
          = Registry.count (registry w')) as Hlen.
  { rewrite length_map.
    unfold Registry.get_all, Registry.items, Registry.count.
    by rewrite length_fmap, length_map_to_list. }
  split; [unfold Main.health_check, bind, get_registry, ret; by rewrite Hlen|].
  rewrite listed_ids, (ids_of_values _ Hwk). split; [|split].
  - apply NoDup_fst_map_to_list.
  - intros i. unfold Registry.ids, Registry.items.
    rewrite elem_of_dom, list_elem_of_fmap. split.
    + intros ([k e] & -> & Hin%elem_of_map_to_list). by exists e.
    + intros [e He]. exists (i, e). split; [done|]. by apply elem_of_map_to_list.
  - intros n. rewrite Hlen.
    destruct (platform_failure host) as [e|]; [intros [=]|].
    intros [= <-]. rewrite <- Hids.
    unfold Registry.ids, Registry.count. by rewrite size_dom.
Qed.

(** X10: a discovery pass alone keeps every id that was registered
    before it, while a refresh leaves the same ids whatever was
    registered before: an id that a refresh from nothing would not
    register survives a pass and does not survive a refresh. *)
Theorem refresh_forgets_stale_ids (w : World) (k : string) :
  k ∈ Registry.ids (registry w) ->
  k ∈ Registry.ids (registry (Discovery.discover_all host w).2)
  /\ Registry.ids (registry (Main.refresh_discovery host w).2)
     = Registry.ids (registry (Main.refresh_discovery host fresh).2)
  /\ (k ∉ Registry.ids (registry (Main.refresh_discovery host fresh).2) ->
      k ∉ Registry.ids (registry (Main.refresh_discovery host w).2)).
Proof.
  intros Hk.
  rewrite discover_all_ids, !refresh_ids. split; [|split; [reflexivity|done]].
  apply elem_of_union. by left.
Qed.

End ListingMore.

(** ** What the dispatcher leaves untouched *)
Section DispatchState.
Import Sys Spec.
Local Open Scope py_scope.
Context `{Py.Runtime} (host : Host).

Lemma preserves_get_registry (I : World -> Prop) : preserves I get_registry.
Proof. by intros w Hw. Qed.

Lemma datetime_now_keeps_registry (r : Registry.EndpointRegistry) :
  preserves (fun w => registry w = r) (datetime_now host).
Proof. by intros w Hw. Qed.

Lemma random_random_keeps_registry (r : Registry.EndpointRegistry) :
  preserves (fun w => registry w = r) (random_random host).
Proof. by intros w Hw. Qed.

(** Walks through a statement built from the monad's operations. *)
Ltac keeps :=
  repeat first
    [ apply preserves_ret | apply preserves_lift | apply preserves_raise
    | apply preserves_get_registry
    | apply datetime_now_keeps_registry | apply random_random_keeps_registry
    | apply preserves_if
    | apply preserves_try_except; [|intros ?]
    | apply preserves_bind; [|intros ?] ].

Lemma execute_tool_preserves (I : World -> Prop) (endpoint_id : string)
      (endpoint : Registry.EndpointMetadata) :
  preserves I (Main.execute_tool host endpoint_id endpoint).
Proof. unfold Main.execute_tool, subprocess_run. cbv zeta. keeps. Qed.

Lemma execute_git_repo_preserves (I : World -> Prop) :
  preserves I (Main.execute_git_repo host).
Proof. unfold Main.execute_git_repo, subprocess_run. keeps. Qed.

Lemma execute_sample_keeps_registry (r : Registry.EndpointRegistry)
      (endpoint_id : string) (params : gmap string Py.value) :
  preserves (fun w => registry w = r) (Main.execute_sample host endpoint_id params).
Proof.
  unfold Main.execute_sample, Main.random_uniform, Main.asyncio_sleep,
    try_except_class.
  cbv zeta. keeps.
Qed.

Lemma execute_sample_stateless (w0 : World) (endpoint_id : string)
      (params : gmap string Py.value) :
  stateful_sample endpoint_id = false ->
  preserves (fun w => w = w0) (Main.execute_sample host endpoint_id params).
Proof.
  unfold stateful_sample. intros [Ht Hr]%orb_false_elim.
  unfold Main.execute_sample, Main.asyncio_sleep, try_except_class.
  rewrite Ht, Hr. cbv zeta. keeps.
Qed.

Lemma strategy_preserves (I : World -> Prop) (endpoint_id : string)
      (endpoint : Registry.EndpointMetadata) (request : Main.ExecuteRequest) :
  preserves I (Main.execute_sample host endpoint_id (Main.params_of request)) ->
  preserves I (Main.strategy host endpoint_id endpoint request).
Proof.
  intros Hsample. unfold Main.strategy.
  apply preserves_if; [apply execute_tool_preserves|].
  apply preserves_if;
    [unfold Main.execute_system_info;
     do 4 (apply preserves_bind; [apply preserves_lift|intros ?]);
     apply preserves_ret|].
  apply preserves_if; [apply execute_git_repo_preserves|].
  apply preserves_if; [exact Hsample | apply preserves_ret].
Qed.

Lemma execute_endpoint_preserves (I : World -> Prop) (endpoint_id : string)
      (request : Main.ExecuteRequest) :
  preserves I (Main.execute_sample host endpoint_id (Main.params_of request)) ->
  preserves I (Main.execute_endpoint host endpoint_id request).
Proof.
  intros Hsample. unfold Main.execute_endpoint.
  apply preserves_bind; [apply preserves_get_registry|]. intros r.
  destruct (Registry.get endpoint_id r) as [endpoint|]; [|apply preserves_raise].
  apply preserves_try_except; [|intros e; apply preserves_ret].
  by apply strategy_preserves.
Qed.

(** X11: executing an endpoint never changes the registry, whatever the
    id, the parameters and the outcome; and unless the id is the
    timestamp or the random operation it changes nothing of the process
    state at all. *)
Theorem execute_leaves_registry (endpoint_id : string)
        (request : Main.ExecuteRequest) (w : World) :
  registry (Main.execute_endpoint host endpoint_id request w).2 = registry w
  /\ (stateful_sample endpoint_id = false ->
      (Main.execute_endpoint host endpoint_id request w).2 = w).
Proof.
  split.
  - apply (execute_endpoint_preserves (fun w' => registry w' = registry w));
      [apply execute_sample_keeps_registry | reflexivity].
  - intros Hstate.
    apply (execute_endpoint_preserves (fun w' => w' = w));
      [by apply execute_sample_stateless | reflexivity].
Qed.

End DispatchState.

(** ** Strategies at their edges *)
Section DispatchMore.
Import Sys Spec.
Local Open Scope py_scope.
Context `{Py.Runtime} (host : Host).

Lemma is_tool_id_nonempty (endpoint_id : string) :
  Main.is_tool_id endpoint_id = true -> String.eqb endpoint_id EmptyString = false.
Proof. by destruct endpoint_id. Qed.

Lemma execute_tool_run (endpoint_id : string) (endpoint : Registry.EndpointMetadata)
      (argv : list string) (w : World) :
  Main.argv_of (if Py.truthy (Py.dict_get (Registry.parameters endpoint) "command"
                                (Py.VStr endpoint_id))
                then [Py.dict_get (Registry.parameters endpoint) "command"
                        (Py.VStr endpoint_id); Py.VStr "--version"]
                else [Py.VStr endpoint_id]) = Py.Ok argv ->
  try_except (Main.execute_tool host endpoint_id endpoint)
             (fun e => ret (boundary_failure e)) w
  = (Py.Ok (tool_response (Registry.name endpoint) (run host argv 5)), w).
Proof.
  intros Hargv.
  unfold Main.execute_tool, subprocess_run, try_except, bind, lift, ret.
  cbv zeta. rewrite Hargv. unfold tool_response.
  destruct (run host argv 5) as [result|e]; [|reflexivity].
  cbv beta iota. destruct (returncode result =? 0); reflexivity.
Qed.

(** X12: a registered id of a tool namespace re-runs one fixed query
    with a bound of 5 seconds: [command --version] for the command the
    entry carries, the id itself in place of a missing command, and the
    id alone, without [--version], when the command is the empty text.
    Exit 0 is answered with the captured output, another exit code with
    the captured errors as a failure, and an exception of the query, a
    timeout included, with the failure of the dispatcher boundary. *)
Theorem execute_tool_outcome (endpoint_id : string) (request : Main.ExecuteRequest)
        (w : World) (endpoint : Registry.EndpointMetadata) :
  Registry.get endpoint_id (registry w) = Some endpoint ->
  Main.is_tool_id endpoint_id = true ->
  (forall command,
      Registry.parameters endpoint !! "command" = Some (Py.VStr command) ->
      String.eqb command EmptyString = false ->
      Main.execute_endpoint host endpoint_id request w
      = (Py.Ok (tool_response (Registry.name endpoint)
                  (run host [command; "--version"] 5)), w))
  /\ (Registry.parameters endpoint !! "command" = None ->
      Main.execute_endpoint host endpoint_id request w
      = (Py.Ok (tool_response (Registry.name endpoint)
                  (run host [endpoint_id; "--version"] 5)), w))
  /\ (Registry.parameters endpoint !! "command" = Some (Py.VStr EmptyString) ->
      Main.execute_endpoint host endpoint_id request w
      = (Py.Ok (tool_response (Registry.name endpoint)
                  (run host [endpoint_id] 5)), w)).
Proof.
  intros Hget Htool.
  rewrite (execute_registered host _ _ _ _ Hget).
  unfold Main.strategy. rewrite Htool.
  split; [|split].
  - intros command Hcmd Hne. apply execute_tool_run.
    unfold Py.dict_get. rewrite Hcmd. simpl. by rewrite Hne.
  - intros Hcmd. apply execute_tool_run.
    unfold Py.dict_get. rewrite Hcmd. simpl.
    by rewrite (is_tool_id_nonempty _ Htool).
  - intros Hcmd. apply execute_tool_run.
    unfold Py.dict_get. by rewrite Hcmd.
Qed.

(** X13: a registered id outside the tool namespaces that is neither
    [system_info] nor [git_repo] falls through: outside the sample
    namespace it is acknowledged with its name and id, and inside the
    sample namespace an id that names none of the 14 operations is
    answered as an unknown sample module, a failure. *)
Theorem dispatch_fallbacks (endpoint_id : string) (request : Main.ExecuteRequest)
        (w : World) (endpoint : Registry.EndpointMetadata) :
  Registry.get endpoint_id (registry w) = Some endpoint ->
  Main.is_tool_id endpoint_id = false ->
  String.eqb endpoint_id "system_info" = false ->
  String.eqb endpoint_id "git_repo" = false ->
  (PyStr.startswith endpoint_id "sample_" = false ->
   Main.execute_endpoint host endpoint_id request w
   = (Py.Ok (Main.mk_ExecuteResponse true
               ("Endpoint " +:+ Registry.name endpoint +:+ " executed")
               (Some ("Endpoint ID: " +:+ endpoint_id))), w))
  /\ (PyStr.startswith endpoint_id "sample_" = true ->
      endpoint_id ∉ Discovery.row_id <$> Discovery.sample_modules ->
      Main.execute_endpoint host endpoint_id request w
      = (Py.Ok (Main.mk_ExecuteResponse false
                  ("Unknown sample module: " +:+ endpoint_id) None), w)).
Proof.
  intros Hget Htool Hsys Hgit.
  rewrite (execute_registered host _ _ _ _ Hget).
  unfold Main.strategy. rewrite Htool, Hsys, Hgit.
  split.
  - by intros ->.
  - intros -> Hnot.
    assert (forall s, s ∈ Discovery.row_id <$> Discovery.sample_modules ->
                      String.eqb endpoint_id s = false) as Hf.
    { intros s Hs. apply String.eqb_neq. by intros ->. }
    unfold Main.execute_sample.
    rewrite !Hf by (rewrite list_elem_of_In; simpl; tauto).
    reflexivity.
Qed.

End DispatchMore.

(** ** Sample operations at their edges *)
Section SampleMore.
Import Sys Spec.
Local Open Scope py_scope.
Context `{Py.Runtime} (host : Host).

Ltac into_sample Hsub :=
  match goal with
  | |- context [Main.execute_endpoint _ ?id _ ?w] =>
      let ep := fresh "endpoint" in
      let Hget := fresh "Hget" in
      destruct (sample_id_registered w id Hsub) as (ep & Hget);
      [ rewrite list_elem_of_In; simpl; tauto
      | rewrite !(execute_sample_branch host id _ w ep Hget
                    eq_refl eq_refl eq_refl eq_refl), ?params_of_some ]
  end.

Lemma sample_upper_body (params : gmap string Py.value) :
  Main.execute_sample host "sample_text_uppercase" params
  = (result <- lift (Py.upper (Py.dict_get params "input" (Py.VStr EmptyString))) ;;
     lift (Main.ExecuteResponse_of true "Text converted to uppercase" result)).
Proof. reflexivity. Qed.

Lemma sample_lower_body (params : gmap string Py.value) :
  Main.execute_sample host "sample_text_lowercase" params
  = (result <- lift (Py.lower (Py.dict_get params "input" (Py.VStr EmptyString))) ;;
     lift (Main.ExecuteResponse_of true "Text converted to lowercase" result)).
Proof. reflexivity. Qed.

Lemma sample_reverse_body (params : gmap string Py.value) :
  Main.execute_sample host "sample_text_reverse" params
  = (result <- lift (Py.reversed (Py.dict_get params "input" (Py.VStr EmptyString))) ;;
     lift (Main.ExecuteResponse_of true "Text reversed" result)).
Proof. reflexivity. Qed.

Lemma sample_word_count_body (params : gmap string Py.value) :
  Main.execute_sample host "sample_text_word_count" params
  = (words <- lift (Py.split (Py.dict_get params "input" (Py.VStr EmptyString))) ;;
     ret (Main.mk_ExecuteResponse true "Word count calculated"
            (Some (Py.str (Py.VInt (Z.of_nat (List.length words))))))).
Proof. reflexivity. Qed.

Lemma sample_replace_body (params : gmap string Py.value) :
  Main.execute_sample host "sample_string_replace" params
  = ret (Main.mk_ExecuteResponse true "Text replaced"
           (Some (PyStr.replace
                    (Py.str (Py.dict_get params "text" (Py.VStr EmptyString)))
                    (Py.str (Py.dict_get params "old" (Py.VStr EmptyString)))
                    (Py.str (Py.dict_get params "new" (Py.VStr EmptyString)))))).
Proof. reflexivity. Qed.

Lemma upper_of_other (v : Py.value) :
  (forall s, v <> Py.VStr s) -> Py.upper v = Py.Raise (Py.no_attribute v "upper").
Proof. intros Hv. destruct v; try reflexivity. by destruct (Hv s). Qed.

Lemma lower_of_other (v : Py.value) :
  (forall s, v <> Py.VStr s) -> Py.lower v = Py.Raise (Py.no_attribute v "lower").
Proof. intros Hv. destruct v; try reflexivity. by destruct (Hv s). Qed.

Lemma split_of_other (v : Py.value) :
  (forall s, v <> Py.VStr s) -> Py.split v = Py.Raise (Py.no_attribute v "split").
Proof. intros Hv. destruct v; try reflexivity. by destruct (Hv s). Qed.

(** X14: the text operations treat an absent [input] as the empty text
    and refuse an [input] that is not text: without [input], uppercase
    and lowercase answer the empty text and the word count answers 0;
    with a number, a list, a dict, a truth value or [null] as [input]
    each of the three answers a failure naming the missing [str] method,
    and none of them raises. *)
Theorem text_operations_need_text (w : World) (params : gmap string Py.value) :
  sample_ids ⊆ Registry.ids (registry w) ->
  (params !! "input" = None ->
   Main.execute_endpoint host "sample_text_uppercase"
     (Main.mk_ExecuteRequest (Some params)) w
   = (Py.Ok (Main.mk_ExecuteResponse true "Text converted to uppercase"
               (Some EmptyString)), w)
   /\ Main.execute_endpoint host "sample_text_lowercase"
        (Main.mk_ExecuteRequest (Some params)) w
      = (Py.Ok (Main.mk_ExecuteResponse true "Text converted to lowercase"
                  (Some EmptyString)), w)
   /\ Main.execute_endpoint host "sample_text_word_count"
        (Main.mk_ExecuteRequest (Some params)) w
      = (Py.Ok (Main.mk_ExecuteResponse true "Word count calculated" (Some "0")), w))
  /\ (forall v, params !! "input" = Some v -> (forall s, v <> Py.VStr s) ->
      Main.execute_endpoint host "sample_text_uppercase"
        (Main.mk_ExecuteRequest (Some params)) w
      = (Py.Ok (boundary_failure (Py.no_attribute v "upper")), w)
      /\ Main.execute_endpoint host "sample_text_lowercase"
           (Main.mk_ExecuteRequest (Some params)) w
         = (Py.Ok (boundary_failure (Py.no_attribute v "lower")), w)
      /\ Main.execute_endpoint host "sample_text_word_count"
           (Main.mk_ExecuteRequest (Some params)) w
         = (Py.Ok (boundary_failure (Py.no_attribute v "split")), w)).
Proof.
  intros Hsub. split.
  - intros Hnone.
    split; [|split]; into_sample Hsub;
      rewrite ?sample_upper_body, ?sample_lower_body, ?sample_word_count_body;
      unfold Py.dict_get; rewrite Hnone; reflexivity.
  - intros v Hsome Hv.
    split; [|split]; into_sample Hsub;
      rewrite ?sample_upper_body, ?sample_lower_body, ?sample_word_count_body;
      unfold Py.dict_get; rewrite Hsome;
      rewrite ?(upper_of_other v Hv), ?(lower_of_other v Hv), ?(split_of_other v Hv);
      reflexivity.
Qed.

Lemma rev_app_twice (s t u : string) :
  String.rev_app (String.rev_app s t) u = String.rev_app t (s +:+ u).
Proof.
  revert t u. induction s as [|c s IH]; intros t u; [reflexivity|].
  change (String.rev_app (String.rev_app s (String c t)) u
          = String.rev_app t (String c (s +:+ u))).
  by rewrite IH.
Qed.

Lemma append_empty_r (s : string) : s +:+ EmptyString = s.
Proof.
  induction s as [|c s IH]; [reflexivity|].
  change (String c (s +:+ EmptyString) = String c s). by rewrite IH.
Qed.

Lemma reverse_involutive (s : string) : PyStr.reverse (PyStr.reverse s) = s.
Proof.
  unfold PyStr.reverse, String.rev. rewrite rev_app_twice.
  change (s +:+ EmptyString = s). apply append_empty_r.
Qed.

(** X15: reversing a text and reversing the answer gives the text back;
    a list given as [input] is reversed by the slice but refused as an
    output, so the answer is the failure of the dispatcher boundary with
    the error text of the validator for the reversed list. *)
Theorem reverse_round_trip (w : World) (s : string) (l : list Py.value) :
  sample_ids ⊆ Registry.ids (registry w) ->
  Main.execute_endpoint host "sample_text_reverse"
    (Main.mk_ExecuteRequest (Some {[ "input" := Py.VStr s ]})) w
  = (Py.Ok (Main.mk_ExecuteResponse true "Text reversed"
              (Some (PyStr.reverse s))), w)
  /\ Main.execute_endpoint host "sample_text_reverse"
       (Main.mk_ExecuteRequest (Some {[ "input" := Py.VStr (PyStr.reverse s) ]})) w
     = (Py.Ok (Main.mk_ExecuteResponse true "Text reversed" (Some s)), w)
  /\ Main.execute_endpoint host "sample_text_reverse"
       (Main.mk_ExecuteRequest (Some {[ "input" := Py.VList l ]})) w
     = (Py.Ok (boundary_failure
                 (Py.Exn Py.ValidationError (Py.output_error (Py.VList (List.rev l))))),
        w).
Proof.
  intros Hsub.
  split; [|split]; into_sample Hsub; rewrite sample_reverse_body;
    unfold Py.dict_get; rewrite lookup_singleton_eq;
    unfold try_except, bind, lift; simpl;
    rewrite ?reverse_involutive; reflexivity.
Qed.

Lemma append_cons (c : ascii) (s t : string) :
  String c s +:+ t = String c (s +:+ t).
Proof. reflexivity. Qed.

Lemma length_append (s t : string) :
  String.length (s +:+ t) = (String.length s + String.length t)%nat.
Proof.
  induction s as [|c s IH]; [reflexivity|].
  rewrite append_cons. simpl. by rewrite IH.
Qed.

Lemma intersperse_nothing (s : string) : PyStr.intersperse_all EmptyString s = s.
Proof. induction s as [|c s IH]; [reflexivity|]. simpl. by rewrite IH. Qed.

Lemma length_intersperse (new s : string) :
  String.length (PyStr.intersperse_all new s)
  = (String.length s + (String.length s + 1) * String.length new)%nat.
Proof.
  induction s as [|c s IH]; simpl.
  - lia.
  - rewrite length_append. simpl. rewrite IH. lia.
Qed.

(** X16: the replace operation without [old]: with only [text] given
    the text comes back unchanged, and with [text] and [new] given the
    new text is put before every character and at the end, so the answer
    has the length of the text plus one more than that many copies of
    [new]. *)
Theorem replace_without_old (w : World) (text new : string) :
  sample_ids ⊆ Registry.ids (registry w) ->
  Main.execute_endpoint host "sample_string_replace"
    (Main.mk_ExecuteRequest (Some {[ "text" := Py.VStr text ]})) w
  = (Py.Ok (Main.mk_ExecuteResponse true "Text replaced" (Some text)), w)
  /\ (exists answer,
        Main.execute_endpoint host "sample_string_replace"
          (Main.mk_ExecuteRequest
             (Some (<["text" := Py.VStr text]> {[ "new" := Py.VStr new ]}))) w
        = (Py.Ok (Main.mk_ExecuteResponse true "Text replaced" (Some answer)), w)
        /\ answer = PyStr.intersperse_all new text
        /\ String.length answer
           = (String.length text + (String.length text + 1) * String.length new)%nat).
Proof.
  intros Hsub. split.
  - into_sample Hsub. rewrite sample_replace_body. unfold Py.dict_get.
    rewrite lookup_singleton_eq, !lookup_singleton_ne by done.
    unfold try_except, ret. simpl. unfold PyStr.replace.
    by rewrite intersperse_nothing.
  - exists (PyStr.intersperse_all new text).
    split; [|split; [reflexivity | apply length_intersperse]].
    into_sample Hsub. rewrite sample_replace_body. unfold Py.dict_get.
    rewrite lookup_insert_eq, !lookup_insert_ne by done.
    rewrite lookup_singleton_eq, lookup_singleton_ne by done.
    reflexivity.
Qed.

(** X17: the parse operation on other inputs: without [json_string] it
    parses the text of the empty object, as if that text had been given;
    with a [json_string] that is not text it answers the failure of the
    dispatcher boundary with the type error of [json.loads], not a JSON
    parse error. *)
Theorem parse_json_other_inputs (w : World) (params : gmap string Py.value) :
  sample_ids ⊆ Registry.ids (registry w) ->
  (params !! "json_string" = None ->
   Main.execute_endpoint host "sample_data_json_parse"
     (Main.mk_ExecuteRequest (Some params)) w
   = Main.execute_endpoint host "sample_data_json_parse"
       (Main.mk_ExecuteRequest (Some (<["json_string" := Py.VStr "{}"]> params))) w)
  /\ (forall v, params !! "json_string" = Some v -> (forall s, v <> Py.VStr s) ->
      Main.execute_endpoint host "sample_data_json_parse"
        (Main.mk_ExecuteRequest (Some params)) w
      = (Py.Ok (Main.mk_ExecuteResponse false
                  ("Error executing endpoint: "
                     +:+ "the JSON object must be str, bytes or bytearray, not "
                     +:+ Py.type_name v) None), w)).
Proof.
  intros Hsub. split.
  - intros Hnone. into_sample Hsub. rewrite !sample_json_parse_body.
    by rewrite (dict_get_absent _ _ _ Hnone).
  - intros v Hsome Hv. into_sample Hsub. rewrite sample_json_parse_body.
    unfold Py.dict_get. rewrite Hsome.
    destruct v; try reflexivity. by destruct (Hv s).
Qed.

Lemma sample_concat_body (params : gmap string Py.value) :
  Main.execute_sample host "sample_string_concat" params
  = ret (Main.mk_ExecuteResponse true "Strings concatenated"
           (Some (Py.str (Py.dict_get params "str1" (Py.VStr EmptyString))
                    +:+ Py.str (Py.dict_get params "str2" (Py.VStr EmptyString))))).
Proof. reflexivity. Qed.

Lemma sample_timestamp_body (params : gmap string Py.value) :
  Main.execute_sample host "sample_util_timestamp" params
  = (now <- datetime_now host ;;
     ret (Main.mk_ExecuteResponse true "Timestamp retrieved"
            (Some (Py.isoformat now)))).
Proof. reflexivity. Qed.

(** X21: three operations succeed for every parameter bag, whatever the
    kinds of the values in it: concatenation and replacement turn their
    arguments into text first, and the timestamp takes no argument; the
    timestamp answers the next reading of the clock and moves the clock
    on by one reading. *)
Theorem operations_that_always_succeed (w : World) (params : gmap string Py.value) :
  sample_ids ⊆ Registry.ids (registry w) ->
  (exists answer,
      Main.execute_endpoint host "sample_string_concat"
        (Main.mk_ExecuteRequest (Some params)) w
      = (Py.Ok (Main.mk_ExecuteResponse true "Strings concatenated" (Some answer)), w)
      /\ answer = Py.str (Py.dict_get params "str1" (Py.VStr EmptyString))
                    +:+ Py.str (Py.dict_get params "str2" (Py.VStr EmptyString)))
  /\ (exists answer,
        Main.execute_endpoint host "sample_string_replace"
          (Main.mk_ExecuteRequest (Some params)) w
        = (Py.Ok (Main.mk_ExecuteResponse true "Text replaced" (Some answer)), w))
  /\ Main.execute_endpoint host "sample_util_timestamp"
       (Main.mk_ExecuteRequest (Some params)) w
     = (Py.Ok (Main.mk_ExecuteResponse true "Timestamp retrieved"
                 (Some (Py.isoformat (clock host (clock_reads w))))),
        mk_World (registry w) (S (clock_reads w)) (random_draws w)).
Proof.
  intros Hsub. split; [|split].
  - eexists. split; [|reflexivity].
    into_sample Hsub. by rewrite sample_concat_body.
  - eexists. into_sample Hsub. by rewrite sample_replace_body.
  - into_sample Hsub. by rewrite sample_timestamp_body.
Qed.

End SampleMore.

(** ** From discovery to dispatch *)
Section ComposeMore.
Import Sys Spec.
Local Open Scope py_scope.
Context `{Py.Runtime} (host : Host).

Ltac head_clash H :=
  exfalso; cbv [head_char String.append] in H; discriminate H.

Lemma common_tool_body_keeps_command (tool : string)
      (entry : string * (string * string)) :
  keeps_key
    (if which_found host entry.1
     then version <- Discovery._get_version host entry.1 ;;
          endpoint <- Discovery.new_endpoint host ("tool_" +:+ entry.1)
                        entry.2.1 entry.2.2 "Tools"
                        [("command", Py.VStr entry.1);
                         ("version", Py.VStr version)] ;;
          Discovery.register endpoint
     else ret tt)
    ("tool_" +:+ tool)
    (fun ep => Registry.parameters ep !! "command" = Some (Py.VStr tool)).
Proof.
  intros w. destruct (which_found host entry.1);
    [|exists w; split; [reflexivity | left; reflexivity]].
  unfold bind at 1. rewrite get_version_total.
  eexists. split; [reflexivity|]. simpl.
  unfold Registry.register. simpl.
  destruct (decide (entry.1 = tool)) as [<-|Hne].
  - right. eexists. split; [apply lookup_insert_eq|]. simpl.
    rewrite lookup_insert_ne by done. apply lookup_insert_eq.
  - left. apply lookup_insert_ne. intros Heq. apply Hne.
    by apply (inj (String.app "tool_")) in Heq.
Qed.

Lemma common_tool_body_sets_command (entry : string * (string * string)) :
  which_found host entry.1 = true ->
  sets_key
    (if which_found host entry.1
     then version <- Discovery._get_version host entry.1 ;;
          endpoint <- Discovery.new_endpoint host ("tool_" +:+ entry.1)
                        entry.2.1 entry.2.2 "Tools"
                        [("command", Py.VStr entry.1);
                         ("version", Py.VStr version)] ;;
          Discovery.register endpoint
     else ret tt)
    ("tool_" +:+ entry.1)
    (fun ep => Registry.parameters ep !! "command" = Some (Py.VStr entry.1)).
Proof.
  intros Hfound w. rewrite Hfound.
  unfold bind at 1. rewrite get_version_total.
  eexists _, _. split; [reflexivity|]. simpl.
  unfold Registry.register. simpl.
  split; [apply lookup_insert_eq|]. simpl.
  rewrite lookup_insert_ne by done. apply lookup_insert_eq.
Qed.

Lemma common_tool_named (tool : string) :
  tool ∈ Discovery.common_tools.*1 -> String.eqb tool EmptyString = false.
Proof.
  simpl. rewrite !elem_of_cons, elem_of_nil.
  intros Hx. repeat (destruct Hx as [->|Hx]; [reflexivity|]). destruct Hx.
Qed.

Lemma tool_id_is_tool_id (tool : string) :
  Main.is_tool_id ("tool_" +:+ tool) = true.
Proof. destruct tool; reflexivity. Qed.

(** The entry a pass leaves under the id of a common tool that is on the
    search path carries the tool as its command. *)
Lemma discovered_tool_entry (w : World) (tool : string) :
  tool ∈ Discovery.common_tools.*1 ->
  which_found host tool = true ->
  exists w' ep,
    Discovery.discover_all host w = (pass_outcome host, w')
    /\ registry w' !! ("tool_" +:+ tool) = Some ep
    /\ Registry.parameters ep !! "command" = Some (Py.VStr tool).
Proof.
  intros Hin Hfound.
  apply list_elem_of_fmap in Hin as (entry & -> & Hentry).
  destruct (discover_sample_modules_adds host w) as (w1 & E1 & _).
  destruct (for_each_sets_key Discovery.common_tools _ ("tool_" +:+ entry.1) _
              (fun x _ => common_tool_body_keeps_command entry.1 x)
              (ex_intro _ entry
                 (conj Hentry (common_tool_body_sets_command entry Hfound)))
              w1) as (w2 & ep & E2 & Hep & HP).
  change (Discovery.discover_common_tools host w1 = (Py.Ok tt, w2)) in E2.
  destruct (discover_python_tools_adds host w2) as (w3 & E3 & _ & F3).
  destruct (discover_node_tools_adds host w3) as (w4 & E4 & _ & F4).
  destruct (discover_git_tools_adds host w4) as (w5 & E5 & _ & F5).
  destruct (discover_system_info_leaves host w5) as (w6 & E6 & _ & F6).
  exists w6, ep. split; [|split; [|exact HP]].
  - unfold Discovery.discover_all, bind. rewrite E1, E2, E3, E4, E5. exact E6.
  - rewrite F6, F5, F4, F3; [exact Hep|..].
    + intros Hx%(head_char_tool_ids host). head_clash Hx.
    + intros Hx%(head_char_tool_ids host). head_clash Hx.
    + intros [Hx _]%elem_of_git_ids. head_clash Hx.
    + intros [Hx _]%elem_of_system_ids. head_clash Hx.
Qed.

(** X18: a common tool that discovery found on the search path can be
    executed under its id [tool_<tool>]: the dispatcher runs
    [<tool> --version] with a bound of 5 seconds and answers by the
    outcome of that query. *)
Theorem discovered_tool_executes (w : World) (tool : string)
        (request : Main.ExecuteRequest) :
  tool ∈ Discovery.common_tools.*1 ->
  which_found host tool = true ->
  exists endpoint,
    Registry.get ("tool_" +:+ tool) (registry (Discovery.discover_all host w).2)
    = Some endpoint
    /\ Main.execute_endpoint host ("tool_" +:+ tool) request
         (Discovery.discover_all host w).2
       = (Py.Ok (tool_response (Registry.name endpoint)
                   (run host [tool; "--version"] 5)),
          (Discovery.discover_all host w).2).
Proof.
  intros Hin Hfound.
  destruct (discovered_tool_entry w tool Hin Hfound) as (w' & ep & E & Hep & Hcmd).
  rewrite (run_snd _ _ _ _ E). exists ep. split; [exact Hep|].
  rewrite (execute_registered host _ _ _ _ Hep).
  unfold Main.strategy.
  rewrite tool_id_is_tool_id.
  apply execute_tool_run.
  unfold Py.dict_get. rewrite Hcmd. simpl.
  by rewrite (common_tool_named tool Hin).
Qed.

(** X19: when the platform queries of a pass answer, the registered
    [system_info] entry holds their five answers, the processor
    included; executing [system_info] later asks the host of that time
    again, for four values, and answers with their text or, when one of
    them raises, with the failure of the dispatcher boundary; the entry
    in the registry plays no part in the answer. *)
Theorem system_info_snapshot (host_now : Host) (w : World)
        (request : Main.ExecuteRequest)
        (system release version machine processor : string) :
  platform_answers host = Py.Ok (system, release, version, machine, processor) ->
  exists endpoint,
    Registry.get "system_info" (registry (Discovery.discover_all host w).2)
    = Some endpoint
    /\ Registry.description endpoint = "System: " +:+ system +:+ " " +:+ release
    /\ Registry.parameters endpoint !! "system" = Some (Py.VStr system)
    /\ Registry.parameters endpoint !! "release" = Some (Py.VStr release)
    /\ Registry.parameters endpoint !! "version" = Some (Py.VStr version)
    /\ Registry.parameters endpoint !! "machine" = Some (Py.VStr machine)
    /\ Registry.parameters endpoint !! "processor" = Some (Py.VStr processor)
    /\ Main.execute_endpoint host_now "system_info" request
         (Discovery.discover_all host w).2
       = (Py.Ok (system_info_response host_now), (Discovery.discover_all host w).2).
Proof.
  intros Hanswers.
  destruct (discover_sample_modules_adds host w) as (w1 & E1 & _).
  destruct (discover_common_tools_adds host w1) as (w2 & E2 & _).
  destruct (discover_python_tools_adds host w2) as (w3 & E3 & _).
  destruct (discover_node_tools_adds host w3) as (w4 & E4 & _).
  destruct (discover_git_tools_adds host w4) as (w5 & E5 & _).
  assert (exists w6 ep,
            Discovery.discover_all host w = (Py.Ok tt, w6)
            /\ registry w6 !! "system_info" = Some ep
            /\ Registry.description ep = "System: " +:+ system +:+ " " +:+ release
            /\ Registry.parameters ep
               = list_to_map (List.rev
                   [("system", Py.VStr system);
                    ("release", Py.VStr release);
                    ("version", Py.VStr version);
                    ("machine", Py.VStr machine);
                    ("processor", Py.VStr processor)]))
    as (w6 & ep & E & Hep & Hdescription & Hparams).
  { unfold platform_answers, Py.rbind in Hanswers.
    destruct (platform_system host) as [a1|e] eqn:Q1; [|discriminate Hanswers].
    destruct (platform_release host) as [a2|e] eqn:Q2; [|discriminate Hanswers].
    destruct (platform_version host) as [a3|e] eqn:Q3; [|discriminate Hanswers].
    destruct (platform_machine host) as [a4|e] eqn:Q4; [|discriminate Hanswers].
    destruct (platform_processor host) as [a5|e] eqn:Q5; [|discriminate Hanswers].
    injection Hanswers as <- <- <- <- <-.
    eexists _, _. split; [|split; [|split]].
    - unfold Discovery.discover_all, bind. rewrite E1, E2, E3, E4, E5.
      unfold Discovery.discover_system_info, Discovery.new_endpoint,
        Discovery.register, bind, lift, datetime_now, modify_registry, ret.
      rewrite Q1, Q2, Q3, Q4, Q5.
      reflexivity.
    - unfold Registry.register. simpl. apply lookup_insert_eq.
    - reflexivity.
    - reflexivity. }
  rewrite (run_snd _ _ _ _ E). exists ep. split; [exact Hep|].
  split; [exact Hdescription|].
  rewrite Hparams.
  split; [reflexivity|]. split; [reflexivity|]. split; [reflexivity|].
  split; [reflexivity|]. split; [reflexivity|].
  rewrite (execute_registered host_now _ _ _ _ Hep).
  unfold Main.strategy, system_info_response, Py.rbind.
  change (Main.is_tool_id "system_info") with false.
  change (String.eqb "system_info" "system_info") with true. cbv iota.
  unfold Main.execute_system_info, try_except, bind, lift, ret.
  destruct (platform_system host_now) as [b1|e]; [|reflexivity].
  destruct (platform_release host_now) as [b2|e]; [|reflexivity].
  destruct (platform_version host_now) as [b3|e]; [|reflexivity].
  destruct (platform_machine host_now) as [b4|e]; reflexivity.
Qed.

End ComposeMore.

(** ** The recorded version is one line *)
Section VersionMore.
Import Sys Spec.

Lemma contains_char_rev_app (c : ascii) (s t : string) :
  PyStr.contains_char c (String.rev_app s t)
  = PyStr.contains_char c s || PyStr.contains_char c t.
Proof.
  revert t. induction s as [|d s IH]; intros t; [reflexivity|].
  simpl. rewrite IH. simpl.
  destruct (Ascii.eqb c d), (PyStr.contains_char c s); reflexivity.
Qed.

Lemma split_char_go_pieces (sep : ascii) (s cur : string) :
  PyStr.contains_char sep cur = false ->
  Forall (fun piece => PyStr.contains_char sep piece = false)
         (PyStr.split_char_go sep cur s).
Proof.
  revert cur. induction s as [|c s IH]; intros cur Hcur; simpl.
  - apply Forall_singleton. unfold String.rev.
    by rewrite contains_char_rev_app, Hcur.
  - destruct (Ascii.eqb c sep) eqn:E.
    + apply Forall_cons. split.
      * unfold String.rev. by rewrite contains_char_rev_app, Hcur.
      * by apply IH.
    + apply IH. simpl. rewrite Ascii.eqb_sym in E. by rewrite E, Hcur.
Qed.

Lemma first_line_one_line (s : string) :
  PyStr.contains_char "010"%char (first_line s) = false.
Proof.
  unfold first_line, PyStr.split_char.
  pose proof (split_char_go_pieces "010"%char s EmptyString eq_refl) as Hall.
  destruct (PyStr.split_char_go "010"%char EmptyString s) as [|x l]; [reflexivity|].
  by apply Forall_cons in Hall as [Hx _].
Qed.

(** X20: on every host and for every command the version query returns
    a text without a line break, and it leaves the world as it was. *)
Theorem version_is_one_line (host : Host) (command : string) (w : World) :
  exists version,
    Discovery._get_version host command w = (Py.Ok version, w)
    /\ PyStr.contains_char "010"%char version = false.
Proof.
  exists (version_of (run host [command; "--version"] 2)).
  split; [apply get_version_total|].
  unfold version_of. destruct (run host _ 2) as [result|e]; [|reflexivity].
  destruct (returncode result =? 0); [apply first_line_one_line | reflexivity].
Qed.

End VersionMore.

(** ** Numbers, data and the modules of the catalog *)
Section SampleEdges.
Import Sys Spec.
Local Open Scope py_scope.
Context `{Py.Runtime} (host : Host).

Ltac into_sample Hsub :=
  match goal with
  | |- context [Main.execute_endpoint _ ?id _ ?w] =>
      let ep := fresh "endpoint" in
      let Hget := fresh "Hget" in
      destruct (sample_id_registered w id Hsub) as (ep & Hget);
      [ rewrite list_elem_of_In; simpl; tauto
      | rewrite !(execute_sample_branch host id _ w ep Hget
                    eq_refl eq_refl eq_refl eq_refl), ?params_of_some ]
  end.

Lemma sample_stringify_body (params : gmap string Py.value) :
  Main.execute_sample host "sample_data_json_stringify" params
  = try_except
      (result <- lift (Py.json_dumps (Py.dict_get params "data" (Py.VDict []))) ;;
       ret (Main.mk_ExecuteResponse true "Data stringified to JSON" (Some result)))
      (fun e => ret (Main.mk_ExecuteResponse false
                       ("JSON stringify error: " +:+ Py.str_exn e) None)).
Proof. reflexivity. Qed.

Lemma sample_delay_body (params : gmap string Py.value) :
  Main.execute_sample host "sample_util_delay" params
  = (seconds <- lift (Py.to_float (Py.dict_get params "seconds" (Py.VInt 1))) ;;
     Main.asyncio_sleep seconds ;;;
     ret (Main.mk_ExecuteResponse true
            ("Delayed for " +:+ Py.str (Py.VFloat seconds) +:+ " seconds")
            (Some "Delay completed"))).
Proof. reflexivity. Qed.

Lemma sample_random_body (params : gmap string Py.value) :
  Main.execute_sample host "sample_util_random" params
  = (min_val <- lift (Py.to_float (Py.dict_get params "min" (Py.VInt 0))) ;;
     max_val <- lift (Py.to_float (Py.dict_get params "max" (Py.VInt 100))) ;;
     result <- Main.random_uniform host min_val max_val ;;
     ret (Main.mk_ExecuteResponse true "Random number generated"
            (Some (Py.str (Py.VFloat result))))).
Proof. reflexivity. Qed.

(** X22: the five operations that take numbers check their first
    argument: when [float()] refuses the value given for it, each of
    them answers the failure of the dispatcher boundary with the text of
    that exception, none raises, and the process state stays as it was;
    the random operation draws no number then. *)
Theorem numeric_arguments_checked (w : World) (params : gmap string Py.value)
        (v : Py.value) (e : Py.exn) :
  sample_ids ⊆ Registry.ids (registry w) ->
  Py.to_float v = Py.Raise e ->
  (params !! "a" = Some v ->
   Main.execute_endpoint host "sample_math_add"
     (Main.mk_ExecuteRequest (Some params)) w = (Py.Ok (boundary_failure e), w)
   /\ Main.execute_endpoint host "sample_math_multiply"
        (Main.mk_ExecuteRequest (Some params)) w = (Py.Ok (boundary_failure e), w))
  /\ (params !! "base" = Some v ->
      Main.execute_endpoint host "sample_math_power"
        (Main.mk_ExecuteRequest (Some params)) w = (Py.Ok (boundary_failure e), w))
  /\ (params !! "seconds" = Some v ->
      Main.execute_endpoint host "sample_util_delay"
        (Main.mk_ExecuteRequest (Some params)) w = (Py.Ok (boundary_failure e), w))
  /\ (params !! "min" = Some v ->
      Main.execute_endpoint host "sample_util_random"
        (Main.mk_ExecuteRequest (Some params)) w = (Py.Ok (boundary_failure e), w)).
Proof.
  intros Hsub Hv.
  split; [|split; [|split]]; intros Hsome; [split| | |];
    into_sample Hsub;
    rewrite ?sample_math_add_body, ?sample_math_multiply_body,
      ?sample_math_power_body, ?sample_delay_body, ?sample_random_body;
    unfold Py.dict_get; rewrite Hsome;
    unfold try_except, bind, lift; rewrite Hv; reflexivity.
Qed.

(** X23: the stringify operation handles every failure of [json.dumps]
    itself: when the serializer returns a text the answer carries it,
    when it raises, whatever the exception, the answer is the stringify
    failure with the text of the exception and not the failure of the
    dispatcher boundary; an absent [data] is the empty object. *)
Theorem stringify_outcome (w : World) (params : gmap string Py.value) :
  sample_ids ⊆ Registry.ids (registry w) ->
  (forall text, Py.json_dumps (Py.dict_get params "data" (Py.VDict [])) = Py.Ok text ->
     Main.execute_endpoint host "sample_data_json_stringify"
       (Main.mk_ExecuteRequest (Some params)) w
     = (Py.Ok (Main.mk_ExecuteResponse true "Data stringified to JSON" (Some text)), w))
  /\ (forall e, Py.json_dumps (Py.dict_get params "data" (Py.VDict [])) = Py.Raise e ->
        Main.execute_endpoint host "sample_data_json_stringify"
          (Main.mk_ExecuteRequest (Some params)) w
        = (Py.Ok (Main.mk_ExecuteResponse false
                    ("JSON stringify error: " +:+ Py.str_exn e) None), w)
        /\ Main.mk_ExecuteResponse false ("JSON stringify error: " +:+ Py.str_exn e) None
           <> boundary_failure e)
  /\ (params !! "data" = None ->
      Main.execute_endpoint host "sample_data_json_stringify"
        (Main.mk_ExecuteRequest (Some params)) w
      = Main.execute_endpoint host "sample_data_json_stringify"
          (Main.mk_ExecuteRequest (Some (<["data" := Py.VDict []]> params))) w).
Proof.
  intros Hsub. split; [|split].
  - intros text Htext. into_sample Hsub. rewrite sample_stringify_body.
    unfold try_except, bind, lift. by rewrite Htext.
  - intros e He. split.
    + into_sample Hsub. rewrite sample_stringify_body.
      unfold try_except, bind, lift. by rewrite He.
    + unfold boundary_failure. intros Heq. inversion Heq.
  - intros Hnone. into_sample Hsub. rewrite !sample_stringify_body.
    by rewrite (dict_get_absent _ _ _ Hnone).
Qed.

(** X24: the random operation answers with [min + (max - min) * u] for
    the next unit number [u] of the generator and uses up exactly that
    one number, so a second call answers from the number after it; the
    registry and the clock are not touched. *)
Theorem random_uses_one_draw (w : World) (params : gmap string Py.value)
        (a b : float) :
  sample_ids ⊆ Registry.ids (registry w) ->
  Py.to_float (Py.dict_get params "min" (Py.VInt 0)) = Py.Ok a ->
  Py.to_float (Py.dict_get params "max" (Py.VInt 100)) = Py.Ok b ->
  let answer n :=
    Main.mk_ExecuteResponse true "Random number generated"
      (Some (Py.float_repr (a + (b - a) * random_unit host n)%float)) in
  let after n := mk_World (registry w) (clock_reads w) n in
  Main.execute_endpoint host "sample_util_random"
    (Main.mk_ExecuteRequest (Some params)) w
  = (Py.Ok (answer (random_draws w)), after (S (random_draws w)))
  /\ Main.execute_endpoint host "sample_util_random"
       (Main.mk_ExecuteRequest (Some params)) (after (S (random_draws w)))
     = (Py.Ok (answer (S (random_draws w))), after (S (S (random_draws w)))).
Proof.
  intros Hsub Ha Hb answer after.
  assert (sample_ids ⊆ Registry.ids (registry (after (S (random_draws w)))))
    as Hsub' by exact Hsub.
  split.
  - into_sample Hsub. rewrite sample_random_body.
    unfold try_except, bind, lift. by rewrite Ha, Hb.
  - into_sample Hsub'. rewrite sample_random_body.
    unfold try_except, bind, lift. by rewrite Ha, Hb.
Qed.

Lemma try_except_returns {A} (body : M A) (f : Py.exn -> A) (e : Py.exn)
      (w : World) :
  (try_except body (fun e => ret (f e)) w).1 <> Py.Raise e.
Proof.
  unfold try_except, ret. by destruct (body w) as [[a|e'] w'].
Qed.

Lemma try_except_never {A} (body : M A) (f : Py.exn -> A) (bad : A) (w : World) :
  (body w).1 <> Py.Ok bad ->
  (forall e, f e <> bad) ->
  (try_except body (fun e => ret (f e)) w).1 <> Py.Ok bad.
Proof.
  intros Hbody Hhandler. unfold try_except, ret.
  destruct (body w) as [[a|e] w'] eqn:E; [exact Hbody|].
  intros [= Heq]. by apply (Hhandler e).
Qed.

Ltac other_answer :=
  unfold try_except_class, try_except, bind, lift, ret, raise,
    Main.random_uniform, Main.asyncio_sleep, random_random, datetime_now,
    Main.ExecuteResponse_of;
  repeat (cbv beta iota;
          match goal with
          | |- context [match ?x with _ => _ end] =>
              lazymatch x with
              | context [match _ with _ => _ end] => fail
              | _ => destruct x
              end
          end);
  cbn; intros Heq; inversion Heq.

(** X25: the catalog and the dispatcher agree: after the start-up pass,
    whatever was registered before, executing the id of any row of the
    sample catalog is never answered as not found and never as an
    unknown sample module, for every parameter bag. *)
Theorem catalog_is_implemented (w : World) (row : Discovery.module_row)
        (request : Main.ExecuteRequest) :
  row ∈ Discovery.sample_modules ->
  let started := (Main.startup_event host w).2 in
  let outcome := (Main.execute_endpoint host (Discovery.row_id row) request started).1 in
  outcome <> Py.Raise (NotFound (Discovery.row_id row))
  /\ outcome <> Py.Ok (Main.mk_ExecuteResponse false
                         ("Unknown sample module: " +:+ Discovery.row_id row) None).
Proof.
  intros Hrow started outcome. subst started outcome.
  unfold Main.startup_event.
  destruct (discover_all_leaves host w) as (w1 & E & D & _).
  rewrite (run_snd _ _ _ _ E).
  assert (sample_ids ⊆ Registry.ids (registry w1)) as Hsub.
  { rewrite D. intros x Hx. apply elem_of_union. right.
    apply elem_of_discovered_ids. by left. }
  clear E D.
  unfold Discovery.sample_modules in Hrow.
  rewrite !elem_of_cons, elem_of_nil in Hrow.
  repeat (destruct Hrow as [->|Hrow]); [..|destruct Hrow];
    cbv [Discovery.row_id]; into_sample Hsub;
    (split; [apply try_except_returns|];
     apply try_except_never;
     [|intros e; unfold boundary_failure; cbn; intros Heq; inversion Heq]).
  all: rewrite ?sample_upper_body, ?sample_lower_body, ?sample_reverse_body,
         ?sample_word_count_body, ?sample_math_add_body, ?sample_math_multiply_body,
         ?sample_math_power_body, ?sample_json_parse_body, ?sample_stringify_body,
         ?sample_delay_body, ?sample_timestamp_body, ?sample_random_body,
         ?sample_concat_body, ?sample_replace_body.
  all: other_answer.
Qed.

End SampleEdges.

(** ** Closed instances of the further properties *)
Section MoreInstances.
Import Sys Spec.

Ltac evaluated := apply (bool_decide_unpack _); vm_compute; exact I.

Lemma unregister_undoes_register_witness :
  Registry.get (Registry.id git_entry_old) Registry.init = None
  /\ Registry.unregister (Registry.id git_entry_old)
       (Registry.register git_entry_old Registry.init) = Py.Ok Registry.init.
Proof.
  split; [reflexivity|].
  destruct (unregister_undoes_register Registry.init git_entry_old eq_refl)
    as (Hback & _).
  exact Hback.
Defined.

Lemma listed_ids_unique_witness :
  well_keyed (Registry.register git_entry_new Registry.init)
  /\ NoDup (Registry.id <$> Registry.get_all
                             (Registry.register git_entry_new Registry.init))
  /\ length (Registry.get_all (Registry.register git_entry_new Registry.init))
     = Registry.count (Registry.register git_entry_new Registry.init).
Proof.
  assert (well_keyed (Registry.register git_entry_new Registry.init)) as Hwk.
  { apply well_keyed_register, well_keyed_empty. }
  split; [exact Hwk|].
  destruct (listed_ids_unique _ Hwk) as (Hnodup & _ & Hlen).
  split; [exact Hnodup | exact Hlen].
Defined.

Lemma tool_listed_iff_present_witness :
  ("python_", Discovery.python_tools) ∈ tool_tables
  /\ "pip" ∈ Discovery.python_tools.*1
  /\ ("python_" +:+ "pip"
        ∈ Registry.ids (registry (Main.refresh_discovery git_host fresh).2)
      <-> which_found git_host "pip" = true).
Proof.
  assert (("python_", Discovery.python_tools) ∈ tool_tables) as Htab.
  { unfold tool_tables. rewrite !elem_of_cons. tauto. }
  assert ("pip" ∈ Discovery.python_tools.*1) as Htool.
  { simpl. rewrite !elem_of_cons. tauto. }
  split; [exact Htab|]. split; [exact Htool|].
  apply (tool_listed_iff_present git_host fresh _ _ _ Htab Htool).
Defined.

Lemma refresh_forgets_stale_ids_witness :
  "custom_probe" ∈ Registry.ids (registry manual_world)
  /\ "custom_probe" ∈ Registry.ids (registry (Discovery.discover_all git_host manual_world).2)
  /\ ("custom_probe" ∉ Registry.ids (registry (Main.refresh_discovery git_host fresh).2) ->
      "custom_probe" ∉ Registry.ids (registry (Main.refresh_discovery git_host manual_world).2)).
Proof.
  assert ("custom_probe" ∈ Registry.ids (registry manual_world)) as Hin.
  { evaluated. }
  split; [exact Hin|].
  destruct (refresh_forgets_stale_ids git_host manual_world
              "custom_probe" Hin) as (Hkept & _ & Hgone).
  split; [exact Hkept | exact Hgone].
Defined.

Lemma execute_tool_outcome_witness :
  Registry.get "tool_git" (registry manual_world) = Some git_entry_old
  /\ Main.is_tool_id "tool_git" = true
  /\ Main.execute_endpoint (H:=sample_runtime) git_host "tool_git" (request_of [])
       manual_world
     = (Py.Ok (Main.mk_ExecuteResponse true "Successfully executed Git"
                 (Some (LF +:+ "git version 2.43.0" +:+ LF))), manual_world).
Proof.
  split; [reflexivity|]. split; [reflexivity|].
  destruct (execute_tool_outcome (H:=sample_runtime) git_host "tool_git" (request_of [])
              manual_world git_entry_old eq_refl eq_refl) as (Hcmd & _).
  apply (Hcmd "git"); reflexivity.
Defined.

Lemma dispatch_fallbacks_witness :
  Registry.get "custom_probe" (registry manual_world) = Some custom_entry
  /\ Main.is_tool_id "custom_probe" = false
  /\ String.eqb "custom_probe" "system_info" = false
  /\ String.eqb "custom_probe" "git_repo" = false
  /\ Main.execute_endpoint (H:=sample_runtime) git_host "custom_probe" (request_of [])
       manual_world
     = (Py.Ok (Main.mk_ExecuteResponse true "Endpoint Custom Probe executed"
                 (Some "Endpoint ID: custom_probe")), manual_world).
Proof.
  split; [reflexivity|]. split; [reflexivity|]. split; [reflexivity|].
  split; [reflexivity|].
  destruct (dispatch_fallbacks (H:=sample_runtime) git_host "custom_probe" (request_of [])
              manual_world custom_entry eq_refl eq_refl eq_refl eq_refl)
    as (Hother & _).
  apply Hother. reflexivity.
Defined.

Lemma text_operations_need_text_witness :
  sample_ids ⊆ Registry.ids (registry (discovered git_host))
  /\ Main.execute_endpoint (H:=sample_runtime) git_host "sample_text_word_count"
       (Main.mk_ExecuteRequest (Some {[ "input" := Py.VInt 7 ]})) (discovered git_host)
     = (Py.Ok (boundary_failure (Py.no_attribute (Py.VInt 7) "split")),
        discovered git_host).
Proof.
  assert (sample_ids ⊆ Registry.ids (registry (discovered git_host))) as Hsub.
  { evaluated. }
  split; [exact Hsub|].
  destruct (text_operations_need_text (H:=sample_runtime) git_host (discovered git_host)
              {[ "input" := Py.VInt 7 ]} Hsub) as (_ & Hother).
  destruct (Hother (Py.VInt 7) eq_refl) as (_ & _ & Hcount); [discriminate|].
  exact Hcount.
Defined.

Lemma reverse_round_trip_witness :
  sample_ids ⊆ Registry.ids (registry (discovered git_host))
  /\ Main.execute_endpoint (H:=sample_runtime) git_host "sample_text_reverse"
       (Main.mk_ExecuteRequest (Some {[ "input" := Py.VStr (PyStr.reverse "abc") ]}))
       (discovered git_host)
     = (Py.Ok (Main.mk_ExecuteResponse true "Text reversed" (Some "abc")),
        discovered git_host).
Proof.
  assert (sample_ids ⊆ Registry.ids (registry (discovered git_host))) as Hsub.
  { evaluated. }
  split; [exact Hsub|].
  destruct (reverse_round_trip (H:=sample_runtime) git_host (discovered git_host)
              "abc" [] Hsub) as (_ & Hback & _).
  exact Hback.
Defined.

Lemma replace_without_old_witness :
  sample_ids ⊆ Registry.ids (registry (discovered git_host))
  /\ Main.execute_endpoint (H:=sample_runtime) git_host "sample_string_replace"
       (Main.mk_ExecuteRequest (Some {[ "text" := Py.VStr "ab" ]})) (discovered git_host)
     = (Py.Ok (Main.mk_ExecuteResponse true "Text replaced" (Some "ab")),
        discovered git_host).
Proof.
  assert (sample_ids ⊆ Registry.ids (registry (discovered git_host))) as Hsub.
  { evaluated. }
  split; [exact Hsub|].
  destruct (replace_without_old (H:=sample_runtime) git_host (discovered git_host)
              "ab" "-" Hsub) as (Hsame & _).
  exact Hsame.
Defined.

Lemma parse_json_other_inputs_witness :
  sample_ids ⊆ Registry.ids (registry (discovered git_host))
  /\ Main.execute_endpoint (H:=sample_runtime) git_host "sample_data_json_parse"
       (Main.mk_ExecuteRequest (Some {[ "json_string" := Py.VInt 5 ]}))
       (discovered git_host)
     = (Py.Ok (Main.mk_ExecuteResponse false
                 ("Error executing endpoint: "
                    +:+ "the JSON object must be str, bytes or bytearray, not "
                    +:+ Py.type_name (Py.VInt 5)) None), discovered git_host).
Proof.
  assert (sample_ids ⊆ Registry.ids (registry (discovered git_host))) as Hsub.
  { evaluated. }
  split; [exact Hsub|].
  destruct (parse_json_other_inputs (H:=sample_runtime) git_host (discovered git_host)
              {[ "json_string" := Py.VInt 5 ]} Hsub) as (_ & Hother).
  apply (Hother (Py.VInt 5)); [reflexivity | discriminate].
Defined.

Lemma operations_that_always_succeed_witness :
  sample_ids ⊆ Registry.ids (registry (discovered git_host))
  /\ exists answer,
      Main.execute_endpoint (H:=sample_runtime) git_host "sample_string_concat"
        (Main.mk_ExecuteRequest (Some {[ "str1" := Py.VInt 1 ]})) (discovered git_host)
      = (Py.Ok (Main.mk_ExecuteResponse true "Strings concatenated" (Some answer)),
         discovered git_host)
      /\ answer = "1".
Proof.
  assert (sample_ids ⊆ Registry.ids (registry (discovered git_host))) as Hsub.
  { evaluated. }
  split; [exact Hsub|].
  destruct (operations_that_always_succeed (H:=sample_runtime) git_host
              (discovered git_host) {[ "str1" := Py.VInt 1 ]} Hsub)
    as ((answer & Hrun & ->) & _).
  eexists. split; [exact Hrun | reflexivity].
Defined.

Lemma discovered_tool_executes_witness :
  "git" ∈ Discovery.common_tools.*1
  /\ which_found git_host "git" = true
  /\ exists endpoint,
      Registry.get ("tool_" +:+ "git") (registry (Discovery.discover_all git_host fresh).2)
      = Some endpoint
      /\ Main.execute_endpoint (H:=sample_runtime) git_host ("tool_" +:+ "git")
           (request_of []) (Discovery.discover_all git_host fresh).2
         = (Py.Ok (tool_response (Registry.name endpoint)
                     (run git_host ["git"; "--version"] 5)),
            (Discovery.discover_all git_host fresh).2).
Proof.
  assert ("git" ∈ Discovery.common_tools.*1) as Hin.
  { simpl. rewrite !elem_of_cons. tauto. }
  split; [exact Hin|]. split; [reflexivity|].
  apply (discovered_tool_executes (H:=sample_runtime) git_host fresh "git"
           (request_of []) Hin eq_refl).
Defined.

Lemma system_info_snapshot_witness :
  platform_answers git_host = Py.Ok ("Linux", "6.1.0", "#1 SMP", "x86_64", "x86_64")
  /\ exists endpoint,
      Registry.get "system_info" (registry (Discovery.discover_all git_host fresh).2)
      = Some endpoint
      /\ Registry.parameters endpoint !! "release" = Some (Py.VStr "6.1.0")
      /\ Registry.parameters endpoint !! "processor" = Some (Py.VStr "x86_64")
      /\ Main.execute_endpoint (H:=sample_runtime) (rebooted git_host) "system_info"
           (request_of []) (Discovery.discover_all git_host fresh).2
         = (Py.Ok (system_info_response (H:=sample_runtime) (rebooted git_host)),
            (Discovery.discover_all git_host fresh).2).
Proof.
  split; [reflexivity|].
  destruct (system_info_snapshot (H:=sample_runtime) git_host (rebooted git_host) fresh
              (request_of []) "Linux" "6.1.0" "#1 SMP" "x86_64" "x86_64" eq_refl)
    as (endpoint & Hget & _ & _ & Hrelease & _ & _ & Hprocessor & Hanswer).
  exists endpoint.
  split; [exact Hget|]. split; [exact Hrelease|]. split; [exact Hprocessor|].
  exact Hanswer.
Defined.

Lemma numeric_arguments_checked_witness :
  sample_ids ⊆ Registry.ids (registry (discovered git_host))
  /\ Py.to_float (H:=sample_runtime) (Py.VList [])
     = Py.Raise (Py.Exn Py.TypeError
                   "float() argument must be a string or a real number, not 'list'")
  /\ Main.execute_endpoint (H:=sample_runtime) git_host "sample_util_random"
       (Main.mk_ExecuteRequest (Some {[ "min" := Py.VList [] ]})) (discovered git_host)
     = (Py.Ok (boundary_failure
                 (Py.Exn Py.TypeError
                    "float() argument must be a string or a real number, not 'list'")),
        discovered git_host).
Proof.
  assert (sample_ids ⊆ Registry.ids (registry (discovered git_host))) as Hsub.
  { evaluated. }
  split; [exact Hsub|]. split; [reflexivity|].
  destruct (numeric_arguments_checked (H:=sample_runtime) git_host (discovered git_host)
              {[ "min" := Py.VList [] ]} (Py.VList []) _ Hsub eq_refl)
    as (_ & _ & _ & Hrandom).
  apply Hrandom. reflexivity.
Defined.

Lemma stringify_outcome_witness :
  sample_ids ⊆ Registry.ids (registry (discovered git_host))
  /\ Main.execute_endpoint (H:=sample_runtime) git_host "sample_data_json_stringify"
       (request_of []) (discovered git_host)
     = (Py.Ok (Main.mk_ExecuteResponse true "Data stringified to JSON" (Some "{}")),
        discovered git_host).
Proof.
  assert (sample_ids ⊆ Registry.ids (registry (discovered git_host))) as Hsub.
  { evaluated. }
  split; [exact Hsub|].
  destruct (stringify_outcome (H:=sample_runtime) git_host (discovered git_host)
              ∅ Hsub) as (Htext & _).
  apply (Htext "{}"). reflexivity.
Defined.

Lemma random_uses_one_draw_witness :
  sample_ids ⊆ Registry.ids (registry (discovered git_host))
  /\ Py.to_float (H:=sample_runtime) (Py.dict_get ∅ "min" (Py.VInt 0)) = Py.Ok 0%float
  /\ Py.to_float (H:=sample_runtime) (Py.dict_get ∅ "max" (Py.VInt 100)) = Py.Ok 100%float
  /\ Main.execute_endpoint (H:=sample_runtime) git_host "sample_util_random"
       (Main.mk_ExecuteRequest (Some ∅)) (discovered git_host)
     = (Py.Ok (Main.mk_ExecuteResponse true "Random number generated"
                 (Some (Py.float_repr (Runtime:=sample_runtime)
                          (0 + (100 - 0) * 0.5)%float))),
        mk_World (registry (discovered git_host))
          (clock_reads (discovered git_host))
          (S (random_draws (discovered git_host)))).
Proof.
  assert (sample_ids ⊆ Registry.ids (registry (discovered git_host))) as Hsub.
  { evaluated. }
  assert (Py.to_float (H:=sample_runtime) (Py.dict_get ∅ "min" (Py.VInt 0))
          = Py.Ok 0%float) as Hmin by (vm_compute; reflexivity).
  assert (Py.to_float (H:=sample_runtime) (Py.dict_get ∅ "max" (Py.VInt 100))
          = Py.Ok 100%float) as Hmax by (vm_compute; reflexivity).
  split; [exact Hsub|]. split; [exact Hmin|]. split; [exact Hmax|].
  destruct (random_uses_one_draw (H:=sample_runtime) git_host (discovered git_host)
              ∅ 0%float 100%float Hsub Hmin Hmax) as (Hfirst & _).
  exact Hfirst.
Defined.

Lemma catalog_is_implemented_witness :
  Discovery.mk_row "sample_util_timestamp" "Get Timestamp"
    "Gets the current timestamp" "Utilities" []
    ∈ Discovery.sample_modules
  /\ (Main.execute_endpoint (H:=sample_runtime) git_host "sample_util_timestamp"
        (request_of []) (Main.startup_event git_host fresh).2).1
     <> Py.Raise (NotFound "sample_util_timestamp").
Proof.
  assert (Discovery.mk_row "sample_util_timestamp" "Get Timestamp"
            "Gets the current timestamp" "Utilities" []
            ∈ Discovery.sample_modules) as Hrow.
  { unfold Discovery.sample_modules. rewrite !elem_of_cons. tauto. }
  split; [exact Hrow|].
  destruct (catalog_is_implemented (H:=sample_runtime) git_host fresh _
              (request_of []) Hrow) as (Hfound & _).
  exact Hfound.
Defined.

End MoreInstances.
